(** * core::posix::fork and core::posix::vfork (src/core/posix/fork.cpp)

    A shallow embedding of the process launcher of process-cpp: the two
    launch functions, the stream redirector and the backtrace printer,
    over a small model of the POSIX calls they make.  A call of [fork]
    yields the runs of both processes that leave [::fork()]: the original
    one and, when the duplication succeeded, the new one. *)

From Stdlib Require Import ZArith String Ascii HexadecimalString.
From stdpp Require Import gmap list sorting.

Local Open Scope Z_scope.

(** ** Values shared with the collaborators *)

(** Modelled from the spec: core/posix/exit.h is not among the sources.
    "Exit status: a process's terminal disposition, collapsed here to
    success/failure"; the cast to [int] gives EXIT_SUCCESS and
    EXIT_FAILURE. *)
Module exit.
Inductive Status := success | failure.

Definition to_int (s : Status) : Z :=
  match s with success => 0 | failure => 1 end.
End exit.

(** Modelled from the spec: core/posix/standard_stream.h is not among the
    sources.  "An immutable bitmask value over {stdin, stdout, stderr,
    none}, composable by union, tested by intersection against the empty
    sentinel." *)
Module StandardStream.
Definition t := Z.
Definition empty : t := 0.
Definition stdin : t := 1.
Definition stdout : t := 2.
Definition stderr : t := 4.
Definition inter (a b : t) : t := Z.land a b.
End StandardStream.

Definition STDIN_FILENO : Z := 0.
Definition STDOUT_FILENO : Z := 1.
Definition STDERR_FILENO : Z := 2.

(** What a C++ [throw] can carry here: a [std::system_error] with its
    error code, another exception derived from [std::exception] with its
    [what()], or a value of a type outside that hierarchy. *)
Inductive Exn :=
| system_error (code : Z)
| std_exception (what : string)
| foreign_exception.

(** ** The process and its kernel *)

(** An open file description. *)
Inductive File :=
| Terminal
| PipeReadEnd (id : nat)
| PipeWriteEnd (id : nat).

#[global] Instance File_eq_dec : EqDecision File.
Proof. solve_decision. Defined.

Record World := {
  fdtab : gmap Z File;      (* descriptor table of the process *)
  fd_limit : Z;             (* descriptors are 0 .. fd_limit - 1 *)
  next_pipe : nat;          (* identity of the next pipe the kernel makes *)
  nproc : nat;              (* processes the kernel still grants *)
  next_pid : positive;      (* id of the next process *)
  errno : Z;
  callstack : list Z        (* return addresses, innermost first *)
}.

Definition set_fdtab (t : gmap Z File) (w : World) : World :=
  {| fdtab := t; fd_limit := fd_limit w; next_pipe := next_pipe w;
     nproc := nproc w; next_pid := next_pid w; errno := errno w;
     callstack := callstack w |}.

Definition set_errno (e : Z) (w : World) : World :=
  {| fdtab := fdtab w; fd_limit := fd_limit w; next_pipe := next_pipe w;
     nproc := nproc w; next_pid := next_pid w; errno := e;
     callstack := callstack w |}.

(** What the code of fork.cpp does in a process, in the order in which it
    happens: the calls it makes, the lines it writes on [std::cerr] and
    the invocation of the entry.  What the entry itself calls or writes is
    not listed (see [Entry]). *)
Inductive Event :=
| EvPipe (ends : option (Z * Z))
| EvClose (fd : Z)
| EvDup2 (fd slot rc : Z)
| EvFork (rc : Z)
| EvVfork (rc : Z)
| EvEntry
| EvCerr (sink : option File) (text : string)
| EvExit (code : Z).

#[global] Instance Event_eq_dec : EqDecision Event.
Proof. solve_decision. Defined.

(** The pure answers of the platform's C and C++ runtime. *)
Record Platform := {
  strerror : Z -> string;                     (* what() of a system_error *)
  backtrace_symbols : Z -> string;            (* text of one frame *)
  cxa_demangle : string -> option string * Z  (* result pointer, status *)
}.

(** ** Computations: state, the events issued, and three ways to end *)

Inductive Outcome (A : Type) :=
| Normal (a : A)
| Thrown (e : Exn)
| Exited (code : Z).
Arguments Normal {A} a.
Arguments Thrown {A} e.
Arguments Exited {A} code.

Definition Run (A : Type) : Type := Outcome A * World * list Event.
Definition M (A : Type) : Type := World -> Run A.

Definition ret {A} (a : A) : M A := fun w => (Normal a, w, []).

Definition bind {A B} (m : M A) (f : A -> M B) : M B := fun w =>
  match m w with
  | (Normal a, w1, l1) => let '(o, w2, l2) := f a w1 in (o, w2, l1 ++ l2)
  | (Thrown e, w1, l1) => (Thrown e, w1, l1)
  | (Exited c, w1, l1) => (Exited c, w1, l1)
  end.

Definition throw {A} (e : Exn) : M A := fun w => (Thrown e, w, []).

(** [try { body } catch (e) { handler e }]: a handler may itself throw. *)
Definition try_catch {A} (body : M A) (handler : Exn -> M A) : M A := fun w =>
  match body w with
  | (Thrown e, w1, l1) => let '(o, w2, l2) := handler e w1 in (o, w2, l1 ++ l2)
  | r => r
  end.

Definition gets {A} (f : World -> A) : M A := fun w => (Normal (f w), w, []).

(** Code that can only return or throw, and its place in a process. *)
Definition and_then {A B} (r : Exn + A) (f : A -> Exn + B) : Exn + B :=
  match r with inl e => inl e | inr a => f a end.

Definition lift {A} (r : Exn + A) : M A :=
  match r with inl e => throw e | inr a => ret a end.

Declare Scope proc_scope.
Delimit Scope proc_scope with proc.
Notation "x <- m ;; k" := (bind m (fun x => k))
  (at level 20, m at level 99, k at level 200, only parsing) : proc_scope.
Notation "'run' m ;; k" := (bind m (fun _ => k))
  (at level 20, m at level 99, k at level 200, only parsing) : proc_scope.
Notation "x <~ r ;; k" := (and_then r (fun x => k))
  (at level 20, r at level 99, k at level 200, only parsing) : proc_scope.
Local Open Scope proc_scope.

(** ** The POSIX calls the launcher makes *)

Definition EBADF : Z := 9.
Definition EAGAIN : Z := 11.
Definition EMFILE : Z := 24.

(** The lowest descriptor below the limit that is not open. *)
Definition lowest_free (t : gmap Z File) (limit : Z) : option Z :=
  snd <$> list_find (fun fd => t !! fd = None) (seqZ 0 limit).

(** [::pipe(fds)]: the two lowest free descriptors become the read and the
    write end of a new pipe; [None] stands for the result -1, with
    [errno] set. *)
Definition sys_pipe : M (option (Z * Z)) := fun w =>
  let id := next_pipe w in
  match lowest_free (fdtab w) (fd_limit w) with
  | Some r =>
      let t1 := <[r := PipeReadEnd id]> (fdtab w) in
      match lowest_free t1 (fd_limit w) with
      | Some wr =>
          let w' := {| fdtab := <[wr := PipeWriteEnd id]> t1;
                       fd_limit := fd_limit w; next_pipe := S id;
                       nproc := nproc w; next_pid := next_pid w;
                       errno := errno w; callstack := callstack w |} in
          (Normal (Some (r, wr)), w', [EvPipe (Some (r, wr))])
      | None => (Normal None, set_errno EMFILE w, [EvPipe None])
      end
  | None => (Normal None, set_errno EMFILE w, [EvPipe None])
  end.

(** [::close(fd)]. *)
Definition sys_close (fd : Z) : M Z := fun w =>
  match fdtab w !! fd with
  | Some _ => (Normal 0, set_fdtab (delete fd (fdtab w)) w, [EvClose fd])
  | None => (Normal (-1), set_errno EBADF w, [EvClose fd])
  end.

(** [::dup2(fd, slot)]: afterwards [slot] names the open file description
    of [fd]. *)
Definition sys_dup2 (fd slot : Z) : M Z := fun w =>
  match fdtab w !! fd with
  | Some f =>
      if (0 <=? slot) && (slot <? fd_limit w)
      then (Normal slot, set_fdtab (<[slot := f]> (fdtab w)) w,
            [EvDup2 fd slot slot])
      else (Normal (-1), set_errno EBADF w, [EvDup2 fd slot (-1)])
  | None => (Normal (-1), set_errno EBADF w, [EvDup2 fd slot (-1)])
  end.

(** [::exit(code)] ends the process. *)
Definition sys_exit {A} (code : Z) : M A := fun w =>
  (Exited code, w, [EvExit code]).

(** [::backtrace(frames, size)]: at most [size] return addresses, the
    innermost first. *)
Definition sys_backtrace (size : nat) : M (list Z) :=
  gets (fun w => take size (callstack w)).

(** One line on [std::cerr], which writes to descriptor 2 of the process. *)
Definition cerr (text : string) : M unit := fun w =>
  (Normal tt, w, [EvCerr (fdtab w !! STDERR_FILENO) text]).

(** What [::fork()] and [::vfork()] do to the machine: nothing but -1 and
    [errno], or a second process that starts from the image of the first.
    The descriptor table of the new process is its own copy, under
    [::fork()] and under [::vfork()].  Under [::vfork()] the new process
    runs in the memory of the suspended original one; of that memory the
    model follows the three [Pipe] objects of the launch (see
    [vfork_shared]), and nothing else: [errno] and what the entry writes
    are each process's own here. *)
Inductive Duplication :=
| DupFailed (w : World)
| DupDone (pid : Z) (original child : World).

Definition duplicate_process (w : World) : Duplication :=
  match nproc w with
  | O => DupFailed (set_errno EAGAIN w)
  | S n =>
      let w' := {| fdtab := fdtab w; fd_limit := fd_limit w;
                   next_pipe := next_pipe w; nproc := n;
                   next_pid := Pos.succ (next_pid w); errno := errno w;
                   callstack := callstack w |} in
      DupDone (Z.pos (next_pid w)) w' w'
  end.

(** The two runs that leave a duplication: [before] runs in the original
    process, then each process that exists continues with [after] on the
    value the primitive returned to it. *)
Record Launch (B : Type) := {
  original : Run B;
  duplicate : option (Run B)
}.
Arguments original {B} l.
Arguments duplicate {B} l.

Definition prepend {B} (l : list Event) (r : Run B) : Run B :=
  let '(o, w, l') := r in (o, w, l ++ l').

Definition spawn {A B} (ev : Z -> Event) (before : M A)
    (after : Z -> A -> M B) (w : World) : Launch B :=
  match before w with
  | (Normal a, w1, l1) =>
      match duplicate_process w1 with
      | DupFailed w2 =>
          {| original := prepend (l1 ++ [ev (-1)]) (after (-1) a w2);
             duplicate := None |}
      | DupDone pid wo wc =>
          {| original := prepend (l1 ++ [ev pid]) (after pid a wo);
             duplicate := Some (after 0 a wc) |}
      end
  | (Thrown e, w1, l1) => {| original := (Thrown e, w1, l1); duplicate := None |}
  | (Exited c, w1, l1) => {| original := (Exited c, w1, l1); duplicate := None |}
  end.

(** ** std::string, as far as the backtrace printer uses it *)

Module std_string.
(** [size_t] is 64 bits wide; [npos] is its largest value. *)
Definition npos : Z := 2 ^ 64 - 1.
Definition size_t (z : Z) : Z := z mod 2 ^ 64.

Definition size (s : string) : Z := Z.of_nat (String.length s).

Fixpoint first_index (c : ascii) (s : string) : option nat :=
  match s with
  | EmptyString => None
  | String a s' =>
      if Ascii.eqb a c then Some O else S <$> first_index c s'
  end.

Fixpoint last_index (c : ascii) (s : string) : option nat :=
  match s with
  | EmptyString => None
  | String a s' =>
      match last_index c s' with
      | Some i => Some (S i)
      | None => if Ascii.eqb a c then Some O else None
      end
  end.

(** [s.find_first_of(c)] and [s.find_last_of(c)] for a one-character
    set. *)
Definition find_first_of (c : ascii) (s : string) : Z :=
  match first_index c s with Some i => Z.of_nat i | None => npos end.

Definition find_last_of (c : ascii) (s : string) : Z :=
  match last_index c s with Some i => Z.of_nat i | None => npos end.

(** [s.substr(pos, n)] throws [std::out_of_range] when [pos > size()],
    and otherwise copies [min(n, size() - pos)] characters. *)
Definition substr (s : string) (pos n : Z) : Exn + string :=
  if size s <? pos
  then inl (std_exception "basic_string::substr")
  else inr (substring (Z.to_nat pos)
                      (Z.to_nat (Z.min n (size s - pos))) s).

(** [s.erase(pos)] removes everything from [pos] on. *)
Definition erase (s : string) (pos : Z) : Exn + string :=
  if size s <? pos
  then inl (std_exception "basic_string::erase")
  else inr (substring O (Z.to_nat pos) s).
End std_string.

Definition tab : string := String (ascii_of_nat 9) EmptyString.
Definition endl : string := String (ascii_of_nat 10) EmptyString.

(** [out << p] for a [void*]: hexadecimal digits with the base shown. *)
Definition show_pointer (p : Z) : string :=
  if p =? 0 then "0"%string
  else ("0x" ++ NilZero.string_of_uint (N.to_hex_uint (Z.to_N p)))%string.

(** ** The collaborators *)

(** Modelled from the spec: core/posix/child_process.h is not among the
    sources.  "Two descriptor endpoints (read, write)"; "a zero-syscall
    invalid constructor and a real constructor performing OS pipe
    allocation; independently closable ends; idempotent close"; the
    invalid value "holds neither and makes both close operations safe
    no-ops". *)
Module Pipe.
Record t := { read_fd : Z; write_fd : Z }.

(** [ChildProcess::Pipe::invalid()] *)
Definition invalid : t := {| read_fd := -1; write_fd := -1 |}.

(** [ChildProcess::Pipe()], the default constructor. *)
Definition create : M t :=
  fds <- sys_pipe ;;
  match fds with
  | Some (r, w) => ret {| read_fd := r; write_fd := w |}
  | None => e <- gets errno ;; throw (system_error e)
  end.

Definition close_read_fd (p : t) : M t :=
  if read_fd p =? -1 then ret p
  else run sys_close (read_fd p) ;;
       ret {| read_fd := -1; write_fd := write_fd p |}.

Definition close_write_fd (p : t) : M t :=
  if write_fd p =? -1 then ret p
  else run sys_close (write_fd p) ;;
       ret {| read_fd := read_fd p; write_fd := -1 |}.
End Pipe.

(** Modelled from the spec: "opaque handle = process id + parent-facing
    pipe ends", "constructible from (process id, three Pipes)". *)
Record ChildProcess := {
  pid : Z;
  cin : Pipe.t;
  cout : Pipe.t;
  cerr_pipe : Pipe.t
}.

(** The entry callable: it may change the process, and either returns a
    status or lets a fault escape.  The entry is the caller's code: the
    calls it makes and the lines it writes show in the state it leaves,
    not as events of the run, which lists the steps of fork.cpp alone;
    an entry that ends the process itself is outside this type. *)
Inductive EntryResult :=
| Returned (s : exit.Status)
| Raised (e : Exn).

Definition Entry : Type := World -> EntryResult * World.

(** [main()] at a call site: the one event is the invocation. *)
Definition invoke (main : Entry) : M exit.Status := fun w =>
  match main w with
  | (Returned s, w') => (Normal s, w', [EvEntry])
  | (Raised e, w') => (Thrown e, w', [EvEntry])
  end.

(** ** fork.cpp *)

Section fork_cpp.
Variable platform : Platform.

Import std_string.

(** Lines 32-37. *)
Definition redirect_stream_to_fd (fd stream : Z) : M unit :=
  rc <- sys_dup2 fd stream ;;
  if rc =? -1
  then e <- gets errno ;; throw (system_error e)
  else ret tt.

(** Lines 39-56. *)
Definition demangle (symbol : string) : string * bool :=
  let '(result, status) := cxa_demangle platform symbol in
  match result with
  | None => (EmptyString, false)
  | Some s => if negb (status =? 0) then (EmptyString, false) else (s, true)
  end.

(** Lines 68-89: the symbol printed for a frame whose text is
    [symbol]. *)
Definition frame_symbol (symbol : string) : Exn + string :=
  let first := find_first_of "(" symbol in
  let last := find_last_of ")" symbol in
  if negb (first =? npos) && negb (last =? npos)
  then
    mangled_symbol <~ substr symbol (size_t (first + 1))
                        (size_t (size_t (last - 1) - size_t (first + 1))) ;;
    let plus := find_first_of "+" mangled_symbol in
    mangled_symbol <~ (if negb (plus =? npos)
                       then erase mangled_symbol plus
                       else inr mangled_symbol) ;;
    let '(demangled_symbol, successful) := demangle mangled_symbol in
    inr (if successful : bool then demangled_symbol else symbol)
  else inr symbol.

(** Lines 66-92: the loop over the captured frames. *)
Fixpoint print_frames (out : string -> M unit)
    (frames : list Z) (symbols : list string) : M unit :=
  match frames, symbols with
  | frame :: frames', text :: symbols' =>
      symbol <- lift (frame_symbol text) ;;
      run out (tab ++ show_pointer frame ++ ": " ++ symbol ++ endl)%string ;;
      print_frames out frames' symbols'
  | _, _ => ret tt
  end.

(** Lines 58-95. *)
Definition max_frames : nat := 100.

Definition print_backtrace (out : string -> M unit) : M unit :=
  frames <- sys_backtrace max_frames ;;
  let symbols := map (backtrace_symbols platform) frames in
  print_frames out frames symbols.

(** Line 103. *)
Definition is_child (pid : Z) : bool := pid =? 0.

(** [(flags & bit) != StandardStream::empty] *)
Definition requested (flags bit : StandardStream.t) : bool :=
  negb (StandardStream.inter flags bit =? StandardStream.empty).

(** [e.what()] of a caught [std::exception]. *)
Definition what (e : Exn) : string :=
  match e with
  | system_error code => strerror platform code
  | std_exception msg => msg
  | foreign_exception => EmptyString
  end.

Definition Pipes : Type := Pipe.t * Pipe.t * Pipe.t.

(** [fork], lines 108-117: the pipes as they are when [::fork()] is
    called. *)
Definition fork_pipes (flags : StandardStream.t) : M Pipes :=
  let stdin_pipe := Pipe.invalid in
  let stdout_pipe := Pipe.invalid in
  let stderr_pipe := Pipe.invalid in
  stdin_pipe <- (if requested flags StandardStream.stdin
                 then Pipe.create else ret stdin_pipe) ;;
  stdout_pipe <- (if requested flags StandardStream.stdout
                  then Pipe.create else ret stdout_pipe) ;;
  stderr_pipe <- (if requested flags StandardStream.stderr
                  then Pipe.create else ret stderr_pipe) ;;
  ret (stdin_pipe, stdout_pipe, stderr_pipe).

(** [fork], lines 130-141: the [try] block of the new process. *)
Definition fork_try (main : Entry) (flags : StandardStream.t)
    (pipes : Pipes) : M exit.Status :=
  let '(stdin_pipe, stdout_pipe, stderr_pipe) := pipes in
  stdin_pipe <- Pipe.close_write_fd stdin_pipe ;;
  stdout_pipe <- Pipe.close_read_fd stdout_pipe ;;
  stderr_pipe <- Pipe.close_read_fd stderr_pipe ;;
  run (if requested flags StandardStream.stdin
       then redirect_stream_to_fd (Pipe.read_fd stdin_pipe) STDIN_FILENO
       else ret tt) ;;
  run (if requested flags StandardStream.stdout
       then redirect_stream_to_fd (Pipe.write_fd stdout_pipe) STDOUT_FILENO
       else ret tt) ;;
  run (if requested flags StandardStream.stderr
       then redirect_stream_to_fd (Pipe.write_fd stderr_pipe) STDERR_FILENO
       else ret tt) ;;
  invoke main.

(** [fork], lines 142-151: the two handlers; [result] is the local
    they leave as it was. *)
Definition fork_catch (result : exit.Status) (e : Exn) : M exit.Status :=
  match e with
  | system_error _ | std_exception _ =>
      run cerr ("core::posix::fork(): An unhandled std::exception occured in the child process:" ++ endl)%string ;;
      run cerr (tab ++ what e ++ endl)%string ;;
      run print_backtrace cerr ;;
      ret result
  | foreign_exception =>
      run cerr ("core::posix::fork(): An unhandled exception occured in the child process." ++ endl)%string ;;
      run print_backtrace cerr ;;
      ret result
  end.

(** [fork], lines 121-167: what a process does with the [pid] that
    [::fork()] returned to it. *)
Definition fork_after (main : Entry) (flags : StandardStream.t)
    (pid : Z) (pipes : Pipes) : M ChildProcess :=
  if pid =? -1 then e <- gets errno ;; throw (system_error e)
  else if is_child pid then
    let result := exit.failure in
    result <- try_catch (fork_try main flags pipes) (fork_catch result) ;;
    sys_exit (exit.to_int result)
  else
    let '(stdin_pipe, stdout_pipe, stderr_pipe) := pipes in
    stdin_pipe <- Pipe.close_read_fd stdin_pipe ;;
    stdout_pipe <- Pipe.close_write_fd stdout_pipe ;;
    stderr_pipe <- Pipe.close_write_fd stderr_pipe ;;
    ret {| pid := pid; cin := stdin_pipe; cout := stdout_pipe;
           cerr_pipe := stderr_pipe |}.

(** Lines 105-168. *)
Definition fork (main : Entry) (flags : StandardStream.t)
    : World -> Launch ChildProcess :=
  spawn EvFork (fork_pipes flags) (fork_after main flags).

(** [vfork], line 173: three default-constructed pipes. *)
Definition vfork_pipes : M Pipes :=
  stdin_pipe <- Pipe.create ;;
  stdout_pipe <- Pipe.create ;;
  stderr_pipe <- Pipe.create ;;
  ret (stdin_pipe, stdout_pipe, stderr_pipe).

(** [vfork], lines 187-198: the [try] block of the new process. *)
Definition vfork_try (main : Entry) (flags : StandardStream.t)
    (pipes : Pipes) : M exit.Status :=
  let '(stdin_pipe, stdout_pipe, stderr_pipe) := pipes in
  stdin_pipe <- Pipe.close_write_fd stdin_pipe ;;
  stdout_pipe <- Pipe.close_read_fd stdout_pipe ;;
  stderr_pipe <- Pipe.close_read_fd stderr_pipe ;;
  run (if requested flags StandardStream.stdin
       then redirect_stream_to_fd (Pipe.read_fd stdin_pipe) STDIN_FILENO
       else ret tt) ;;
  run (if requested flags StandardStream.stdout
       then redirect_stream_to_fd (Pipe.write_fd stdout_pipe) STDOUT_FILENO
       else ret tt) ;;
  run (if requested flags StandardStream.stderr
       then redirect_stream_to_fd (Pipe.write_fd stderr_pipe) STDERR_FILENO
       else ret tt) ;;
  invoke main.

(** [vfork], lines 199-208: the two handlers; [result] is the local
    they leave as it was. *)
Definition vfork_catch (result : exit.Status) (e : Exn) : M exit.Status :=
  match e with
  | system_error _ | std_exception _ =>
      run cerr ("core::posix::fork(): An unhandled std::exception occured in the child process:" ++ endl)%string ;;
      run cerr (tab ++ what e ++ endl)%string ;;
      run print_backtrace cerr ;;
      ret result
  | foreign_exception =>
      run cerr ("core::posix::fork(): An unhandled exception occured in the child process." ++ endl)%string ;;
      run print_backtrace cerr ;;
      ret result
  end.

(** [vfork], lines 177-225: what a process does with the [pid] that
    [::vfork()] returned to it. *)
Definition vfork_after (main : Entry) (flags : StandardStream.t)
    (pid : Z) (pipes : Pipes) : M ChildProcess :=
  if pid =? -1 then e <- gets errno ;; throw (system_error e)
  else if is_child pid then
    let result := exit.failure in
    result <- try_catch (vfork_try main flags pipes) (vfork_catch result) ;;
    sys_exit (exit.to_int result)
  else
    let '(stdin_pipe, stdout_pipe, stderr_pipe) := pipes in
    stdin_pipe <- Pipe.close_read_fd stdin_pipe ;;
    stdout_pipe <- Pipe.close_write_fd stdout_pipe ;;
    stderr_pipe <- Pipe.close_write_fd stderr_pipe ;;
    ret {| pid := pid; cin := stdin_pipe; cout := stdout_pipe;
           cerr_pipe := stderr_pipe |}.

(** The three [Pipe] objects of line 173 as a process finds them when
    [::vfork()] has returned [pid] to it.  The new process runs first, in
    the memory of the suspended caller, and lines 187-189 are the first
    thing it does and cannot fail: when the caller resumes, the
    descriptors that the new process closed are already marked closed in
    the caller's own objects. *)
Definition vfork_shared (pid : Z) (pipes : Pipes) : Pipes :=
  if (pid =? -1) || is_child pid then pipes
  else
    let '(stdin_pipe, stdout_pipe, stderr_pipe) := pipes in
    ({| Pipe.read_fd := Pipe.read_fd stdin_pipe; Pipe.write_fd := -1 |},
     {| Pipe.read_fd := -1; Pipe.write_fd := Pipe.write_fd stdout_pipe |},
     {| Pipe.read_fd := -1; Pipe.write_fd := Pipe.write_fd stderr_pipe |}).

(** Lines 170-226. *)
Definition vfork (main : Entry) (flags : StandardStream.t)
    : World -> Launch ChildProcess :=
  spawn EvVfork vfork_pipes
    (fun pid pipes => vfork_after main flags pid (vfork_shared pid pipes)).
End fork_cpp.

(** ** Sample machines *)

(** A process with the three standard descriptors on a terminal. *)
Definition boot (stack : list Z) (procs : nat) (limit : Z) : World :=
  {| fdtab := {[ 0 := Terminal; 1 := Terminal; 2 := Terminal ]};
     fd_limit := limit; next_pipe := O; nproc := procs; next_pid := 100%positive;
     errno := 0; callstack := stack |}.

(** A runtime with the frame texts of glibc and a demangler that, like
    [abi::__cxa_demangle], takes [_Z3foov] for the function [foo()] and
    [_Z3foo] for the name [foo]. *)
Definition demo_platform : Platform :=
  {| strerror := fun code => ("errno " ++ NilZero.string_of_uint (N.to_hex_uint (Z.to_N code)))%string;
     backtrace_symbols := fun frame =>
       if frame =? 1024 then "prog(_Z3foov+0x1a) [0x400]"%string
       else if frame =? 1040 then "prog(+0x2f) [0x410]"%string
       else if frame =? 1056 then "prog() [0x420]"%string
       else if frame =? 1072 then "prog(_Z3foov-0x4) [0x430]"%string
       else "[0x0]"%string;
     cxa_demangle := fun s =>
       if String.eqb s "_Z3foov" then (Some "foo()"%string, 0)
       else if String.eqb s "_Z3foo" then (Some "foo"%string, 0)
       else (None, -2) |}.

Definition returns (s : exit.Status) : Entry := fun w => (Returned s, w).
Definition raises (e : Exn) : Entry := fun w => (Raised e, w).

(** A process without open descriptors and room for two. *)
Definition daemon : World :=
  {| fdtab := ∅; fd_limit := 2; next_pipe := O; nproc := 1%nat;
     next_pid := 7%positive; errno := 0; callstack := [] |}.

(** ** The report in the words of the specification (4.3)

    "If it contains a parenthesized mangled-name segment optionally
    followed by a +offset suffix, isolate and strip the offset; attempt
    platform name-demangling: on success substitute the human-readable
    name, on failure keep the raw text unchanged." *)
Section spec_words.
Variable platform : Platform.

Import std_string.

(** The text between the first opening and the last closing
    parenthesis. *)
Definition parenthesized_segment (text : string) : option string :=
  match first_index "(" text, last_index ")" text with
  | Some i, Some j =>
      if (i <? j)%nat then Some (substring (S i) (j - S i) text) else None
  | _, _ => None
  end.

Definition strip_offset (segment : string) : string :=
  match first_index "+" segment with
  | Some p => substring O p segment
  | None => segment
  end.

Definition spec_frame_symbol (text : string) : string :=
  match parenthesized_segment text with
  | Some segment =>
      let '(readable, successful) := demangle platform (strip_offset segment) in
      if successful : bool then readable else text
  | None => text
  end.
End spec_words.

(** ** The frame texts that [::backtrace_symbols] writes

    The texts of glibc are [file(name+0xoff) [addr]] and
    [file(name-0xoff) [addr]], with nothing for [name] where no symbol is
    known, [file() [addr]] where no offset is known either, and [[addr]]
    where not even the file is.  A name never stands alone between the
    parentheses. *)




(** ** Events of a run, by kind *)

Definition run_outcome {A} (r : Run A) : Outcome A := r.1.1.
Definition run_world {A} (r : Run A) : World := r.1.2.
Definition run_events {A} (r : Run A) : list Event := r.2.

Definition is_exit (ev : Event) : bool :=
  match ev with EvExit _ => true | _ => false end.
Definition is_entry (ev : Event) : bool :=
  match ev with EvEntry => true | _ => false end.
Definition is_pipe (ev : Event) : bool :=
  match ev with EvPipe _ => true | _ => false end.
Definition is_dup2 (ev : Event) : bool :=
  match ev with EvDup2 _ _ _ => true | _ => false end.
Definition is_failed_dup2 (ev : Event) : bool :=
  match ev with EvDup2 _ _ rc => rc =? -1 | _ => false end.
Definition is_close (ev : Event) : bool :=
  match ev with EvClose _ => true | _ => false end.
Definition is_cerr (ev : Event) : bool :=
  match ev with EvCerr _ _ => true | _ => false end.

Definition count (p : Event -> bool) (l : list Event) : nat :=
  length (filter (fun ev => p ev = true) l).

(** The call a [close_read_fd] or [close_write_fd] makes for the
    descriptor it holds. *)
Definition close_events (fd : Z) : list Event :=
  if fd =? -1 then [] else [EvClose fd].

(** A pipe that holds descriptors. *)
Definition real (p : Pipe.t) : Prop :=
  Pipe.read_fd p <> -1 /\ Pipe.write_fd p <> -1.

(** ** What the runs are compared with *)

(** The line printed for one frame (line 91). *)
Definition backtrace_line (frame : Z) (symbol : string) : string :=
  (tab ++ show_pointer frame ++ ": " ++ symbol ++ endl)%string.

(** Lines on the error stream of a process in state [w]. *)
Definition cerr_lines (w : World) (frames : list Z) (symbols : list string)
    : list Event :=
  zip_with (fun f s => EvCerr (fdtab w !! STDERR_FILENO) (backtrace_line f s))
           frames symbols.

(** The lines a handler prints before the backtrace. *)
Definition heading (pf : Platform) (e : Exn) : list string :=
  match e with
  | system_error _ | std_exception _ =>
      [("core::posix::fork(): An unhandled std::exception occured in the child process:" ++ endl)%string;
       (tab ++ what pf e ++ endl)%string]
  | foreign_exception =>
      [("core::posix::fork(): An unhandled exception occured in the child process." ++ endl)%string]
  end.

(** The process after a pipe let go of [fd]. *)
Definition closed (fd : Z) (w : World) : World :=
  if fd =? -1 then w else run_world (sys_close fd w).

(** A redirection is a descriptor and the slot it is copied to. *)
Definition dup_done (red : Z * Z) : Event := EvDup2 red.1 red.2 red.2.
Definition dup_failed (red : Z * Z) : Event := EvDup2 red.1 red.2 (-1).

(** The redirections [flags] asks for, in the order of lines 134-139. *)
Definition redirections (flags : StandardStream.t) (pipes : Pipes)
    : list (Z * Z) :=
  let '(stdin_pipe, stdout_pipe, stderr_pipe) := pipes in
  (if requested flags StandardStream.stdin
   then [(Pipe.read_fd stdin_pipe, STDIN_FILENO)] else [])
  ++ (if requested flags StandardStream.stdout
      then [(Pipe.write_fd stdout_pipe, STDOUT_FILENO)] else [])
  ++ (if requested flags StandardStream.stderr
      then [(Pipe.write_fd stderr_pipe, STDERR_FILENO)] else []).

(** The ends the new process gives up, and those the original one does. *)
Definition child_closes (pipes : Pipes) : list Event :=
  let '(stdin_pipe, stdout_pipe, stderr_pipe) := pipes in
  close_events (Pipe.write_fd stdin_pipe)
  ++ close_events (Pipe.read_fd stdout_pipe)
  ++ close_events (Pipe.read_fd stderr_pipe).

Definition parent_closes (pipes : Pipes) : list Event :=
  let '(stdin_pipe, stdout_pipe, stderr_pipe) := pipes in
  close_events (Pipe.read_fd stdin_pipe)
  ++ close_events (Pipe.write_fd stdout_pipe)
  ++ close_events (Pipe.write_fd stderr_pipe).

(** What a handler prints for the fault [x] in a process in state [w]. *)
Definition report (pf : Platform) (x : Exn) (w : World) : list Event :=
  map (EvCerr (fdtab w !! STDERR_FILENO)) (heading pf x)
  ++ run_events (print_backtrace pf cerr w).

(** What follows the entry in the new process: the exit, after the report
    when a fault escaped. *)
Definition child_finish (pf : Platform) (r : EntryResult * World)
    : Run ChildProcess :=
  match r with
  | (Returned s, w') => (Exited (exit.to_int s), w', [EvExit (exit.to_int s)])
  | (Raised x, w') =>
      (Exited (exit.to_int exit.failure), w',
       report pf x w' ++ [EvExit (exit.to_int exit.failure)])
  end.

(** How many streams [flags] asks for. *)
Definition streams_requested (flags : StandardStream.t) : nat :=
  ((if requested flags StandardStream.stdin then 1 else 0)
   + (if requested flags StandardStream.stdout then 1 else 0)
   + (if requested flags StandardStream.stderr then 1 else 0))%nat.

(** A pipe as a launch should have it for a stream. *)
Definition fits (wanted : bool) (p : Pipe.t) : Prop :=
  if wanted then real p else p = Pipe.invalid.

(** The two descriptors of a pipe name the two ends of one kernel pipe. *)
Definition wired (t : gmap Z File) (p : Pipe.t) : Prop :=
  exists id, t !! Pipe.read_fd p = Some (PipeReadEnd id) /\
             t !! Pipe.write_fd p = Some (PipeWriteEnd id).

(** No descriptor that [p] holds is one of [q]. *)
Definition apart (p q : Pipe.t) : Prop :=
  (Pipe.read_fd p <> -1 ->
   Pipe.read_fd p <> Pipe.read_fd q /\ Pipe.read_fd p <> Pipe.write_fd q) /\
  (Pipe.write_fd p <> -1 ->
   Pipe.write_fd p <> Pipe.read_fd q /\ Pipe.write_fd p <> Pipe.write_fd q).

(** The pipes of a launch, as they lie in a descriptor table. *)
Definition laid_out (t : gmap Z File) (pipes : Pipes) : Prop :=
  let '(i, o, e) := pipes in
  (real i -> wired t i /\ Pipe.read_fd i <> Pipe.write_fd i) /\
  (real o -> wired t o /\ Pipe.read_fd o <> Pipe.write_fd o) /\
  (real e -> wired t e /\ Pipe.read_fd e <> Pipe.write_fd e) /\
  apart i o /\ apart o i /\ apart i e /\ apart e i /\ apart o e /\ apart e o.

(** The process after a redirection that was asked for. *)
Definition redirected (asked : bool) (fd slot : Z) (w : World) : World :=
  if asked then run_world (sys_dup2 fd slot w) else w.

(** A pipe that [fork] made lies outside the descriptors that were open
    before, within the limit. *)
Definition made_in (w : World) (p : Pipe.t) : Prop :=
  real p ->
  fdtab w !! Pipe.read_fd p = None /\ fdtab w !! Pipe.write_fd p = None /\
  0 <= Pipe.read_fd p < fd_limit w /\ 0 <= Pipe.write_fd p < fd_limit w.

(** ** The stages and the tables of a launch *)

(** The stage of a launch that an event belongs to: the pipes, the
    duplication, the closes, the redirections, the entry, the report and
    the exit. *)
Definition phase (ev : Event) : nat :=
  match ev with
  | EvPipe _ => 0
  | EvFork _ | EvVfork _ => 1
  | EvClose _ => 2
  | EvDup2 _ _ _ => 3
  | EvEntry => 4
  | EvCerr _ _ => 5
  | EvExit _ => 6
  end.

(** No event is followed by one of an earlier stage. *)
Definition in_order (l : list Event) : Prop :=
  StronglySorted (fun a b => (phase a <= phase b)%nat) l.

(** In order, and within the stages [lo] to [hi]. *)
Definition span (lo hi : nat) (l : list Event) : Prop :=
  Forall (fun ev => (lo <= phase ev <= hi)%nat) l /\ in_order l.

(** Lines 164-167: the handle the caller returns, with the ends that lines
    160-162 left it. *)
Definition handle (pid : Z) (pipes : Pipes) : ChildProcess :=
  {| pid := pid;
     cin := {| Pipe.read_fd := -1; Pipe.write_fd := Pipe.write_fd pipes.1.1 |};
     cout := {| Pipe.read_fd := Pipe.read_fd pipes.1.2; Pipe.write_fd := -1 |};
     cerr_pipe := {| Pipe.read_fd := Pipe.read_fd pipes.2;
                     Pipe.write_fd := -1 |} |}.

(** The caller's process after lines 160-162. *)
Definition caller_after (pipes : Pipes) (w : World) : World :=
  closed (Pipe.write_fd pipes.2)
    (closed (Pipe.write_fd pipes.1.2) (closed (Pipe.read_fd pipes.1.1) w)).

(** The three ways a launch can go.  [shared] gives the pipes as the
    process that got [pid] finds them after the duplication. *)
Inductive Course (pf : Platform) (main : Entry) (flags : StandardStream.t)
    (ev : Z -> Event) (before : M Pipes) (shared : Z -> Pipes -> Pipes)
    (w : World) : Launch ChildProcess -> Prop :=
| no_pipes w1 l1 :
    before w = (Thrown (system_error EMFILE), w1, l1) ->
    Course pf main flags ev before shared w
      {| original := (Thrown (system_error EMFILE), w1, l1); duplicate := None |}
| no_process pipes w1 l1 w2 :
    before w = (Normal pipes, w1, l1) ->
    duplicate_process w1 = DupFailed w2 ->
    Course pf main flags ev before shared w
      {| original := (Thrown (system_error (errno w2)), w2, l1 ++ [ev (-1)]);
         duplicate := None |}
| launched pipes w1 l1 pid wo wc :
    before w = (Normal pipes, w1, l1) ->
    duplicate_process w1 = DupDone pid wo wc ->
    Course pf main flags ev before shared w
      {| original := (Normal (handle pid (shared pid pipes)),
                      caller_after (shared pid pipes) wo,
                      l1 ++ [ev pid] ++ parent_closes (shared pid pipes));
         duplicate := Some (fork_after pf main flags 0 pipes wc) |}.

(** The process after lines 130-132. *)
Definition child_after (pipes : Pipes) (w : World) : World :=
  closed (Pipe.read_fd pipes.2)
    (closed (Pipe.read_fd pipes.1.2) (closed (Pipe.write_fd pipes.1.1) w)).

(** An event that, if it is a line on the error stream, went to [sink]. *)
Definition written_to (sink : option File) (ev : Event) : Prop :=
  match ev with EvCerr s _ => s = sink | _ => True end.

(** A computation that leaves every open descriptor as it is. *)
Definition keeps {A} (m : M A) : Prop :=
  forall w fd f, fdtab w !! fd = Some f ->
                 fdtab (run_world (m w)) !! fd = Some f.

(** The events of one kind, in the order of the run. *)
Definition only (p : Event -> bool) (l : list Event) : list Event :=
  filter (fun ev => p ev = true) l.

(** [::vfork()] in the place of [::fork()]. *)
Definition relabel (ev : Event) : Event :=
  match ev with EvFork rc => EvVfork rc | _ => ev end.

(** A duplication of the process, by either primitive. *)
Definition is_duplication (ev : Event) : bool :=
  match ev with EvFork _ | EvVfork _ => true | _ => false end.

(** * Proofs *)

(** ** Running a computation step by step *)

Lemma bind_normal {A B} (m : M A) (f : A -> M B) w a w1 l1 :
  m w = (Normal a, w1, l1) -> bind m f w = prepend l1 (f a w1).
Proof. intros E. unfold bind, prepend. now rewrite E. Qed.

Lemma bind_thrown {A B} (m : M A) (f : A -> M B) w e w1 l1 :
  m w = (Thrown e, w1, l1) -> bind m f w = (Thrown e, w1, l1).
Proof. intros E. unfold bind. now rewrite E. Qed.

Lemma bind_exited {A B} (m : M A) (f : A -> M B) w c w1 l1 :
  m w = (Exited c, w1, l1) -> bind m f w = (Exited c, w1, l1).
Proof. intros E. unfold bind. now rewrite E. Qed.

Lemma try_normal {A} (m : M A) h w a w1 l1 :
  m w = (Normal a, w1, l1) -> try_catch m h w = (Normal a, w1, l1).
Proof. intros E. unfold try_catch. now rewrite E. Qed.

Lemma try_thrown {A} (m : M A) h w e w1 l1 :
  m w = (Thrown e, w1, l1) -> try_catch m h w = prepend l1 (h e w1).
Proof. intros E. unfold try_catch, prepend. now rewrite E. Qed.

Lemma prepend_prepend {A} l1 l2 (r : Run A) :
  prepend l1 (prepend l2 r) = prepend (l1 ++ l2) r.
Proof. destruct r as [[o w] l]. simpl. now rewrite app_assoc. Qed.

(** ** std::string *)

Lemma first_index_lt c s i :
  std_string.first_index c s = Some i -> (i < String.length s)%nat.
Proof.
  revert i. induction s as [|a s IH]; simpl; intros i H; [discriminate|].
  destruct (Ascii.eqb a c).
  - injection H as <-. lia.
  - destruct (std_string.first_index c s) as [j|]; simpl in H; [|discriminate].
    injection H as <-. specialize (IH j eq_refl). lia.
Qed.

Lemma find_first_of_range c s :
  std_string.find_first_of c s = std_string.npos \/
  0 <= std_string.find_first_of c s < std_string.size s.
Proof.
  unfold std_string.find_first_of, std_string.size.
  destruct (std_string.first_index c s) as [i|] eqn:E; [right|now left].
  apply first_index_lt in E. lia.
Qed.

Lemma substr_after_first_paren s n :
  std_string.find_first_of "(" s <> std_string.npos ->
  exists r, std_string.substr s (std_string.size_t (std_string.find_first_of "(" s + 1)) n = inr r.
Proof.
  intros H. destruct (find_first_of_range "(" s) as [|R]; [contradiction|].
  unfold std_string.substr, std_string.size_t.
  assert (L : (std_string.find_first_of "(" s + 1) mod 2 ^ 64
              <= std_string.find_first_of "(" s + 1)
    by (apply Z.mod_le; lia).
  destruct (Z.ltb_spec (std_string.size s)
    ((std_string.find_first_of "(" s + 1) mod 2 ^ 64)); [lia|eauto].
Qed.

Lemma erase_at_plus s :
  std_string.find_first_of "+" s <> std_string.npos ->
  exists r, std_string.erase s (std_string.find_first_of "+" s) = inr r.
Proof.
  intros H. destruct (find_first_of_range "+" s) as [|R]; [contradiction|].
  unfold std_string.erase.
  destruct (Z.ltb_spec (std_string.size s) (std_string.find_first_of "+" s));
    [lia|eauto].
Qed.

Lemma demangle_cases pf m :
  demangle pf m = (EmptyString, false) \/ exists s, demangle pf m = (s, true).
Proof.
  unfold demangle. destruct (cxa_demangle pf m) as [[s|] st]; [|now left].
  destruct (st =? 0); simpl; eauto.
Qed.

Lemma frame_symbol_total pf text :
  exists s, frame_symbol pf text = inr s /\
            (s = text \/ exists m, demangle pf m = (s, true)).
Proof.
  unfold frame_symbol.
  destruct (negb (std_string.find_first_of "(" text =? std_string.npos)) eqn:F;
    simpl; [|eauto].
  destruct (negb (std_string.find_last_of ")" text =? std_string.npos)) eqn:L;
    simpl; [|eauto].
  apply negb_true_iff, Z.eqb_neq in F.
  destruct (substr_after_first_paren text
    (std_string.size_t (std_string.size_t (std_string.find_last_of ")" text - 1)
       - std_string.size_t (std_string.find_first_of "(" text + 1))) F)
    as [seg ->].
  simpl.
  assert (E : exists m,
    (if negb (std_string.find_first_of "+" seg =? std_string.npos)
     then std_string.erase seg (std_string.find_first_of "+" seg)
     else inr seg) = inr m).
  { destruct (negb (std_string.find_first_of "+" seg =? std_string.npos)) eqn:P;
      [|eauto].
    apply negb_true_iff, Z.eqb_neq in P. now apply erase_at_plus. }
  destruct E as [m ->]. simpl.
  destruct (demangle_cases pf m) as [->|[s E]]; [eauto|].
  rewrite E. eauto.
Qed.

(** ** The backtrace printer *)

Lemma print_frames_run pf frames texts w :
  length texts = length frames ->
  exists symbols,
    Forall2 (fun text s => frame_symbol pf text = inr s) texts symbols /\
    print_frames pf cerr frames texts w
    = (Normal tt, w, cerr_lines w frames symbols).
Proof.
  revert texts. induction frames as [|f frames IH]; intros [|t texts] L;
    try discriminate.
  - exists []. split; [constructor|reflexivity].
  - simpl in L. injection L as L. destruct (IH texts L) as (syms & F & E).
    destruct (frame_symbol_total pf t) as (s & Es & _).
    exists (s :: syms). split; [now constructor|].
    simpl. unfold bind at 1. rewrite Es. simpl.
    unfold bind at 1. simpl. rewrite E. reflexivity.
Qed.

Lemma print_backtrace_run pf w :
  exists symbols,
    Forall2 (fun f s => frame_symbol pf (backtrace_symbols pf f) = inr s)
            (take max_frames (callstack w)) symbols /\
    print_backtrace pf cerr w
    = (Normal tt, w, cerr_lines w (take max_frames (callstack w)) symbols).
Proof.
  unfold print_backtrace, sys_backtrace, gets. unfold bind at 1.
  destruct (print_frames_run pf (take max_frames (callstack w))
              (map (backtrace_symbols pf) (take max_frames (callstack w))) w)
    as (syms & F & E); [apply length_map|].
  exists syms. split.
  - now apply Forall2_fmap_l in F.
  - rewrite E. reflexivity.
Qed.

Lemma fork_catch_run pf result e w :
  fork_catch pf result e w = (Normal result, w, report pf e w).
Proof.
  destruct (print_backtrace_run pf w) as (syms & _ & E).
  unfold report. rewrite E. unfold run_events.
  destruct e; unfold fork_catch;
    repeat (erewrite bind_normal; [|first [exact E|reflexivity]]);
    unfold ret; simpl; now rewrite app_nil_r.
Qed.

(** ** Pipe ends and redirections *)

Lemma sys_close_run fd w :
  exists rc, sys_close fd w = (Normal rc, run_world (sys_close fd w), [EvClose fd]).
Proof. unfold sys_close. destruct (fdtab w !! fd); simpl; eauto. Qed.

Lemma close_write_fd_run p w :
  Pipe.close_write_fd p w
  = (Normal {| Pipe.read_fd := Pipe.read_fd p; Pipe.write_fd := -1 |},
     closed (Pipe.write_fd p) w, close_events (Pipe.write_fd p)).
Proof.
  unfold Pipe.close_write_fd, closed, close_events. destruct p as [r wr]. simpl.
  destruct (Z.eqb_spec wr (-1)) as [->|]; [reflexivity|].
  destruct (sys_close_run wr w) as [rc E].
  erewrite bind_normal by exact E. reflexivity.
Qed.

Lemma close_read_fd_run p w :
  Pipe.close_read_fd p w
  = (Normal {| Pipe.read_fd := -1; Pipe.write_fd := Pipe.write_fd p |},
     closed (Pipe.read_fd p) w, close_events (Pipe.read_fd p)).
Proof.
  unfold Pipe.close_read_fd, closed, close_events. destruct p as [r wr]. simpl.
  destruct (Z.eqb_spec r (-1)) as [->|]; [reflexivity|].
  destruct (sys_close_run r w) as [rc E].
  erewrite bind_normal by exact E. reflexivity.
Qed.

(** What [redirect_stream_to_fd] does, by the answer of [::dup2]. *)
Lemma redirect_stream_to_fd_run fd slot w :
  (exists f, fdtab w !! fd = Some f /\ 0 <= slot < fd_limit w /\
     redirect_stream_to_fd fd slot w
     = (Normal tt, set_fdtab (<[slot := f]> (fdtab w)) w, [EvDup2 fd slot slot]))
  \/ redirect_stream_to_fd fd slot w
     = (Thrown (system_error EBADF), set_errno EBADF w, [EvDup2 fd slot (-1)]).
Proof.
  unfold redirect_stream_to_fd, sys_dup2, bind.
  destruct (fdtab w !! fd) as [f|] eqn:E; [|now right].
  destruct (Z.leb_spec 0 slot); simpl; [|now right].
  destruct (Z.ltb_spec slot (fd_limit w)); simpl; [|now right].
  destruct (Z.eqb_spec slot (-1)); [lia|].
  left. exists f. repeat split; auto.
Qed.

Lemma redirect_stage {A} (b : bool) fd slot (k : M A) w :
  (b = true /\
   bind (if b then redirect_stream_to_fd fd slot else ret tt) (fun _ => k) w
   = (Thrown (system_error EBADF), set_errno EBADF w, [dup_failed (fd, slot)]))
  \/ (exists w',
   bind (if b then redirect_stream_to_fd fd slot else ret tt) (fun _ => k) w
   = prepend (if b then [dup_done (fd, slot)] else []) (k w')).
Proof.
  destruct b.
  - destruct (redirect_stream_to_fd_run fd slot w) as [(f & _ & _ & E)|E].
    + right. eexists. erewrite bind_normal by exact E. reflexivity.
    + left. split; [reflexivity|]. erewrite bind_thrown by exact E. reflexivity.
  - right. exists w. unfold bind, ret. simpl. now destruct (k w) as [[? ?] ?].
Qed.

Lemma fork_try_run main flags pipes w :
  (exists k red w_f,
     redirections flags pipes !! k = Some red /\
     fork_try main flags pipes w
     = (Thrown (system_error EBADF), w_f,
        child_closes pipes
        ++ map dup_done (take k (redirections flags pipes))
        ++ [dup_failed red]) /\ errno w_f = EBADF)
  \/ (exists w_e,
     fork_try main flags pipes w
     = prepend (child_closes pipes ++ map dup_done (redirections flags pipes))
               (invoke main w_e)).
Proof.
  destruct pipes as [[i o] e]. unfold fork_try.
  erewrite bind_normal by apply close_write_fd_run.
  erewrite bind_normal by apply close_read_fd_run.
  erewrite bind_normal by apply close_read_fd_run.
  cbn [Pipe.read_fd Pipe.write_fd].
  rewrite !prepend_prepend.
  set (w3 := closed _ (closed _ (closed _ w))).
  unfold redirections, child_closes.
  destruct (redirect_stage (requested flags StandardStream.stdin)
              (Pipe.read_fd i) STDIN_FILENO
              (run (if requested flags StandardStream.stdout
                    then redirect_stream_to_fd (Pipe.write_fd o) STDOUT_FILENO
                    else ret tt) ;;
               run (if requested flags StandardStream.stderr
                    then redirect_stream_to_fd (Pipe.write_fd e) STDERR_FILENO
                    else ret tt) ;;
               invoke main)%proc w3) as [[B1 E1]|[w4 E1]]; rewrite E1; clear E1.
  { left. exists 0%nat, (Pipe.read_fd i, STDIN_FILENO), (set_errno EBADF w3).
    rewrite B1. simpl. rewrite <- !app_assoc. auto. }
  destruct (redirect_stage (requested flags StandardStream.stdout)
              (Pipe.write_fd o) STDOUT_FILENO
              (run (if requested flags StandardStream.stderr
                    then redirect_stream_to_fd (Pipe.write_fd e) STDERR_FILENO
                    else ret tt) ;;
               invoke main)%proc w4) as [[B2 E2]|[w5 E2]]; rewrite E2; clear E2.
  { left.
    exists (length (if requested flags StandardStream.stdin
                    then [(Pipe.read_fd i, STDIN_FILENO)] else [])),
           (Pipe.write_fd o, STDOUT_FILENO), (set_errno EBADF w4).
    rewrite B2.
    destruct (requested flags StandardStream.stdin); simpl;
      rewrite <- !app_assoc; auto. }
  destruct (redirect_stage (requested flags StandardStream.stderr)
              (Pipe.write_fd e) STDERR_FILENO (invoke main) w5)
    as [[B3 E3]|[w6 E3]]; rewrite E3; clear E3.
  { left.
    exists (length ((if requested flags StandardStream.stdin
                     then [(Pipe.read_fd i, STDIN_FILENO)] else [])
                    ++ (if requested flags StandardStream.stdout
                        then [(Pipe.write_fd o, STDOUT_FILENO)] else []))),
           (Pipe.write_fd e, STDERR_FILENO), (set_errno EBADF w5).
    rewrite B3.
    destruct (requested flags StandardStream.stdin),
             (requested flags StandardStream.stdout); simpl;
      rewrite <- !app_assoc; auto. }
  right. exists w6. rewrite !prepend_prepend. f_equal.
  rewrite !map_app, <- !app_assoc.
  destruct (requested flags StandardStream.stdin),
           (requested flags StandardStream.stdout),
           (requested flags StandardStream.stderr); reflexivity.
Qed.

(** ** The new process *)

Lemma vfork_after_eq : vfork_after = fork_after.
Proof. reflexivity. Qed.

Lemma fork_child_run pf main flags pipes w :
  (exists k red w_f,
     redirections flags pipes !! k = Some red /\ errno w_f = EBADF /\
     fork_after pf main flags 0 pipes w
     = (Exited (exit.to_int exit.failure), w_f,
        child_closes pipes
        ++ map dup_done (take k (redirections flags pipes))
        ++ [dup_failed red]
        ++ report pf (system_error EBADF) w_f
        ++ [EvExit (exit.to_int exit.failure)]))
  \/ (exists w_e,
     fork_after pf main flags 0 pipes w
     = prepend (child_closes pipes ++ map dup_done (redirections flags pipes)
                ++ [EvEntry])
               (child_finish pf (main w_e))).
Proof.
  unfold fork_after. change (0 =? -1) with false. change (is_child 0) with true.
  cbv iota.
  destruct (fork_try_run main flags pipes w)
    as [(k & red & w_f & K & E & Er)|[w_e E]].
  - left. exists k, red, w_f. split; [exact K|]. split; [exact Er|].
    erewrite bind_normal.
    2:{ erewrite try_thrown by exact E. rewrite fork_catch_run. reflexivity. }
    unfold sys_exit. simpl. now rewrite <- !app_assoc.
  - right. exists w_e. unfold invoke in E.
    destruct (main w_e) as [[s|x] w'] eqn:Em.
    + erewrite bind_normal by (erewrite try_normal by exact E; reflexivity).
      unfold sys_exit, child_finish. simpl. now rewrite <- !app_assoc.
    + erewrite bind_normal.
      2:{ erewrite try_thrown by exact E. rewrite fork_catch_run. reflexivity. }
      unfold child_finish, sys_exit. simpl. now rewrite <- !app_assoc.
Qed.

(** ** Counting events *)

Lemma count_app p l1 l2 : count p (l1 ++ l2) = (count p l1 + count p l2)%nat.
Proof. unfold count. now rewrite filter_app, length_app. Qed.

Lemma count_cons p ev l :
  count p (ev :: l) = ((if p ev then 1 else 0) + count p l)%nat.
Proof.
  unfold count. rewrite filter_cons.
  destruct (p ev); destruct (decide _); simpl; congruence.
Qed.

Lemma count_none p l : Forall (fun ev => p ev = false) l -> count p l = O.
Proof.
  induction 1 as [|ev l H _ IH]; [reflexivity|].
  now rewrite count_cons, H, IH.
Qed.

Lemma count_all p l : Forall (fun ev => p ev = true) l -> count p l = length l.
Proof.
  induction 1 as [|ev l H _ IH]; [reflexivity|].
  rewrite count_cons, H, IH. reflexivity.
Qed.

Lemma count_close_events p fd :
  (forall fd', p (EvClose fd') = false) -> count p (close_events fd) = O.
Proof.
  intros H. unfold close_events. destruct (fd =? -1); [reflexivity|].
  now rewrite count_cons, H.
Qed.

Lemma count_child_closes p pipes :
  (forall fd, p (EvClose fd) = false) -> count p (child_closes pipes) = O.
Proof.
  intros H. destruct pipes as [[i o] e]. unfold child_closes.
  now rewrite !count_app, !count_close_events.
Qed.

Lemma count_parent_closes p pipes :
  (forall fd, p (EvClose fd) = false) -> count p (parent_closes pipes) = O.
Proof.
  intros H. destruct pipes as [[i o] e]. unfold parent_closes.
  now rewrite !count_app, !count_close_events.
Qed.

Lemma count_dup_done p l :
  (forall fd slot rc, p (EvDup2 fd slot rc) = false) ->
  count p (map dup_done l) = O.
Proof.
  intros H. apply count_none, Forall_map, Forall_forall. intros red _. apply H.
Qed.

Lemma count_report p pf x w :
  (forall sink text, p (EvCerr sink text) = false) -> count p (report pf x w) = O.
Proof.
  intros H. destruct (print_backtrace_run pf w) as (syms & _ & E).
  unfold report. rewrite E, count_app. unfold run_events, cerr_lines. simpl.
  clear E. rewrite !count_none; [reflexivity| |].
  - generalize (take max_frames (callstack w)). intros frames. revert syms.
    induction frames as [|f frames IH]; intros [|s syms]; simpl;
      try constructor; auto.
  - apply Forall_map, Forall_forall. intros t _. apply H.
Qed.

Lemma redirections_slots flags pipes :
  Forall (fun red => 0 <= red.2 <= 2) (redirections flags pipes).
Proof.
  destruct pipes as [[i o] e]. unfold redirections.
  destruct (requested flags StandardStream.stdin),
           (requested flags StandardStream.stdout),
           (requested flags StandardStream.stderr);
    repeat constructor; simpl; unfold STDIN_FILENO, STDOUT_FILENO, STDERR_FILENO; lia.
Qed.

Lemma count_failed_dup_done l :
  Forall (fun red => 0 <= red.2 <= 2) l ->
  count is_failed_dup2 (map dup_done l) = O.
Proof.
  intros H. apply count_none, Forall_map. eapply Forall_impl; [exact H|].
  intros [fd slot] R. simpl in *. apply Z.eqb_neq. lia.
Qed.

(** ** The two runs of a launch *)

Lemma duplicate_spawn {A B} ev (before : M A) (after : Z -> A -> M B) w r :
  duplicate (spawn ev before after w) = Some r ->
  exists a w1 l1 pid wo wc,
    before w = (Normal a, w1, l1) /\ duplicate_process w1 = DupDone pid wo wc /\
    r = after 0 a wc.
Proof.
  unfold spawn. destruct (before w) as [[[a|e|c] w1] l1]; try discriminate.
  destruct (duplicate_process w1) as [w2|pid wo wc] eqn:D; try discriminate.
  simpl. intros [= <-]. eauto 10.
Qed.

Lemma fork_child_exit pf main flags pipes w :
  exists st evs,
    run_outcome (fork_after pf main flags 0 pipes w) = Exited (exit.to_int st) /\
    run_events (fork_after pf main flags 0 pipes w)
    = evs ++ [EvExit (exit.to_int st)] /\
    count is_exit evs = O.
Proof.
  destruct (fork_child_run pf main flags pipes w)
    as [(k & red & w_f & _ & _ & E)|[w_e E]]; rewrite E; clear E.
  - exists exit.failure,
      (child_closes pipes ++ map dup_done (take k (redirections flags pipes))
       ++ [dup_failed red] ++ report pf (system_error EBADF) w_f).
    unfold run_outcome, run_events. cbn [fst snd].
    split; [reflexivity|]. split; [now rewrite <- !app_assoc|].
    rewrite !count_app, count_child_closes, count_dup_done, count_report,
      count_cons by reflexivity. reflexivity.
  - destruct (main w_e) as [[s|x] w']; unfold child_finish, prepend,
      run_outcome, run_events; cbn [fst snd].
    + exists s,
        (child_closes pipes ++ map dup_done (redirections flags pipes)
         ++ [EvEntry]).
      split; [reflexivity|]. split; [reflexivity|].
      rewrite !count_app, count_child_closes, count_dup_done, count_cons
        by reflexivity. reflexivity.
    + exists exit.failure,
        ((child_closes pipes ++ map dup_done (redirections flags pipes)
          ++ [EvEntry]) ++ report pf x w').
      split; [reflexivity|]. split; [now rewrite <- !app_assoc|].
      rewrite !count_app, count_child_closes, count_dup_done, count_report,
        count_cons by reflexivity. reflexivity.
Qed.

(** C1: whenever [fork] or [vfork] has made a new process, the run of that
    process ends in a process exit with the integer of a status, the exit
    is the last thing it does and the only exit it makes; it neither
    returns from the launch function nor lets an exception leave it,
    whatever the entry does and whether or not a redirection fails. *)
Theorem new_process_always_exits pf main flags w r :
  duplicate (fork pf main flags w) = Some r \/
  duplicate (vfork pf main flags w) = Some r ->
  exists st evs,
    run_outcome r = Exited (exit.to_int st) /\
    run_events r = evs ++ [EvExit (exit.to_int st)] /\
    count is_exit evs = O.
Proof.
  intros [H|H]; apply duplicate_spawn in H;
    destruct H as (pipes & w1 & l1 & pid & wo & wc & _ & _ & ->);
    rewrite ?vfork_after_eq; apply fork_child_exit.
Qed.

Lemma new_process_always_exits_witness :
  exists r,
    duplicate (fork demo_platform (raises foreign_exception) 7
                 (boot [1024; 1040; 1056] 4 64)) = Some r /\
    exists st evs,
      run_outcome r = Exited (exit.to_int st) /\
      run_events r = evs ++ [EvExit (exit.to_int st)] /\
      count is_exit evs = O.
Proof.
  eexists. split; [vm_compute; reflexivity|].
  apply (new_process_always_exits demo_platform (raises foreign_exception) 7
           (boot [1024; 1040; 1056] 4 64)).
  left. vm_compute. reflexivity.
Defined.

(** The run of the new process, by whether a redirection failed. *)
Lemma fork_child_cases pf main flags pipes w :
  let r := fork_after pf main flags 0 pipes w in
  (count is_failed_dup2 (run_events r) = 1%nat /\
   count is_entry (run_events r) = O /\
   exists k red w_f,
     redirections flags pipes !! k = Some red /\ errno w_f = EBADF /\
     r = (Exited (exit.to_int exit.failure), w_f,
          child_closes pipes
          ++ map dup_done (take k (redirections flags pipes))
          ++ [dup_failed red]
          ++ report pf (system_error EBADF) w_f
          ++ [EvExit (exit.to_int exit.failure)]))
  \/ (count is_failed_dup2 (run_events r) = O /\
      count is_entry (run_events r) = 1%nat /\
      exists w_e,
        r = prepend (child_closes pipes
                     ++ map dup_done (redirections flags pipes) ++ [EvEntry])
                    (child_finish pf (main w_e))).
Proof.
  intros r. subst r.
  destruct (fork_child_run pf main flags pipes w)
    as [(k & red & w_f & K & Er & E)|[w_e E]]; rewrite E.
  - left. unfold run_events. cbn [snd]. split; [|split].
    + rewrite !count_app, count_child_closes, count_report, !count_cons,
        count_failed_dup_done
        by first [reflexivity | apply Forall_take, redirections_slots].
      reflexivity.
    + rewrite !count_app, count_child_closes, count_report, !count_cons,
        count_dup_done by reflexivity.
      reflexivity.
    + eauto 10.
  - right. unfold run_events.
    destruct (main w_e) as [[s|x] w'] eqn:Em; unfold child_finish, prepend;
      cbn [snd]; (split; [|split]).
    + rewrite !count_app, count_child_closes, !count_cons,
        count_failed_dup_done by first [reflexivity | apply redirections_slots].
      reflexivity.
    + rewrite !count_app, count_child_closes, !count_cons, count_dup_done
        by reflexivity.
      reflexivity.
    + exists w_e. now rewrite Em.
    + rewrite !count_app, count_child_closes, count_report, !count_cons,
        count_failed_dup_done by first [reflexivity | apply redirections_slots].
      reflexivity.
    + rewrite !count_app, count_child_closes, count_report, !count_cons,
        count_dup_done by reflexivity.
      reflexivity.
    + exists w_e. now rewrite Em.
Qed.

(** C2, as amended: in the new process of [fork] or [vfork] the entry is
    invoked inside the [try] block at most once.  Either a redirection
    failed before it: then it is not invoked and the process exits with
    failure.  Or none failed: then it is invoked exactly once, in some
    state [w_e]; when it returns a status the process exits with the
    integer of that status, and when a fault escapes it (a
    [std::exception] or any other value) the process prints the heading
    and the backtrace on its error stream and exits with failure.  In
    every case the run ends in a process exit. *)
Theorem entry_runs_once_unless_redirection_fails pf main flags w r :
  duplicate (fork pf main flags w) = Some r \/
  duplicate (vfork pf main flags w) = Some r ->
  (count is_failed_dup2 (run_events r) = 1%nat /\
   count is_entry (run_events r) = O /\
   run_outcome r = Exited (exit.to_int exit.failure))
  \/ (count is_failed_dup2 (run_events r) = O /\
      count is_entry (run_events r) = 1%nat /\
      exists pre w_e,
        count is_entry pre = O /\ count is_exit pre = O /\
        match main w_e with
        | (Returned s, w') =>
            r = (Exited (exit.to_int s), w',
                 pre ++ [EvEntry; EvExit (exit.to_int s)])
        | (Raised x, w') =>
            r = (Exited (exit.to_int exit.failure), w',
                 pre ++ [EvEntry]
                 ++ map (EvCerr (fdtab w' !! STDERR_FILENO)) (heading pf x)
                 ++ run_events (print_backtrace pf cerr w')
                 ++ [EvExit (exit.to_int exit.failure)])
        end).
Proof.
  intros H.
  assert (exists pipes wc, r = fork_after pf main flags 0 pipes wc) as (pipes & wc & ->).
  { destruct H as [H|H]; apply duplicate_spawn in H;
      destruct H as (pipes & w1 & l1 & pid & wo & wc & _ & _ & ->); eauto. }
  destruct (fork_child_cases pf main flags pipes wc)
    as [(F & N & k & red & w_f & _ & _ & E)|(F & N & w_e & E)].
  - left. split; [exact F|]. split; [exact N|]. now rewrite E.
  - right. split; [exact F|]. split; [exact N|].
    exists (child_closes pipes ++ map dup_done (redirections flags pipes)), w_e.
    split; [|split].
    + rewrite count_app, count_child_closes, count_dup_done by reflexivity.
      reflexivity.
    + rewrite count_app, count_child_closes, count_dup_done by reflexivity.
      reflexivity.
    + rewrite E. destruct (main w_e) as [[s|x] w']; unfold child_finish, prepend.
      * now rewrite <- !app_assoc.
      * unfold report. now rewrite <- !app_assoc.
Qed.

Lemma entry_runs_once_unless_redirection_fails_witness :
  exists r,
    duplicate (fork demo_platform (raises (std_exception "boom")) 7
                 (boot [1024; 1040; 1056] 4 64)) = Some r /\
    count is_entry (run_events r) = 1%nat /\
    run_outcome r = Exited (exit.to_int exit.failure).
Proof.
  eexists. split; [vm_compute; reflexivity|].
  destruct (entry_runs_once_unless_redirection_fails demo_platform
              (raises (std_exception "boom")) 7
              (boot [1024; 1040; 1056] 4 64) _
              (or_introl eq_refl)) as [(_ & N & _)|(_ & N & _)].
  - vm_compute in N. discriminate N.
  - split; [exact N|]. vm_compute. reflexivity.
Defined.

(** C2 as it is stated fails: with only the error stream requested, in a
    process that has no descriptor open and room for two, the redirection
    onto slot 2 fails in the new process; the entry, which would return
    success, is never invoked, and the process exits with failure. *)
Lemma entry_skipped_when_redirection_fails :
  ~ (forall r,
       duplicate (fork demo_platform (returns exit.success)
                    StandardStream.stderr daemon) = Some r ->
       count is_entry (run_events r) = 1%nat /\
       run_outcome r = Exited (exit.to_int exit.success)).
Proof.
  intros H. specialize (H _ eq_refl). destruct H as [H _].
  vm_compute in H. discriminate H.
Qed.

(** ** The redirector *)

Lemma sys_dup2_cases fd slot w :
  (exists f,
     fdtab w !! fd = Some f /\ slot <> -1 /\
     sys_dup2 fd slot w
     = (Normal slot, set_fdtab (<[slot := f]> (fdtab w)) w, [EvDup2 fd slot slot]))
  \/ sys_dup2 fd slot w
     = (Normal (-1), set_errno EBADF w, [EvDup2 fd slot (-1)]).
Proof.
  unfold sys_dup2. destruct (fdtab w !! fd) as [f|]; [|now right].
  destruct (Z.leb_spec 0 slot); simpl; [|now right].
  destruct (Z.ltb_spec slot (fd_limit w)); simpl; [|now right].
  left. exists f. repeat split; [lia].
Qed.

(** C9: [redirect_stream_to_fd fd slot] makes [slot] name the open file
    description that [fd] names, so that what is read or written on the
    slot goes through the pipe end; when [::dup2] answers -1 it throws a
    [std::system_error] that carries [errno] and leaves the descriptor
    table as it was.  In the new process of [fork] or [vfork] a failed
    redirection is caught by the handlers: the entry is not invoked, the
    fault is reported, and the run ends in an exit with failure instead
    of an exception that leaves the launch function. *)
Theorem redirection_failure_is_fatal_in_new_process :
  (forall fd slot w,
     (exists f w',
        sys_dup2 fd slot w = (Normal slot, w', [EvDup2 fd slot slot]) /\
        slot <> -1 /\
        redirect_stream_to_fd fd slot w = (Normal tt, w', [EvDup2 fd slot slot]) /\
        fdtab w !! fd = Some f /\ fdtab w' !! slot = Some f)
     \/ (exists w',
        sys_dup2 fd slot w = (Normal (-1), w', [EvDup2 fd slot (-1)]) /\
        redirect_stream_to_fd fd slot w
        = (Thrown (system_error (errno w')), w', [EvDup2 fd slot (-1)]) /\
        fdtab w' = fdtab w))
  /\ (forall pf main flags w r,
        duplicate (fork pf main flags w) = Some r \/
        duplicate (vfork pf main flags w) = Some r ->
        count is_failed_dup2 (run_events r) <> O ->
        run_outcome r = Exited (exit.to_int exit.failure) /\
        count is_entry (run_events r) = O /\
        exists pre,
          run_events r
          = pre ++ report pf (system_error (errno (run_world r))) (run_world r)
            ++ [EvExit (exit.to_int exit.failure)]).
Proof.
  split.
  - intros fd slot w. unfold redirect_stream_to_fd.
    destruct (sys_dup2_cases fd slot w) as [(f & L & N & E)|E].
    + left. exists f. eexists. split; [exact E|]. split; [exact N|].
      erewrite bind_normal by exact E.
      destruct (Z.eqb_spec slot (-1)); [contradiction|].
      split; [reflexivity|]. split; [exact L|]. simpl. apply lookup_insert_eq.
    + right. eexists. split; [exact E|].
      erewrite bind_normal by exact E. split; reflexivity.
  - intros pf main flags w r H F.
    assert (exists pipes wc, r = fork_after pf main flags 0 pipes wc)
      as (pipes & wc & ->).
    { destruct H as [H|H]; apply duplicate_spawn in H;
        destruct H as (pipes & w1 & l1 & pid & wo & wc & _ & _ & ->); eauto. }
    destruct (fork_child_cases pf main flags pipes wc)
      as [(_ & N & k & red & w_f & _ & Er & E)|(F0 & _)]; [|contradiction].
    split; [now rewrite E|]. split; [exact N|].
    rewrite E. unfold run_world, run_events. cbn [fst snd]. rewrite Er.
    eexists. rewrite !app_assoc. reflexivity.
Qed.

Lemma redirection_failure_is_fatal_in_new_process_witness :
  exists r,
    duplicate (fork demo_platform (returns exit.success)
                 StandardStream.stderr daemon) = Some r /\
    count is_failed_dup2 (run_events r) <> O /\
    run_outcome r = Exited (exit.to_int exit.failure) /\
    count is_entry (run_events r) = O.
Proof.
  eexists. split; [vm_compute; reflexivity|].
  match goal with
  | |- ?failed /\ _ => assert (F : failed) by (vm_compute; discriminate)
  end.
  split; [exact F|].
  destruct (proj2 redirection_failure_is_fatal_in_new_process demo_platform
              (returns exit.success) StandardStream.stderr daemon _
              (or_introl eq_refl) F) as (O & N & _).
  split; [exact O|exact N].
Defined.

(** ** Failures before the split *)

Lemma spawn_before_fails {A B} ev (before : M A) (after : Z -> A -> M B)
    w e w1 l1 :
  before w = (Thrown e, w1, l1) ->
  spawn ev before after w = {| original := (Thrown e, w1, l1); duplicate := None |}.
Proof. intros E. unfold spawn. now rewrite E. Qed.

Lemma spawn_duplication_fails {A B} ev (before : M A) (after : Z -> A -> M B)
    w a w1 l1 w2 :
  before w = (Normal a, w1, l1) -> duplicate_process w1 = DupFailed w2 ->
  spawn ev before after w
  = {| original := prepend (l1 ++ [ev (-1)]) (after (-1) a w2);
       duplicate := None |}.
Proof. intros E D. unfold spawn. now rewrite E, D. Qed.

Lemma fork_after_minus_one pf main flags pipes w :
  fork_after pf main flags (-1) pipes w = (Thrown (system_error (errno w)), w, []).
Proof. reflexivity. Qed.

(** C6: when the duplication primitive answers -1, [fork] and [vfork]
    throw a [std::system_error] that carries [errno] to the caller and no
    new process exists; a pipe constructor that throws before the
    duplication ends the launch the same way, with its exception, before
    any duplication is attempted. *)
Theorem duplication_failure_is_raised pf main flags w :
  (forall pipes w1 l1 w2,
     fork_pipes flags w = (Normal pipes, w1, l1) ->
     duplicate_process w1 = DupFailed w2 ->
     fork pf main flags w
     = {| original := (Thrown (system_error (errno w2)), w2, l1 ++ [EvFork (-1)]);
          duplicate := None |})
  /\ (forall pipes w1 l1 w2,
        vfork_pipes w = (Normal pipes, w1, l1) ->
        duplicate_process w1 = DupFailed w2 ->
        vfork pf main flags w
        = {| original := (Thrown (system_error (errno w2)), w2, l1 ++ [EvVfork (-1)]);
             duplicate := None |})
  /\ (forall e w1 l1,
        fork_pipes flags w = (Thrown e, w1, l1) ->
        fork pf main flags w
        = {| original := (Thrown e, w1, l1); duplicate := None |})
  /\ (forall e w1 l1,
        vfork_pipes w = (Thrown e, w1, l1) ->
        vfork pf main flags w
        = {| original := (Thrown e, w1, l1); duplicate := None |})
  /\ (forall pipes,
        fork_after pf main flags (-1) pipes w
        = (Thrown (system_error (errno w)), w, []) /\
        vfork_after pf main flags (-1) pipes w
        = (Thrown (system_error (errno w)), w, [])).
Proof.
  repeat split.
  - intros pipes w1 l1 w2 E D. unfold fork.
    erewrite spawn_duplication_fails by eassumption.
    rewrite fork_after_minus_one. simpl. now rewrite app_nil_r.
  - intros pipes w1 l1 w2 E D. unfold vfork.
    erewrite spawn_duplication_fails by eassumption.
    rewrite vfork_after_eq, fork_after_minus_one. simpl. now rewrite app_nil_r.
  - intros e w1 l1 E. unfold fork. now erewrite spawn_before_fails.
  - intros e w1 l1 E. unfold vfork. now erewrite spawn_before_fails.
Qed.

Lemma duplication_failure_is_raised_witness :
  run_outcome (original (fork demo_platform (returns exit.success) 7
                           (boot [] 0 64)))
  = Thrown (system_error EAGAIN)
  /\ duplicate (fork demo_platform (returns exit.success) 7 (boot [] 0 64))
     = None
  /\ run_outcome (original (fork demo_platform (returns exit.success) 7
                              (boot [] 4 5)))
     = Thrown (system_error EMFILE).
Proof.
  destruct (duplication_failure_is_raised demo_platform
              (returns exit.success) 7 (boot [] 0 64)) as (F & _).
  erewrite F; [|vm_compute; reflexivity|vm_compute; reflexivity].
  split; [reflexivity|]. split; [reflexivity|].
  destruct (duplication_failure_is_raised demo_platform
              (returns exit.success) 7 (boot [] 4 5)) as (_ & _ & P & _).
  erewrite P; [|vm_compute; reflexivity]. reflexivity.
Defined.

(** ** The two launch paths side by side *)

(** C10: given the same pipes, flags, entry and state, the new process
    does the same under [fork] and under [vfork]: the [try] blocks and
    the handlers are equal as computations, so the runs agree in the
    closes and their order, in the redirections, in what the handlers
    print, and in the exit and its status. *)
Theorem child_paths_agree pf main flags pipes w :
  fork_after pf main flags 0 pipes w = vfork_after pf main flags 0 pipes w
  /\ fork_try main flags pipes = vfork_try main flags pipes
  /\ (forall result e, fork_catch pf result e = vfork_catch pf result e)
  /\ exists st evs,
       fork_after pf main flags 0 pipes w
       = (Exited (exit.to_int st), run_world (vfork_after pf main flags 0 pipes w),
          evs ++ [EvExit (exit.to_int st)])
       /\ run_events (vfork_after pf main flags 0 pipes w)
          = evs ++ [EvExit (exit.to_int st)].
Proof.
  split; [reflexivity|]. split; [reflexivity|]. split; [reflexivity|].
  rewrite vfork_after_eq.
  destruct (fork_child_exit pf main flags pipes w) as (st & evs & O & E & _).
  exists st, evs. split; [|exact E].
  destruct (fork_after pf main flags 0 pipes w) as [[o w'] l].
  unfold run_outcome, run_events, run_world in *. cbn [fst snd] in *.
  now subst.
Qed.

(** ** The report and the way the new process ends *)

Lemma cerr_lines_length w frames symbols :
  length symbols = length frames ->
  length (cerr_lines w frames symbols) = length frames.
Proof.
  intros L. unfold cerr_lines. rewrite length_zip_with. lia.
Qed.






(** ** Pipes before the duplication *)

Lemma lowest_free_spec t limit fd :
  lowest_free t limit = Some fd -> t !! fd = None /\ 0 <= fd < limit.
Proof.
  unfold lowest_free. intros H. apply fmap_Some in H as ([i x] & H & ->).
  apply list_find_Some in H as (L & P & _). simpl.
  apply lookup_seqZ in L. split; [exact P|lia].
Qed.

Lemma sys_pipe_cases w :
  (exists r wr w',
     sys_pipe w = (Normal (Some (r, wr)), w', [EvPipe (Some (r, wr))]) /\
     0 <= r /\ 0 <= wr /\ r <> wr /\
     fdtab w !! r = None /\ fdtab w !! wr = None /\
     fdtab w' = <[wr := PipeWriteEnd (next_pipe w)]>
                  (<[r := PipeReadEnd (next_pipe w)]> (fdtab w)) /\
     next_pipe w' = S (next_pipe w))
  \/ sys_pipe w = (Normal None, set_errno EMFILE w, [EvPipe None]).
Proof.
  unfold sys_pipe.
  destruct (lowest_free (fdtab w) (fd_limit w)) as [r|] eqn:R; [|now right].
  destruct (lowest_free (<[r:=PipeReadEnd (next_pipe w)]> (fdtab w)) (fd_limit w))
    as [wr|] eqn:W; [|now right].
  apply lowest_free_spec in R as [R1 R2]. apply lowest_free_spec in W as [W1 W2].
  left. exists r, wr. eexists. split; [reflexivity|].
  assert (r <> wr) by (intros ->; now rewrite lookup_insert_eq in W1).
  rewrite lookup_insert_ne in W1 by assumption.
  repeat split; simpl; auto; lia.
Qed.

Lemma create_cases w :
  (exists p w',
     Pipe.create w
     = (Normal p, w', [EvPipe (Some (Pipe.read_fd p, Pipe.write_fd p))]) /\
     real p /\ Pipe.read_fd p <> Pipe.write_fd p /\
     fdtab w !! Pipe.read_fd p = None /\ fdtab w !! Pipe.write_fd p = None /\
     fdtab w' = <[Pipe.write_fd p := PipeWriteEnd (next_pipe w)]>
                  (<[Pipe.read_fd p := PipeReadEnd (next_pipe w)]> (fdtab w)) /\
     next_pipe w' = S (next_pipe w))
  \/ Pipe.create w
     = (Thrown (system_error EMFILE), set_errno EMFILE w, [EvPipe None]).
Proof.
  unfold Pipe.create.
  destruct (sys_pipe_cases w) as [(r & wr & w' & E & Hr & Hw & N & F)|E].
  - left. exists {| Pipe.read_fd := r; Pipe.write_fd := wr |}, w'.
    erewrite bind_normal by exact E. simpl.
    split; [reflexivity|]. split; [split; simpl; lia|]. tauto.
  - right. erewrite bind_normal by exact E. reflexivity.
Qed.

Lemma create_if_cases (b : bool) w :
  (exists p w',
     (if b then Pipe.create else ret Pipe.invalid) w
     = (Normal p, w',
        if b then [EvPipe (Some (Pipe.read_fd p, Pipe.write_fd p))] else []) /\
     fits b p)
  \/ (b = true /\
      (if b then Pipe.create else ret Pipe.invalid) w
      = (Thrown (system_error EMFILE), set_errno EMFILE w, [EvPipe None])).
Proof.
  destruct b.
  - destruct (create_cases w) as [(p & w' & E & R & _)|E]; [left|right]; eauto.
  - left. exists Pipe.invalid, w. split; reflexivity.
Qed.

Lemma fork_pipes_cases flags w :
  (exists i o e w',
     fork_pipes flags w = (Normal (i, o, e), w',
       (if requested flags StandardStream.stdin
        then [EvPipe (Some (Pipe.read_fd i, Pipe.write_fd i))] else [])
       ++ (if requested flags StandardStream.stdout
           then [EvPipe (Some (Pipe.read_fd o, Pipe.write_fd o))] else [])
       ++ (if requested flags StandardStream.stderr
           then [EvPipe (Some (Pipe.read_fd e, Pipe.write_fd e))] else [])) /\
     fits (requested flags StandardStream.stdin) i /\
     fits (requested flags StandardStream.stdout) o /\
     fits (requested flags StandardStream.stderr) e)
  \/ (exists w' l,
     fork_pipes flags w = (Thrown (system_error EMFILE), w', l) /\
     (1 <= count is_pipe l <= streams_requested flags)%nat).
Proof.
  unfold fork_pipes, streams_requested.
  destruct (create_if_cases (requested flags StandardStream.stdin) w)
    as [(i & w1 & E1 & F1)|[B1 E1]].
  2:{ right. erewrite bind_thrown by exact E1. do 2 eexists.
      split; [reflexivity|]. rewrite B1. simpl. unfold count. simpl. lia. }
  erewrite bind_normal by exact E1.
  destruct (create_if_cases (requested flags StandardStream.stdout) w1)
    as [(o & w2 & E2 & F2)|[B2 E2]].
  2:{ right. erewrite bind_thrown by exact E2. do 2 eexists.
      split; [reflexivity|]. rewrite B2.
      destruct (requested flags StandardStream.stdin); unfold count; simpl; lia. }
  erewrite bind_normal by exact E2.
  destruct (create_if_cases (requested flags StandardStream.stderr) w2)
    as [(e & w3 & E3 & F3)|[B3 E3]].
  2:{ right. erewrite bind_thrown by exact E3. do 2 eexists.
      split; [reflexivity|]. rewrite B3.
      destruct (requested flags StandardStream.stdin),
               (requested flags StandardStream.stdout); unfold count; simpl; lia. }
  erewrite bind_normal by exact E3.
  left. exists i, o, e, w3. split; [|tauto].
  unfold ret. simpl. now rewrite !app_nil_r.
Qed.

Lemma vfork_pipes_cases w :
  (exists i o e w',
     vfork_pipes w = (Normal (i, o, e), w',
       [EvPipe (Some (Pipe.read_fd i, Pipe.write_fd i));
        EvPipe (Some (Pipe.read_fd o, Pipe.write_fd o));
        EvPipe (Some (Pipe.read_fd e, Pipe.write_fd e))]) /\
     real i /\ real o /\ real e)
  \/ (exists w' l,
     vfork_pipes w = (Thrown (system_error EMFILE), w', l) /\
     (1 <= count is_pipe l <= 3)%nat).
Proof.
  unfold vfork_pipes.
  destruct (create_cases w) as [(i & w1 & E1 & F1 & _)|E1].
  2:{ right. erewrite bind_thrown by exact E1. do 2 eexists.
      split; [reflexivity|]. unfold count. simpl. lia. }
  erewrite bind_normal by exact E1.
  destruct (create_cases w1) as [(o & w2 & E2 & F2 & _)|E2].
  2:{ right. erewrite bind_thrown by exact E2. do 2 eexists.
      split; [reflexivity|]. unfold count. simpl. lia. }
  erewrite bind_normal by exact E2.
  destruct (create_cases w2) as [(e & w3 & E3 & F3 & _)|E3].
  2:{ right. erewrite bind_thrown by exact E3. do 2 eexists.
      split; [reflexivity|]. unfold count. simpl. lia. }
  erewrite bind_normal by exact E3.
  left. exists i, o, e, w3. split; [reflexivity|tauto].
Qed.

(** ** The original process after the duplication *)

Lemma fork_parent_run pf main flags pid pipes w :
  pid <> -1 -> pid <> 0 ->
  fork_after pf main flags pid pipes w
  = (Normal {| pid := pid;
               cin := {| Pipe.read_fd := -1;
                         Pipe.write_fd := Pipe.write_fd pipes.1.1 |};
               cout := {| Pipe.read_fd := Pipe.read_fd pipes.1.2;
                          Pipe.write_fd := -1 |};
               cerr_pipe := {| Pipe.read_fd := Pipe.read_fd pipes.2;
                               Pipe.write_fd := -1 |} |},
     closed (Pipe.write_fd pipes.2)
       (closed (Pipe.write_fd pipes.1.2) (closed (Pipe.read_fd pipes.1.1) w)),
     parent_closes pipes).
Proof.
  intros N1 N0. destruct pipes as [[i o] e]. unfold fork_after, is_child.
  destruct (Z.eqb_spec pid (-1)); [contradiction|].
  destruct (Z.eqb_spec pid 0); [contradiction|].
  erewrite bind_normal by apply close_read_fd_run.
  erewrite bind_normal by apply close_write_fd_run.
  erewrite bind_normal by apply close_write_fd_run.
  unfold ret, parent_closes. simpl. now rewrite app_nil_r.
Qed.

Lemma spawn_done {A B} ev (before : M A) (after : Z -> A -> M B)
    w a w1 l1 pid wo wc :
  before w = (Normal a, w1, l1) -> duplicate_process w1 = DupDone pid wo wc ->
  spawn ev before after w
  = {| original := prepend (l1 ++ [ev pid]) (after pid a wo);
       duplicate := Some (after 0 a wc) |}.
Proof. intros E D. unfold spawn. now rewrite E, D. Qed.

Lemma duplicate_process_pid w pid wo wc :
  duplicate_process w = DupDone pid wo wc -> 0 < pid /\ wc = wo.
Proof.
  unfold duplicate_process. destruct (nproc w); [discriminate|].
  intros [= <- <- <-]. split; [lia|reflexivity].
Qed.

(** The events of the original process after the pipes are in place: the
    duplication and the closes, and no pipe. *)
Lemma spawn_original_events pf main flags ev (before : M Pipes)
    (shared : Z -> Pipes -> Pipes) w :
  (forall pid, is_pipe (ev pid) = false) ->
  exists rest,
    run_events (original (spawn ev before
                            (fun pid pipes =>
                               fork_after pf main flags pid (shared pid pipes))
                            w))
    = run_events (before w) ++ rest /\ count is_pipe rest = O.
Proof.
  intros Hev. unfold spawn.
  destruct (before w) as [[[pipes|e|c] w1] l1] eqn:E;
    try (exists []; simpl; now rewrite app_nil_r).
  destruct (duplicate_process w1) as [w2|pid wo wc] eqn:D; cbn [original].
  - rewrite fork_after_minus_one. unfold run_events. simpl.
    exists [ev (-1)]. rewrite app_nil_r. split; [reflexivity|].
    now rewrite count_cons, Hev.
  - apply duplicate_process_pid in D as [P _].
    rewrite fork_parent_run by lia. unfold run_events. simpl.
    exists (ev pid :: parent_closes (shared pid pipes)).
    split; [now rewrite <- app_assoc|].
    rewrite count_cons, Hev, count_parent_closes; reflexivity.
Qed.

(** ** Which pipes a launch allocates *)

(** C3, at the input where the code departs from it: [vfork] called with
    the empty flag set makes three real pipes before the duplication,
    where [fork] at the same input makes none and holds three invalid
    pipes. *)
Theorem vfork_allocates_for_empty_flags :
  run_outcome (vfork_pipes (boot [] 4 64))
  = Normal ({| Pipe.read_fd := 3; Pipe.write_fd := 4 |},
            {| Pipe.read_fd := 5; Pipe.write_fd := 6 |},
            {| Pipe.read_fd := 7; Pipe.write_fd := 8 |})
  /\ run_events (original (vfork demo_platform (returns exit.success)
                             StandardStream.empty (boot [] 4 64)))
     = [EvPipe (Some (3, 4)); EvPipe (Some (5, 6)); EvPipe (Some (7, 8));
        EvVfork 100; EvClose 3; EvClose 6; EvClose 8]
  /\ run_outcome (fork_pipes StandardStream.empty (boot [] 4 64))
     = Normal (Pipe.invalid, Pipe.invalid, Pipe.invalid)
  /\ run_events (original (fork demo_platform (returns exit.success)
                             StandardStream.empty (boot [] 4 64)))
     = [EvFork 100].
Proof. repeat split; vm_compute; reflexivity. Qed.

(** C4, as amended: [vfork] does not look at the flags when it makes its
    pipes.  For every flags value the events of the original process
    start with those of three default-constructed pipes, which are the
    same for all flags, and no pipe is made later; when the three
    constructors succeed each pipe is a real one with two descriptors,
    and otherwise the first one that fails throws.  [fork] in the same
    state makes a pipe for a stream exactly when the flags ask for it. *)
Theorem vfork_allocates_whatever_the_flags pf main flags w :
  (exists rest,
     run_events (original (vfork pf main flags w))
     = run_events (vfork_pipes w) ++ rest /\ count is_pipe rest = O)
  /\ ((exists i o e w',
         vfork_pipes w = (Normal (i, o, e), w',
           [EvPipe (Some (Pipe.read_fd i, Pipe.write_fd i));
            EvPipe (Some (Pipe.read_fd o, Pipe.write_fd o));
            EvPipe (Some (Pipe.read_fd e, Pipe.write_fd e))]) /\
         real i /\ real o /\ real e)
      \/ (exists w' l,
         vfork_pipes w = (Thrown (system_error EMFILE), w', l) /\
         (1 <= count is_pipe l <= 3)%nat))
  /\ (exists rest,
        run_events (original (fork pf main flags w))
        = run_events (fork_pipes flags w) ++ rest /\ count is_pipe rest = O)
  /\ ((exists i o e w' l,
         fork_pipes flags w = (Normal (i, o, e), w', l) /\
         count is_pipe l = streams_requested flags /\
         fits (requested flags StandardStream.stdin) i /\
         fits (requested flags StandardStream.stdout) o /\
         fits (requested flags StandardStream.stderr) e)
      \/ (exists w' l,
         fork_pipes flags w = (Thrown (system_error EMFILE), w', l) /\
         (1 <= count is_pipe l <= streams_requested flags)%nat)).
Proof.
  split; [|split; [|split]].
  - unfold vfork. rewrite vfork_after_eq.
    now apply (spawn_original_events pf main flags EvVfork vfork_pipes
                 vfork_shared).
  - apply vfork_pipes_cases.
  - unfold fork.
    now apply (spawn_original_events pf main flags EvFork (fork_pipes flags)
                 (fun _ pipes => pipes)).
  - destruct (fork_pipes_cases flags w)
      as [(i & o & e & w' & E & Fi & Fo & Fe)|H]; [left|now right].
    exists i, o, e, w'. eexists. split; [exact E|]. split; [|tauto].
    unfold streams_requested.
    destruct (requested flags StandardStream.stdin),
             (requested flags StandardStream.stdout),
             (requested flags StandardStream.stderr); reflexivity.
Qed.

(** C4 as it is stated fails: the pipes of [vfork] are not empty ones.
    With the empty flag set three [::pipe] calls are made, and the pipes
    at the duplication are not the invalid ones. *)
Lemma vfork_pipes_are_real :
  ~ (forall flags,
       count is_pipe
         (run_events (original (vfork demo_platform (returns exit.success)
                                  flags (boot [] 4 64)))) = O)
  /\ ~ (exists w' l,
         vfork_pipes (boot [] 4 64)
         = (Normal (Pipe.invalid, Pipe.invalid, Pipe.invalid), w', l)).
Proof.
  split.
  - intros H. specialize (H StandardStream.empty). vm_compute in H.
    discriminate H.
  - intros (w' & l & E). vm_compute in E. discriminate E.
Qed.

(** ** The report, run *)

(** ** Who keeps which end *)

Lemma create_if_layout (b : bool) w p w' l :
  (if b then Pipe.create else ret Pipe.invalid) w = (Normal p, w', l) ->
  fits b p /\
  (real p -> wired (fdtab w') p /\ Pipe.read_fd p <> Pipe.write_fd p /\
             fdtab w !! Pipe.read_fd p = None /\
             fdtab w !! Pipe.write_fd p = None) /\
  (forall fd f, fdtab w !! fd = Some f -> fdtab w' !! fd = Some f).
Proof.
  destruct b.
  - destruct (create_cases w) as [(q & w2 & E & R & N & Fr & Fw & T & _)|E];
      intros H; rewrite E in H; [|discriminate].
    injection H as <- <- _. split; [exact R|]. split.
    + intros _. split; [|tauto]. exists (next_pipe w). rewrite T.
      rewrite lookup_insert_ne, !lookup_insert_eq by congruence. auto.
    + intros fd f L. rewrite T, !lookup_insert_ne; congruence.
  - intros [= <- <- _]. split; [reflexivity|]. split; [|auto].
    intros [R _]. now contradiction R.
Qed.

Lemma fits_cases b p : fits b p -> p = Pipe.invalid \/ real p.
Proof. destruct b; simpl; auto. Qed.

Lemma apart_fresh t p q :
  (p = Pipe.invalid \/ (real p /\ wired t p)) ->
  (q = Pipe.invalid \/
   (real q /\ t !! Pipe.read_fd q = None /\ t !! Pipe.write_fd q = None)) ->
  apart p q /\ apart q p.
Proof.
  intros [->|[[Rp Wp] (id & Lr & Lw)]] [->|([Rq Wq] & Fr & Fw)];
    unfold apart; simpl; repeat split; intros; congruence.
Qed.

Lemma wired_preserved t t' p :
  (forall fd f, t !! fd = Some f -> t' !! fd = Some f) -> wired t p -> wired t' p.
Proof. intros H (id & Lr & Lw). exists id. auto. Qed.

(** The three constructions behind a successful [fork_pipes]. *)
Lemma fork_pipes_stages flags w i o e w1 l1 :
  fork_pipes flags w = (Normal (i, o, e), w1, l1) ->
  exists wa wb la lb lc,
    (if requested flags StandardStream.stdin
     then Pipe.create else ret Pipe.invalid) w = (Normal i, wa, la) /\
    (if requested flags StandardStream.stdout
     then Pipe.create else ret Pipe.invalid) wa = (Normal o, wb, lb) /\
    (if requested flags StandardStream.stderr
     then Pipe.create else ret Pipe.invalid) wb = (Normal e, w1, lc).
Proof.
  unfold fork_pipes. intros H.
  destruct ((if requested flags StandardStream.stdin
             then Pipe.create else ret Pipe.invalid) w)
    as [[[i'|x|c] wa] la] eqn:E1;
    [erewrite bind_normal in H by exact E1
    |erewrite bind_thrown in H by exact E1; discriminate
    |erewrite bind_exited in H by exact E1; discriminate].
  destruct ((if requested flags StandardStream.stdout
             then Pipe.create else ret Pipe.invalid) wa)
    as [[[o'|x|c] wb] lb] eqn:E2;
    [erewrite bind_normal in H by exact E2
    |erewrite bind_thrown in H by exact E2; discriminate
    |erewrite bind_exited in H by exact E2; discriminate].
  destruct ((if requested flags StandardStream.stderr
             then Pipe.create else ret Pipe.invalid) wb)
    as [[[e'|x|c] wc] lc] eqn:E3;
    [erewrite bind_normal in H by exact E3
    |erewrite bind_thrown in H by exact E3; discriminate
    |erewrite bind_exited in H by exact E3; discriminate].
  unfold ret, prepend in H. injection H as <- <- <- <- _.
  exists wa, wb, la, lb, lc. auto.
Qed.

Lemma fork_pipes_layout flags w i o e w1 l1 :
  fork_pipes flags w = (Normal (i, o, e), w1, l1) ->
  laid_out (fdtab w1) (i, o, e).
Proof.
  intros H.
  destruct (fork_pipes_stages _ _ _ _ _ _ _ H)
    as (wa & wb & la & lb & lc & E1 & E2 & E3).
  apply create_if_layout in E1 as (F1 & W1 & P1).
  apply create_if_layout in E2 as (F2 & W2 & P2).
  apply create_if_layout in E3 as (F3 & W3 & P3).
  apply fits_cases in F1, F2, F3.
  assert (Hi : i = Pipe.invalid \/ (real i /\ wired (fdtab wa) i))
    by (destruct F1; [now left|right; split; [assumption|now apply W1]]).
  assert (Ho : o = Pipe.invalid \/ (real o /\ wired (fdtab wb) o))
    by (destruct F2; [now left|right; split; [assumption|now apply W2]]).
  assert (Hib : i = Pipe.invalid \/ (real i /\ wired (fdtab wb) i)).
  { destruct Hi as [|[R Wi]]; [now left|right]. split; [exact R|].
    eapply wired_preserved; eassumption. }
  destruct (apart_fresh (fdtab wa) i o Hi) as [A1 A2].
  { destruct F2 as [|R]; [now left|right]. split; [exact R|]. now apply W2. }
  destruct (apart_fresh (fdtab wb) i e Hib) as [A3 A4].
  { destruct F3 as [|R]; [now left|right]. split; [exact R|]. now apply W3. }
  destruct (apart_fresh (fdtab wb) o e Ho) as [A5 A6].
  { destruct F3 as [|R]; [now left|right]. split; [exact R|]. now apply W3. }
  unfold laid_out. split; [|split; [|split; [|tauto]]]; intros R.
  - split; [|now apply W1].
    eapply wired_preserved; [exact P3|]. eapply wired_preserved; [exact P2|].
    now apply W1.
  - split; [|now apply W2]. eapply wired_preserved; [exact P3|]. now apply W2.
  - split; now apply W3.
Qed.

Lemma lookup_closed_ne fd fd' w :
  fd' <> fd -> fdtab (closed fd w) !! fd' = fdtab w !! fd'.
Proof.
  intros N. unfold closed. destruct (Z.eqb_spec fd (-1)); [reflexivity|].
  unfold sys_close, run_world. destruct (fdtab w !! fd); simpl; [|reflexivity].
  now apply lookup_delete_ne.
Qed.

Lemma lookup_closed_eq fd w : fd <> -1 -> fdtab (closed fd w) !! fd = None.
Proof.
  intros N. unfold closed. destruct (Z.eqb_spec fd (-1)); [contradiction|].
  unfold sys_close, run_world. destruct (fdtab w !! fd) eqn:E; simpl; [|exact E].
  apply lookup_delete_eq.
Qed.

Lemma duplicate_process_tables w pid wo wc :
  duplicate_process w = DupDone pid wo wc ->
  fdtab wo = fdtab w /\ fdtab wc = fdtab w.
Proof.
  unfold duplicate_process. destruct (nproc w); [discriminate|].
  intros [= <- <- <-]. split; reflexivity.
Qed.

(** With the pipes laid out in the table both processes start from, each
    process keeps of every real pipe the end the other one closes. *)
Lemma opposite_ends_in_tables i o e wo wc :
  laid_out (fdtab wo) (i, o, e) -> fdtab wc = fdtab wo ->
  let t_o := fdtab (closed (Pipe.write_fd e)
                      (closed (Pipe.write_fd o) (closed (Pipe.read_fd i) wo))) in
  let t_c := fdtab (closed (Pipe.read_fd e)
                      (closed (Pipe.read_fd o) (closed (Pipe.write_fd i) wc))) in
  (real i -> exists id,
     t_o !! Pipe.write_fd i = Some (PipeWriteEnd id) /\
     t_o !! Pipe.read_fd i = None /\
     t_c !! Pipe.read_fd i = Some (PipeReadEnd id) /\
     t_c !! Pipe.write_fd i = None)
  /\ (real o -> exists id,
        t_o !! Pipe.read_fd o = Some (PipeReadEnd id) /\
        t_o !! Pipe.write_fd o = None /\
        t_c !! Pipe.write_fd o = Some (PipeWriteEnd id) /\
        t_c !! Pipe.read_fd o = None)
  /\ (real e -> exists id,
        t_o !! Pipe.read_fd e = Some (PipeReadEnd id) /\
        t_o !! Pipe.write_fd e = None /\
        t_c !! Pipe.write_fd e = Some (PipeWriteEnd id) /\
        t_c !! Pipe.read_fd e = None).
Proof.
  intros (Li & Lo & Le & Aio & Aoi & Aie & Aei & Aoe & Aeo) T t_o t_c.
  subst t_o t_c. unfold apart in *.
  split; [|split]; intros [R W].
  - destruct (Li (conj R W)) as [(id & Lr & Lw) N]. exists id.
    repeat split.
    + rewrite !lookup_closed_ne by intuition congruence. exact Lw.
    + rewrite 2!lookup_closed_ne by intuition congruence.
      now apply lookup_closed_eq.
    + rewrite !lookup_closed_ne by intuition congruence. now rewrite T.
    + rewrite 2!lookup_closed_ne by intuition congruence.
      now apply lookup_closed_eq.
  - destruct (Lo (conj R W)) as [(id & Lr & Lw) N]. exists id.
    repeat split.
    + rewrite !lookup_closed_ne by intuition congruence. exact Lr.
    + rewrite lookup_closed_ne by intuition congruence.
      now apply lookup_closed_eq.
    + rewrite !lookup_closed_ne by intuition congruence. now rewrite T.
    + rewrite lookup_closed_ne by intuition congruence.
      now apply lookup_closed_eq.
  - destruct (Le (conj R W)) as [(id & Lr & Lw) N]. exists id.
    repeat split.
    + rewrite !lookup_closed_ne by intuition congruence. exact Lr.
    + now apply lookup_closed_eq.
    + rewrite !lookup_closed_ne by intuition congruence. now rewrite T.
    + now apply lookup_closed_eq.
Qed.

Lemma close_invalid w :
  Pipe.close_read_fd Pipe.invalid w = (Normal Pipe.invalid, w, []) /\
  Pipe.close_write_fd Pipe.invalid w = (Normal Pipe.invalid, w, []).
Proof. split; reflexivity. Qed.

(** C5: after [fork] has made its pipes and the duplication succeeded,
    the new process starts by closing the write end of the stdin pipe and
    the read ends of the stdout and stderr pipes, and closes nothing
    else; the original process closes the read end of the stdin pipe and
    the write ends of the stdout and stderr pipes and returns a handle
    with the process id and the pipes with the ends it kept.  In the
    descriptor tables after these closes, each real pipe has in the
    original process only the end the new process closed, and in the new
    process only the end the original one closed.  A pipe is real exactly
    when its stream was requested, and closing an end of the invalid pipe
    makes no call and changes nothing. *)
Theorem processes_close_opposite_ends pf main flags w i o e w1 l1 pid wo wc :
  fork_pipes flags w = (Normal (i, o, e), w1, l1) ->
  duplicate_process w1 = DupDone pid wo wc ->
  let w_o := closed (Pipe.write_fd e)
               (closed (Pipe.write_fd o) (closed (Pipe.read_fd i) wo)) in
  let w_c := closed (Pipe.read_fd e)
               (closed (Pipe.read_fd o) (closed (Pipe.write_fd i) wc)) in
  original (fork pf main flags w)
  = (Normal {| pid := pid;
               cin := {| Pipe.read_fd := -1; Pipe.write_fd := Pipe.write_fd i |};
               cout := {| Pipe.read_fd := Pipe.read_fd o; Pipe.write_fd := -1 |};
               cerr_pipe := {| Pipe.read_fd := Pipe.read_fd e;
                               Pipe.write_fd := -1 |} |},
     w_o,
     l1 ++ [EvFork pid]
     ++ close_events (Pipe.read_fd i)
     ++ close_events (Pipe.write_fd o)
     ++ close_events (Pipe.write_fd e))
  /\ (exists r rest,
        duplicate (fork pf main flags w) = Some r /\
        run_events r
        = close_events (Pipe.write_fd i)
          ++ close_events (Pipe.read_fd o)
          ++ close_events (Pipe.read_fd e) ++ rest /\
        count is_close rest = O)
  /\ (a <- Pipe.close_write_fd i ;;
      b <- Pipe.close_read_fd o ;;
      c <- Pipe.close_read_fd e ;;
      ret (a, b, c)) wc
     = (Normal ({| Pipe.read_fd := Pipe.read_fd i; Pipe.write_fd := -1 |},
                {| Pipe.read_fd := -1; Pipe.write_fd := Pipe.write_fd o |},
                {| Pipe.read_fd := -1; Pipe.write_fd := Pipe.write_fd e |}),
        w_c, child_closes (i, o, e))
  /\ (real i -> exists id,
        fdtab w_o !! Pipe.write_fd i = Some (PipeWriteEnd id) /\
        fdtab w_o !! Pipe.read_fd i = None /\
        fdtab w_c !! Pipe.read_fd i = Some (PipeReadEnd id) /\
        fdtab w_c !! Pipe.write_fd i = None)
  /\ (real o -> exists id,
        fdtab w_o !! Pipe.read_fd o = Some (PipeReadEnd id) /\
        fdtab w_o !! Pipe.write_fd o = None /\
        fdtab w_c !! Pipe.write_fd o = Some (PipeWriteEnd id) /\
        fdtab w_c !! Pipe.read_fd o = None)
  /\ (real e -> exists id,
        fdtab w_o !! Pipe.read_fd e = Some (PipeReadEnd id) /\
        fdtab w_o !! Pipe.write_fd e = None /\
        fdtab w_c !! Pipe.write_fd e = Some (PipeWriteEnd id) /\
        fdtab w_c !! Pipe.read_fd e = None)
  /\ fits (requested flags StandardStream.stdin) i
  /\ fits (requested flags StandardStream.stdout) o
  /\ fits (requested flags StandardStream.stderr) e
  /\ (forall w0,
        Pipe.close_read_fd Pipe.invalid w0 = (Normal Pipe.invalid, w0, []) /\
        Pipe.close_write_fd Pipe.invalid w0 = (Normal Pipe.invalid, w0, [])).
Proof.
  intros E D w_o w_c. subst w_o w_c.
  unfold fork. erewrite spawn_done by eassumption. cbn [original duplicate].
  pose proof (duplicate_process_pid _ _ _ _ D) as [P _].
  pose proof (duplicate_process_tables _ _ _ _ D) as [To Tc].
  pose proof (fork_pipes_layout _ _ _ _ _ _ _ E) as L.
  rewrite <- To in L.
  destruct (opposite_ends_in_tables i o e wo wc L) as (Hi & Ho & He);
    [congruence|].
  split; [|split; [|split; [|split; [|split; [|split]]]]]; try assumption.
  - rewrite fork_parent_run by lia. unfold parent_closes. simpl.
    now rewrite <- !app_assoc.
  - exists (fork_after pf main flags 0 (i, o, e) wc).
    destruct (fork_child_run pf main flags (i, o, e) wc)
      as [(k & red & w_f & _ & _ & R)|[w_e R]]; rewrite R; clear R.
    + eexists. split; [reflexivity|].
      unfold run_events, child_closes. cbn [snd]. rewrite <- !app_assoc.
      split; [reflexivity|].
      rewrite !count_app, count_dup_done, count_report, !count_cons
        by reflexivity.
      reflexivity.
    + destruct (main w_e) as [[s|x] w']; unfold child_finish, prepend,
        run_events, child_closes; cbn [snd]; rewrite <- !app_assoc;
        (eexists; split; [reflexivity|]; split; [reflexivity|]);
        rewrite !count_app, count_dup_done, ?count_report, !count_cons
          by reflexivity; reflexivity.
  - erewrite bind_normal by apply close_write_fd_run.
    erewrite bind_normal by apply close_read_fd_run.
    erewrite bind_normal by apply close_read_fd_run.
    unfold ret, child_closes. simpl. now rewrite app_nil_r.
  - destruct (fork_pipes_cases flags w)
      as [(i' & o' & e' & w' & E' & F)|(w' & l & E' & _)];
      rewrite E in E'; [|discriminate].
    injection E' as <- <- <- <- _. split; [|split; [|split]]; [tauto..|].
    intros w0. apply close_invalid.
Qed.

Lemma processes_close_opposite_ends_witness :
  run_events (original (fork demo_platform (returns exit.success) 7
                          (boot [] 4 64)))
  = [EvPipe (Some (3, 4)); EvPipe (Some (5, 6)); EvPipe (Some (7, 8));
     EvFork 100; EvClose 3; EvClose 6; EvClose 8]
  /\ exists r rest,
       duplicate (fork demo_platform (returns exit.success) 7 (boot [] 4 64))
       = Some r /\
       run_events r = [EvClose 4; EvClose 5; EvClose 7] ++ rest.
Proof.
  edestruct (processes_close_opposite_ends demo_platform
               (returns exit.success) 7 (boot [] 4 64))
    as (O & (r & rest & C & R & _) & _);
    [vm_compute; reflexivity|vm_compute; reflexivity|].
  split; [rewrite O; reflexivity|].
  exists r, rest. split; [exact C|exact R].
Defined.

(** ** Beyond the claims *)

Lemma requested_empty bit : requested StandardStream.empty bit = false.
Proof. reflexivity. Qed.

(** X1: [fork] makes exactly the pipes the flags ask for: a real pipe, with
    one [::pipe] call, for each requested stream, in the order stdin,
    stdout, stderr, and the invalid pipe for the others; with the empty
    flag set it makes no pipe and the new process makes no redirection. *)
Theorem fork_follows_the_flags pf main flags w :
  ((exists i o e w',
      fork_pipes flags w = (Normal (i, o, e), w',
        (if requested flags StandardStream.stdin
         then [EvPipe (Some (Pipe.read_fd i, Pipe.write_fd i))] else [])
        ++ (if requested flags StandardStream.stdout
            then [EvPipe (Some (Pipe.read_fd o, Pipe.write_fd o))] else [])
        ++ (if requested flags StandardStream.stderr
            then [EvPipe (Some (Pipe.read_fd e, Pipe.write_fd e))] else [])) /\
      fits (requested flags StandardStream.stdin) i /\
      fits (requested flags StandardStream.stdout) o /\
      fits (requested flags StandardStream.stderr) e)
   \/ (exists w' l,
      fork_pipes flags w = (Thrown (system_error EMFILE), w', l) /\
      (1 <= count is_pipe l <= streams_requested flags)%nat))
  /\ fork_pipes StandardStream.empty w
     = (Normal (Pipe.invalid, Pipe.invalid, Pipe.invalid), w, [])
  /\ (forall pipes wc,
        count is_dup2
          (run_events (fork_after pf main StandardStream.empty 0 pipes wc)) = O /\
        count is_pipe
          (run_events (fork_after pf main StandardStream.empty 0 pipes wc)) = O).
Proof.
  split; [apply fork_pipes_cases|]. split; [reflexivity|].
  intros pipes wc.
  destruct (fork_child_run pf main StandardStream.empty pipes wc)
    as [(k & red & w_f & K & _)|[w_e E]].
  { destruct pipes as [[i o] e]. unfold redirections in K.
    rewrite !requested_empty in K. simpl in K. now rewrite lookup_nil in K. }
  rewrite E. unfold run_events.
  assert (R : redirections StandardStream.empty pipes = [])
    by (destruct pipes as [[i o] e]; reflexivity).
  rewrite R.
  destruct (main w_e) as [[s|x] w']; unfold child_finish, prepend; cbn [snd];
    split;
    rewrite !count_app, count_child_closes, ?count_report, !count_cons
      by reflexivity; reflexivity.
Qed.

(** X2: [print_backtrace] prints the captured frames in the order of the
    stack, the innermost first, and at most [max_frames] = 100 of them:
    one line per frame on the error stream, a tab, the address in
    hexadecimal, a colon and a space, the symbol of the frame, and the
    end of the line. *)
Theorem backtrace_lines_follow_the_stack pf w :
  max_frames = 100%nat /\
  exists symbols,
    Forall2 (fun frame s => frame_symbol pf (backtrace_symbols pf frame) = inr s)
            (take max_frames (callstack w)) symbols /\
    print_backtrace pf cerr w
    = (Normal tt, w,
       zip_with (fun frame s =>
                   EvCerr (fdtab w !! STDERR_FILENO)
                          (tab ++ show_pointer frame ++ ": " ++ s ++ endl)%string)
                (take max_frames (callstack w)) symbols).
Proof. split; [reflexivity|]. apply print_backtrace_run. Qed.

(** ** The printer against the specification *)

Lemma last_index_lt c s j :
  std_string.last_index c s = Some j -> (j < String.length s)%nat.
Proof.
  revert j. induction s as [|a s IH]; simpl; intros j H; [discriminate|].
  destruct (std_string.last_index c s) as [k|].
  - injection H as <-. specialize (IH k eq_refl). lia.
  - destruct (Ascii.eqb a c); [|discriminate]. injection H as <-. lia.
Qed.

Lemma substring_empty n m : substring n m EmptyString = EmptyString.
Proof. destruct n, m; reflexivity. Qed.

Lemma substring_length n m s :
  String.length (substring n m s) = Nat.min m (String.length s - n).
Proof.
  revert n m. induction s as [|a s IH]; intros n m.
  - rewrite substring_empty. simpl. lia.
  - destruct n as [|n]; simpl.
    + destruct m as [|m]; simpl; [reflexivity|]. rewrite IH. lia.
    + apply IH.
Qed.

Lemma substring_prefix n k m s :
  (k <= m)%nat -> substring O k (substring n m s) = substring n k s.
Proof.
  revert n k m. induction s as [|a s IH]; intros n k m L.
  - now rewrite !substring_empty.
  - destruct n as [|n]; simpl.
    + destruct m as [|m]; [assert (k = O) as -> by lia; reflexivity|].
      destruct k as [|k]; [reflexivity|]. simpl. f_equal. apply (IH O). lia.
    + now apply IH.
Qed.

(** The first [c] of a prefix is the first [c] of the string, when it lies
    in the prefix. *)
Lemma first_index_prefix c k s :
  std_string.first_index c (substring O k s)
  = match std_string.first_index c s with
    | Some p => if (p <? k)%nat then Some p else None
    | None => None
    end.
Proof.
  revert k. induction s as [|a s IH]; intros k.
  - now rewrite substring_empty.
  - destruct k as [|k]; simpl.
    + destruct (Ascii.eqb a c); [reflexivity|].
      now destruct (std_string.first_index c s).
    + destruct (Ascii.eqb a c); [reflexivity|]. rewrite IH.
      destruct (std_string.first_index c s) as [p|]; [|reflexivity]. simpl.
      change (S p <? S k)%nat with (p <? k)%nat.
      now destruct (p <? k)%nat.
Qed.

Lemma size_t_small z : 0 <= z < 2 ^ 64 -> std_string.size_t z = z.
Proof. intros H. unfold std_string.size_t. now apply Z.mod_small. Qed.

(** What the printer cuts out of a text whose parentheses enclose at
    least one character: the enclosed text without its last character. *)
Lemma cut_by_printer text i j :
  std_string.size text < 2 ^ 64 ->
  (j < String.length text)%nat -> (i + 2 <= j)%nat ->
  std_string.substr text (std_string.size_t (Z.of_nat i + 1))
    (std_string.size_t (std_string.size_t (Z.of_nat j - 1)
                        - std_string.size_t (Z.of_nat i + 1)))
  = inr (substring (S i) (j - i - 2) text).
Proof.
  unfold std_string.size. intros B Lj Lij.
  rewrite (size_t_small (Z.of_nat i + 1)) by lia.
  rewrite (size_t_small (Z.of_nat j - 1)) by lia.
  rewrite size_t_small by lia.
  unfold std_string.substr, std_string.size.
  destruct (Z.ltb_spec (Z.of_nat (String.length text)) (Z.of_nat i + 1)); [lia|].
  f_equal. f_equal; lia.
Qed.

(** X3: when the text between the parentheses carries an offset, the symbol
    the printer prints is the one the specification asks for: the
    character that line 75 drops lies in the offset or is its plus
    sign. *)
Theorem printer_agrees_with_spec_on_offsets pf text segment p :
  std_string.size text < 2 ^ 64 ->
  parenthesized_segment text = Some segment ->
  std_string.first_index "+" segment = Some p ->
  frame_symbol pf text = inr (spec_frame_symbol pf text).
Proof.
  intros B S P. unfold spec_frame_symbol. rewrite S.
  unfold parenthesized_segment in S.
  destruct (std_string.first_index "(" text) as [i|] eqn:Ei; [|discriminate].
  destruct (std_string.last_index ")" text) as [j|] eqn:Ej; [|discriminate].
  destruct (Nat.ltb_spec i j) as [Lij|]; [|discriminate].
  injection S as <-.
  pose proof (last_index_lt _ _ _ Ej) as Lj.
  pose proof (first_index_lt _ _ _ P) as Lp.
  rewrite substring_length in Lp.
  assert (i + 2 <= j)%nat by lia.
  unfold std_string.size in B.
  unfold frame_symbol, std_string.find_first_of, std_string.find_last_of.
  rewrite Ei, Ej.
  assert (N1 : (Z.of_nat i =? std_string.npos) = false)
    by (apply Z.eqb_neq; unfold std_string.npos; lia).
  assert (N2 : (Z.of_nat j =? std_string.npos) = false)
    by (apply Z.eqb_neq; unfold std_string.npos; lia).
  rewrite N1, N2. cbn [negb andb].
  rewrite cut_by_printer by (unfold std_string.size; lia). cbn [and_then].
  set (seg := substring (S i) (j - S i) text) in *.
  assert (C : substring (S i) (j - i - 2) text = substring O (j - i - 2) seg)
    by (subst seg; rewrite substring_prefix by lia; reflexivity).
  rewrite C. unfold std_string.find_first_of.
  rewrite first_index_prefix, P. unfold strip_offset. rewrite P.
  destruct (Nat.ltb_spec p (j - i - 2)) as [Lt|Ge].
  - assert (N3 : (Z.of_nat p =? std_string.npos) = false)
      by (apply Z.eqb_neq; unfold std_string.npos; lia).
    rewrite N3. cbn [negb]. unfold std_string.erase, std_string.size.
    rewrite substring_length.
    destruct (Z.ltb_spec
      (Z.of_nat (Nat.min (j - i - 2) (String.length seg - 0))) (Z.of_nat p)).
    { subst seg. rewrite substring_length in *. lia. }
    cbn [and_then]. rewrite Nat2Z.id, substring_prefix by lia.
    now destruct (demangle pf (substring 0 p seg)) as [d []].
  - change (std_string.npos =? std_string.npos) with true. cbn [negb and_then].
    assert (p = j - i - 2)%nat as -> by lia.
    now destruct (demangle pf (substring 0 (j - i - 2) seg)) as [d []].
Qed.

Lemma printer_agrees_with_spec_on_offsets_witness :
  frame_symbol demo_platform "prog(_Z3foov+0x1a) [0x410]" = inr "foo()"%string.
Proof.
  rewrite (printer_agrees_with_spec_on_offsets demo_platform
             "prog(_Z3foov+0x1a) [0x410]" "_Z3foov+0x1a" 7);
    [reflexivity|vm_compute; reflexivity|reflexivity|reflexivity].
Defined.

(** X4: without an offset the demangler is asked about the enclosed text less
    its last character, for every text of this layout. *)
Theorem printer_cuts_short_without_offset pf text segment :
  std_string.size text < 2 ^ 64 ->
  parenthesized_segment text = Some segment ->
  std_string.first_index "+" segment = None ->
  (0 < String.length segment)%nat ->
  frame_symbol pf text
  = inr (let '(readable, successful) :=
           demangle pf (substring O (String.length segment - 1) segment) in
         if successful : bool then readable else text).
Proof.
  intros B S P L.
  unfold parenthesized_segment in S.
  destruct (std_string.first_index "(" text) as [i|] eqn:Ei; [|discriminate].
  destruct (std_string.last_index ")" text) as [j|] eqn:Ej; [|discriminate].
  destruct (Nat.ltb_spec i j) as [Lij|]; [|discriminate].
  injection S as <-.
  pose proof (last_index_lt _ _ _ Ej) as Lj.
  rewrite substring_length in *.
  assert (i + 2 <= j)%nat by lia.
  unfold std_string.size in B.
  unfold frame_symbol, std_string.find_first_of, std_string.find_last_of.
  rewrite Ei, Ej.
  assert (N1 : (Z.of_nat i =? std_string.npos) = false)
    by (apply Z.eqb_neq; unfold std_string.npos; lia).
  assert (N2 : (Z.of_nat j =? std_string.npos) = false)
    by (apply Z.eqb_neq; unfold std_string.npos; lia).
  rewrite N1, N2. cbn [negb andb].
  rewrite cut_by_printer by (unfold std_string.size; lia). cbn [and_then].
  set (seg := substring (S i) (j - S i) text) in *.
  assert (C : substring (S i) (j - i - 2) text = substring O (j - i - 2) seg)
    by (subst seg; rewrite substring_prefix by lia; reflexivity).
  rewrite C. unfold std_string.find_first_of.
  rewrite first_index_prefix, P.
  change (std_string.npos =? std_string.npos) with true. cbn [negb and_then].
  replace (Nat.min (j - S i) (String.length text - S i) - 1)%nat
    with (j - i - 2)%nat by lia.
  now destruct (demangle pf (substring 0 (j - i - 2) seg)) as [d []].
Qed.

Lemma printer_cuts_short_without_offset_witness :
  frame_symbol demo_platform "prog(_Z3foov) [0x400]" = inr "foo"%string.
Proof.
  rewrite (printer_cuts_short_without_offset demo_platform
             "prog(_Z3foov) [0x400]" "_Z3foov");
    [reflexivity|vm_compute; reflexivity|reflexivity|reflexivity
    |vm_compute; lia].
Defined.

(** ** The streams of the new process *)

Lemma create_if_bounds (b : bool) w p w' l :
  (if b then Pipe.create else ret Pipe.invalid) w = (Normal p, w', l) ->
  fd_limit w' = fd_limit w /\
  (real p -> 0 <= Pipe.read_fd p < fd_limit w /\
             0 <= Pipe.write_fd p < fd_limit w).
Proof.
  destruct b.
  - unfold Pipe.create, sys_pipe, bind.
    destruct (lowest_free (fdtab w) (fd_limit w)) as [r|] eqn:R;
      [|discriminate].
    destruct (lowest_free (<[r:=PipeReadEnd (next_pipe w)]> (fdtab w)) (fd_limit w))
      as [wr|] eqn:W; [|discriminate].
    simpl. intros [= <- <- _]. simpl.
    apply lowest_free_spec in R as [_ R]. apply lowest_free_spec in W as [_ W].
    auto.
  - intros [= <- <- _]. split; [reflexivity|]. intros [R _]. now contradiction R.
Qed.

Lemma fresh_below (t t' : gmap Z File) (fd : Z) :
  (forall fd' f, t !! fd' = Some f -> t' !! fd' = Some f) ->
  t' !! fd = None -> t !! fd = None.
Proof.
  intros P N. destruct (t !! fd) as [f|] eqn:E; [|reflexivity].
  apply P in E. congruence.
Qed.

Lemma fork_pipes_bounds flags w i o e w1 l1 :
  fork_pipes flags w = (Normal (i, o, e), w1, l1) ->
  fd_limit w1 = fd_limit w /\
  (forall fd f, fdtab w !! fd = Some f -> fdtab w1 !! fd = Some f) /\
  made_in w i /\ made_in w o /\ made_in w e.
Proof.
  intros H.
  destruct (fork_pipes_stages _ _ _ _ _ _ _ H)
    as (wa & wb & la & lb & lc & E1 & E2 & E3).
  pose proof (create_if_bounds _ _ _ _ _ E1) as (L1 & B1).
  pose proof (create_if_bounds _ _ _ _ _ E2) as (L2 & B2).
  pose proof (create_if_bounds _ _ _ _ _ E3) as (L3 & B3).
  apply create_if_layout in E1 as (_ & W1 & P1).
  apply create_if_layout in E2 as (_ & W2 & P2).
  apply create_if_layout in E3 as (_ & W3 & P3).
  split; [congruence|]. split; [intros fd f L; now apply P3, P2, P1|].
  assert (P12 : forall fd f, fdtab w !! fd = Some f -> fdtab wb !! fd = Some f)
    by (intros fd f L; now apply P2, P1).
  unfold made_in. split; [|split]; intros R.
  - destruct (W1 R) as (_ & _ & Fr & Fw). destruct (B1 R). auto.
  - destruct (W2 R) as (_ & _ & Fr & Fw). destruct (B2 R) as [Br Bw].
    rewrite L1 in Br, Bw.
    split; [exact (fresh_below _ _ _ P1 Fr)|].
    split; [exact (fresh_below _ _ _ P1 Fw)|]. auto.
  - destruct (W3 R) as (_ & _ & Fr & Fw). destruct (B3 R) as [Br Bw].
    rewrite L2, L1 in Br, Bw.
    split; [exact (fresh_below _ _ _ P12 Fr)|].
    split; [exact (fresh_below _ _ _ P12 Fw)|]. auto.
Qed.

Lemma fd_limit_closed fd w : fd_limit (closed fd w) = fd_limit w.
Proof.
  unfold closed, run_world, sys_close. destruct (fd =? -1); [reflexivity|].
  now destruct (fdtab w !! fd).
Qed.

Lemma redirected_table fd slot w f :
  fdtab w !! fd = Some f -> 0 <= slot < fd_limit w ->
  fdtab (redirected true fd slot w) = <[slot := f]> (fdtab w) /\
  fd_limit (redirected true fd slot w) = fd_limit w.
Proof.
  intros L [R1 R2]. unfold redirected, run_world, sys_dup2. rewrite L.
  destruct (Z.leb_spec 0 slot); [|lia].
  destruct (Z.ltb_spec slot (fd_limit w)); [|lia]. split; reflexivity.
Qed.

Lemma redirect_stage_done {A} (b : bool) fd slot (k : M A) w :
  (b = true -> is_Some (fdtab w !! fd) /\ 0 <= slot < fd_limit w) ->
  bind (if b then redirect_stream_to_fd fd slot else ret tt) (fun _ => k) w
  = prepend (if b then [dup_done (fd, slot)] else [])
            (k (redirected b fd slot w)).
Proof.
  intros H. destruct b.
  - destruct (H eq_refl) as [[f L] R].
    destruct (redirect_stream_to_fd_run fd slot w) as [(f' & L' & _ & E)|E].
    + erewrite bind_normal by exact E. unfold redirected, run_world, sys_dup2.
      rewrite L'.
      destruct (Z.leb_spec 0 slot); [|lia].
      destruct (Z.ltb_spec slot (fd_limit w)); [|lia]. reflexivity.
    + exfalso. unfold redirect_stream_to_fd, sys_dup2, bind in E. rewrite L in E.
      destruct (Z.leb_spec 0 slot); [|lia].
      destruct (Z.ltb_spec slot (fd_limit w)); [|lia]. simpl in E.
      destruct (Z.eqb_spec slot (-1)); [lia|discriminate].
  - unfold bind, ret, redirected. simpl. now destruct (k w) as [[? ?] ?].
Qed.

Lemma fork_try_done main flags i o e w :
  let w3 := closed (Pipe.read_fd e)
              (closed (Pipe.read_fd o) (closed (Pipe.write_fd i) w)) in
  let wa := redirected (requested flags StandardStream.stdin)
              (Pipe.read_fd i) STDIN_FILENO w3 in
  let wb := redirected (requested flags StandardStream.stdout)
              (Pipe.write_fd o) STDOUT_FILENO wa in
  let wc := redirected (requested flags StandardStream.stderr)
              (Pipe.write_fd e) STDERR_FILENO wb in
  (requested flags StandardStream.stdin = true ->
   is_Some (fdtab w3 !! Pipe.read_fd i) /\ 0 <= STDIN_FILENO < fd_limit w3) ->
  (requested flags StandardStream.stdout = true ->
   is_Some (fdtab wa !! Pipe.write_fd o) /\ 0 <= STDOUT_FILENO < fd_limit wa) ->
  (requested flags StandardStream.stderr = true ->
   is_Some (fdtab wb !! Pipe.write_fd e) /\ 0 <= STDERR_FILENO < fd_limit wb) ->
  fork_try main flags (i, o, e) w
  = prepend (child_closes (i, o, e)
             ++ map dup_done (redirections flags (i, o, e)))
            (invoke main wc).
Proof.
  intros w3 wa wb wc H1 H2 H3. unfold fork_try.
  erewrite bind_normal by apply close_write_fd_run.
  erewrite bind_normal by apply close_read_fd_run.
  erewrite bind_normal by apply close_read_fd_run.
  cbn [Pipe.read_fd Pipe.write_fd]. fold w3.
  rewrite (redirect_stage_done _ _ _ _ w3 H1). fold wa.
  rewrite (redirect_stage_done _ _ _ _ wa H2). fold wb.
  rewrite (redirect_stage_done _ _ _ _ wb H3). fold wc.
  rewrite !prepend_prepend. f_equal.
  unfold child_closes, redirections. rewrite !map_app, <- !app_assoc.
  destruct (requested flags StandardStream.stdin),
           (requested flags StandardStream.stdout),
           (requested flags StandardStream.stderr); reflexivity.
Qed.

Lemma redirected_lookup (b : bool) fd slot w f s :
  (b = true -> fdtab w !! fd = Some f /\ 0 <= slot < fd_limit w) ->
  fdtab (redirected b fd slot w) !! s
  = (if b && (s =? slot) then Some f else fdtab w !! s) /\
  fd_limit (redirected b fd slot w) = fd_limit w.
Proof.
  intros H. destruct b; [|split; reflexivity].
  destruct (H eq_refl) as [L R].
  destruct (redirected_table fd slot w f L R) as [-> ->].
  split; [|reflexivity]. simpl.
  destruct (Z.eqb_spec s slot) as [->|N].
  - apply lookup_insert_eq.
  - now apply lookup_insert_ne.
Qed.

Lemma fork_child_done pf main flags i o e w :
  let w3 := closed (Pipe.read_fd e)
              (closed (Pipe.read_fd o) (closed (Pipe.write_fd i) w)) in
  let wa := redirected (requested flags StandardStream.stdin)
              (Pipe.read_fd i) STDIN_FILENO w3 in
  let wb := redirected (requested flags StandardStream.stdout)
              (Pipe.write_fd o) STDOUT_FILENO wa in
  let wc := redirected (requested flags StandardStream.stderr)
              (Pipe.write_fd e) STDERR_FILENO wb in
  (requested flags StandardStream.stdin = true ->
   is_Some (fdtab w3 !! Pipe.read_fd i) /\ 0 <= STDIN_FILENO < fd_limit w3) ->
  (requested flags StandardStream.stdout = true ->
   is_Some (fdtab wa !! Pipe.write_fd o) /\ 0 <= STDOUT_FILENO < fd_limit wa) ->
  (requested flags StandardStream.stderr = true ->
   is_Some (fdtab wb !! Pipe.write_fd e) /\ 0 <= STDERR_FILENO < fd_limit wb) ->
  fork_after pf main flags 0 (i, o, e) w
  = prepend (child_closes (i, o, e)
             ++ map dup_done (redirections flags (i, o, e)) ++ [EvEntry])
            (child_finish pf (main wc)).
Proof.
  intros w3 wa wb wc H1 H2 H3.
  pose proof (fork_try_done main flags i o e w H1 H2 H3) as E.
  fold w3 wa wb wc in E.
  unfold fork_after. change (0 =? -1) with false. change (is_child 0) with true.
  cbv iota. unfold invoke in E.
  destruct (main wc) as [[s|x] w'] eqn:Em.
  - erewrite bind_normal by (erewrite try_normal by exact E; reflexivity).
    unfold sys_exit, child_finish. simpl. now rewrite <- !app_assoc.
  - erewrite bind_normal.
    2:{ erewrite try_thrown by exact E. rewrite fork_catch_run. reflexivity. }
    unfold child_finish, sys_exit. simpl. now rewrite <- !app_assoc.
Qed.

Lemma duplicate_process_limit w pid wo wc :
  duplicate_process w = DupDone pid wo wc ->
  fd_limit wo = fd_limit w /\ fd_limit wc = fd_limit w.
Proof.
  unfold duplicate_process. destruct (nproc w); [discriminate|].
  intros [= <- <- <-]. split; reflexivity.
Qed.

(** A pipe of a launch in a process whose standard descriptors were
    open: its descriptors are not among them. *)
Lemma made_in_far w b p s :
  fits b p -> made_in w p -> is_Some (fdtab w !! s) -> 0 <= s ->
  Pipe.read_fd p <> s /\ Pipe.write_fd p <> s.
Proof.
  intros F M [f L] N. apply fits_cases in F as [->|R].
  - simpl. lia.
  - destruct (M R) as (Fr & Fw & _). split; congruence.
Qed.

Lemma closes_keep_slot i o e w s :
  Pipe.write_fd i <> s -> Pipe.read_fd o <> s -> Pipe.read_fd e <> s ->
  fdtab (closed (Pipe.read_fd e)
           (closed (Pipe.read_fd o) (closed (Pipe.write_fd i) w))) !! s
  = fdtab w !! s.
Proof. intros. now rewrite !lookup_closed_ne by congruence. Qed.

(** X5: the streams are wired end to end.  When [fork] is called in a process
    whose three standard descriptors are open, and the pipes and the
    duplication succeed, no redirection fails and the entry is invoked in
    a state [w_e] in which, for each requested stream, the standard slot
    names one end of a pipe whose other end is the descriptor that the
    caller's handle holds, open in the original process: the new process
    reads on slot 0 what the caller writes to [cin], and the caller reads
    from [cout] and [cerr_pipe] what the new process writes on slots 1
    and 2.  A slot that was not requested names what it named before the
    launch. *)
Theorem fork_wires_the_streams pf main flags w i o e w1 l1 pid wo wc :
  is_Some (fdtab w !! STDIN_FILENO) ->
  is_Some (fdtab w !! STDOUT_FILENO) ->
  is_Some (fdtab w !! STDERR_FILENO) ->
  fork_pipes flags w = (Normal (i, o, e), w1, l1) ->
  duplicate_process w1 = DupDone pid wo wc ->
  exists cp w_o w_e,
    original (fork pf main flags w)
    = (Normal cp, w_o, l1 ++ [EvFork pid] ++ parent_closes (i, o, e)) /\
    duplicate (fork pf main flags w)
    = Some (prepend (child_closes (i, o, e)
                     ++ map dup_done (redirections flags (i, o, e))
                     ++ [EvEntry])
                    (child_finish pf (main w_e))) /\
    (if requested flags StandardStream.stdin
     then exists id,
            fdtab w_e !! STDIN_FILENO = Some (PipeReadEnd id) /\
            fdtab w_o !! Pipe.write_fd (cin cp) = Some (PipeWriteEnd id)
     else fdtab w_e !! STDIN_FILENO = fdtab w !! STDIN_FILENO) /\
    (if requested flags StandardStream.stdout
     then exists id,
            fdtab w_e !! STDOUT_FILENO = Some (PipeWriteEnd id) /\
            fdtab w_o !! Pipe.read_fd (cout cp) = Some (PipeReadEnd id)
     else fdtab w_e !! STDOUT_FILENO = fdtab w !! STDOUT_FILENO) /\
    (if requested flags StandardStream.stderr
     then exists id,
            fdtab w_e !! STDERR_FILENO = Some (PipeWriteEnd id) /\
            fdtab w_o !! Pipe.read_fd (cerr_pipe cp) = Some (PipeReadEnd id)
     else fdtab w_e !! STDERR_FILENO = fdtab w !! STDERR_FILENO).
Proof.
  intros S0 S1 S2 E D.
  pose proof (duplicate_process_pid _ _ _ _ D) as [P _].
  pose proof (duplicate_process_tables _ _ _ _ D) as [To Tc].
  pose proof (duplicate_process_limit _ _ _ _ D) as [_ Lc].
  pose proof (fork_pipes_layout _ _ _ _ _ _ _ E) as L.
  pose proof (fork_pipes_bounds _ _ _ _ _ _ _ E) as (Lim & Pres & Mi & Mo & Me).
  assert (F : fits (requested flags StandardStream.stdin) i /\
              fits (requested flags StandardStream.stdout) o /\
              fits (requested flags StandardStream.stderr) e).
  { destruct (fork_pipes_cases flags w)
      as [(i' & o' & e' & w' & E' & F)|(w' & l & E' & _)];
      rewrite E in E'; [|discriminate].
    injection E' as <- <- <- <- _. exact F. }
  destruct F as (Fi & Fo & Fe).
  rewrite <- To in L.
  destruct (opposite_ends_in_tables i o e wo wc L) as (Hi & Ho & He);
    [congruence|].
  unfold STDIN_FILENO, STDOUT_FILENO, STDERR_FILENO in *.
  destruct (made_in_far w _ i 0 Fi Mi S0) as [Ai0 Bi0]; [lia|].
  destruct (made_in_far w _ i 1 Fi Mi S1) as [Ai1 Bi1]; [lia|].
  destruct (made_in_far w _ i 2 Fi Mi S2) as [Ai2 Bi2]; [lia|].
  destruct (made_in_far w _ o 0 Fo Mo S0) as [Ao0 Bo0]; [lia|].
  destruct (made_in_far w _ o 1 Fo Mo S1) as [Ao1 Bo1]; [lia|].
  destruct (made_in_far w _ o 2 Fo Mo S2) as [Ao2 Bo2]; [lia|].
  destruct (made_in_far w _ e 0 Fe Me S0) as [Ae0 Be0]; [lia|].
  destruct (made_in_far w _ e 1 Fe Me S1) as [Ae1 Be1]; [lia|].
  destruct (made_in_far w _ e 2 Fe Me S2) as [Ae2 Be2]; [lia|].
  set (w3 := closed (Pipe.read_fd e)
               (closed (Pipe.read_fd o) (closed (Pipe.write_fd i) wc))) in *.
  assert (L3 : fd_limit w3 = fd_limit w)
    by (subst w3; rewrite !fd_limit_closed; congruence).
  assert (K : forall s, is_Some (fdtab w !! s) ->
                Pipe.write_fd i <> s -> Pipe.read_fd o <> s ->
                Pipe.read_fd e <> s -> fdtab w3 !! s = fdtab w !! s).
  { intros s [f Ls] ? ? ?. subst w3. rewrite closes_keep_slot by assumption.
    rewrite Tc, Ls. now apply Pres. }
  set (b1 := requested flags StandardStream.stdin) in *.
  set (b2 := requested flags StandardStream.stdout) in *.
  set (b3 := requested flags StandardStream.stderr) in *.
  assert (exists f1, b1 = true ->
            (exists id, f1 = PipeReadEnd id /\
               fdtab (closed (Pipe.write_fd e) (closed (Pipe.write_fd o)
                        (closed (Pipe.read_fd i) wo))) !! Pipe.write_fd i
               = Some (PipeWriteEnd id)) /\
            fdtab w3 !! Pipe.read_fd i = Some f1 /\ 0 <= 0 < fd_limit w3)
    as [f1 H1].
  { destruct b1; [|exists Terminal; discriminate].
    destruct (Hi Fi) as (id & Pw & _ & Cr & _). destruct (Mi Fi) as (_ & _ & R & _).
    exists (PipeReadEnd id). intros _. split; [eauto|]. split; [exact Cr|]. lia. }
  destruct (redirected_lookup b1 (Pipe.read_fd i) 0 w3 f1 0) as [Ta0 La];
    [intros B; now apply H1|].
  destruct (redirected_lookup b1 (Pipe.read_fd i) 0 w3 f1 1) as [Ta1 _];
    [intros B; now apply H1|].
  destruct (redirected_lookup b1 (Pipe.read_fd i) 0 w3 f1 2) as [Ta2 _];
    [intros B; now apply H1|].
  destruct (redirected_lookup b1 (Pipe.read_fd i) 0 w3 f1 (Pipe.write_fd o))
    as [Tao _]; [intros B; now apply H1|].
  destruct (redirected_lookup b1 (Pipe.read_fd i) 0 w3 f1 (Pipe.write_fd e))
    as [Tae _]; [intros B; now apply H1|].
  set (wa := redirected b1 (Pipe.read_fd i) 0 w3) in *.
  assert (exists f2, b2 = true ->
            (exists id, f2 = PipeWriteEnd id /\
               fdtab (closed (Pipe.write_fd e) (closed (Pipe.write_fd o)
                        (closed (Pipe.read_fd i) wo))) !! Pipe.read_fd o
               = Some (PipeReadEnd id)) /\
            fdtab wa !! Pipe.write_fd o = Some f2 /\ 0 <= 1 < fd_limit wa)
    as [f2 H2].
  { destruct b2; [|exists Terminal; discriminate].
    destruct (Ho Fo) as (id & Pr & _ & Cw & _). destruct (Mo Fo) as (_ & _ & R & _).
    exists (PipeWriteEnd id). intros _. split; [eauto|]. split; [|lia].
    rewrite Tao. destruct (Z.eqb_spec (Pipe.write_fd o) 0); [congruence|].
    rewrite andb_false_r. exact Cw. }
  destruct (redirected_lookup b2 (Pipe.write_fd o) 1 wa f2 0) as [Tb0 Lb];
    [intros B; now apply H2|].
  destruct (redirected_lookup b2 (Pipe.write_fd o) 1 wa f2 1) as [Tb1 _];
    [intros B; now apply H2|].
  destruct (redirected_lookup b2 (Pipe.write_fd o) 1 wa f2 2) as [Tb2 _];
    [intros B; now apply H2|].
  destruct (redirected_lookup b2 (Pipe.write_fd o) 1 wa f2 (Pipe.write_fd e))
    as [Tbe _]; [intros B; now apply H2|].
  set (wb := redirected b2 (Pipe.write_fd o) 1 wa) in *.
  assert (exists f3, b3 = true ->
            (exists id, f3 = PipeWriteEnd id /\
               fdtab (closed (Pipe.write_fd e) (closed (Pipe.write_fd o)
                        (closed (Pipe.read_fd i) wo))) !! Pipe.read_fd e
               = Some (PipeReadEnd id)) /\
            fdtab wb !! Pipe.write_fd e = Some f3 /\ 0 <= 2 < fd_limit wb)
    as [f3 H3].
  { destruct b3; [|exists Terminal; discriminate].
    destruct (He Fe) as (id & Pr & _ & Cw & _). destruct (Me Fe) as (_ & _ & R & _).
    exists (PipeWriteEnd id). intros _. split; [eauto|]. split; [|lia].
    rewrite Tbe, Tae.
    destruct (Z.eqb_spec (Pipe.write_fd e) 1); [congruence|].
    destruct (Z.eqb_spec (Pipe.write_fd e) 0); [congruence|].
    rewrite !andb_false_r. exact Cw. }
  destruct (redirected_lookup b3 (Pipe.write_fd e) 2 wb f3 0) as [Tc0 _];
    [intros B; now apply H3|].
  destruct (redirected_lookup b3 (Pipe.write_fd e) 2 wb f3 1) as [Tc1 _];
    [intros B; now apply H3|].
  destruct (redirected_lookup b3 (Pipe.write_fd e) 2 wb f3 2) as [Tc2 _];
    [intros B; now apply H3|].
  set (w_e := redirected b3 (Pipe.write_fd e) 2 wb) in *.
  exists {| pid := pid;
            cin := {| Pipe.read_fd := -1; Pipe.write_fd := Pipe.write_fd i |};
            cout := {| Pipe.read_fd := Pipe.read_fd o; Pipe.write_fd := -1 |};
            cerr_pipe := {| Pipe.read_fd := Pipe.read_fd e;
                            Pipe.write_fd := -1 |} |},
         (closed (Pipe.write_fd e) (closed (Pipe.write_fd o)
                    (closed (Pipe.read_fd i) wo))), w_e.
  unfold fork. erewrite spawn_done by eassumption. cbn [original duplicate].
  split; [|split].
  - rewrite fork_parent_run by lia. unfold prepend. cbn [fst snd].
    now rewrite <- app_assoc.
  - f_equal. apply fork_child_done; fold w3; fold b1 b2 b3;
      unfold STDIN_FILENO, STDOUT_FILENO, STDERR_FILENO; fold wa; fold wb;
      intros B; [destruct (H1 B) as (_ & ? & ?)|destruct (H2 B) as (_ & ? & ?)
                |destruct (H3 B) as (_ & ? & ?)]; eauto.
  - cbn [cin cout cerr_pipe Pipe.read_fd Pipe.write_fd].
    rewrite Tc0, Tc1, Tc2, Tb0, Tb1, Tb2, Ta0, Ta1, Ta2.
    rewrite !K by assumption.
    change (0 =? 1) with false. change (0 =? 2) with false.
    change (1 =? 0) with false. change (1 =? 2) with false.
    change (2 =? 0) with false. change (2 =? 1) with false.
    change (0 =? 0) with true. change (1 =? 1) with true.
    change (2 =? 2) with true.
    rewrite !andb_false_r, !andb_true_r.
    split; [|split].
    + destruct b1 eqn:B1; [|reflexivity].
      destruct (H1 eq_refl) as ((id & -> & Pw) & _). eauto.
    + destruct b2 eqn:B2; [|reflexivity].
      destruct (H2 eq_refl) as ((id & -> & Pw) & _). eauto.
    + destruct b3 eqn:B3; [|reflexivity].
      destruct (H3 eq_refl) as ((id & -> & Pw) & _). eauto.
Qed.

Lemma fork_wires_the_streams_witness :
  exists cp w_o w_e id,
    run_outcome (original (fork demo_platform (returns exit.success) 7
                             (boot [] 4 64))) = Normal cp /\
    fdtab w_e !! STDIN_FILENO = Some (PipeReadEnd id) /\
    fdtab w_o !! Pipe.write_fd (cin cp) = Some (PipeWriteEnd id).
Proof.
  edestruct (fork_wires_the_streams demo_platform (returns exit.success) 7
               (boot [] 4 64))
    as (cp & w_o & w_e & O & _ & (id & Hc & Hp) & _);
    [eexists; reflexivity|eexists; reflexivity|eexists; reflexivity
    |vm_compute; reflexivity|vm_compute; reflexivity|].
  exists cp, w_o, w_e, id. rewrite O. auto.
Defined.

(** ** Every run of a launch, as a whole *)

Lemma vfork_pipes_eq : vfork_pipes = fork_pipes 7.
Proof. reflexivity. Qed.

Lemma create_if_events (b : bool) w :
  Forall (fun ev => is_pipe ev = true)
         (run_events ((if b then Pipe.create else ret Pipe.invalid) w)).
Proof.
  destruct (create_if_cases b w) as [(p & w' & -> & _)|[_ ->]].
  - unfold run_events. simpl. destruct b; repeat constructor.
  - repeat constructor.
Qed.

Lemma fork_pipes_events flags w :
  Forall (fun ev => is_pipe ev = true) (run_events (fork_pipes flags w)).
Proof.
  unfold fork_pipes.
  pose proof (create_if_events (requested flags StandardStream.stdin) w) as H1.
  destruct ((if requested flags StandardStream.stdin
             then Pipe.create else ret Pipe.invalid) w)
    as [[[i|x|c] wa] la] eqn:E1;
    [erewrite bind_normal by exact E1
    |erewrite bind_thrown by exact E1; exact H1
    |erewrite bind_exited by exact E1; exact H1].
  pose proof (create_if_events (requested flags StandardStream.stdout) wa) as H2.
  destruct ((if requested flags StandardStream.stdout
             then Pipe.create else ret Pipe.invalid) wa)
    as [[[o|x|c] wb] lb] eqn:E2;
    [erewrite bind_normal by exact E2
    |erewrite bind_thrown by exact E2; apply Forall_app; split; assumption
    |erewrite bind_exited by exact E2; apply Forall_app; split; assumption].
  pose proof (create_if_events (requested flags StandardStream.stderr) wb) as H3.
  destruct ((if requested flags StandardStream.stderr
             then Pipe.create else ret Pipe.invalid) wb)
    as [[[e|x|c] wc] lc] eqn:E3;
    [erewrite bind_normal by exact E3
    |erewrite bind_thrown by exact E3
    |erewrite bind_exited by exact E3];
    unfold run_events, ret, prepend in *; cbn [snd] in *;
    rewrite ?app_nil_r; repeat (apply Forall_app; split); assumption.
Qed.

Lemma span_nil lo hi : span lo hi [].
Proof. split; constructor. Qed.

Lemma span_same k l : Forall (fun ev => phase ev = k) l -> span k k l.
Proof.
  intros H. split.
  - eapply Forall_impl; [exact H|]. intros ev ->. lia.
  - induction H as [|ev l E F IH]; constructor; [exact IH|].
    eapply Forall_impl; [exact F|]. intros ev' E'. simpl in E'. lia.
Qed.

Lemma span_app a b c d l1 l2 :
  span a b l1 -> span c d l2 -> (a <= c)%nat -> (b <= c)%nat -> (b <= d)%nat ->
  span a d (l1 ++ l2).
Proof.
  intros [F1 S1] [F2 S2] L0 L1 L2. split.
  - apply Forall_app. split; (eapply Forall_impl; [eassumption|]);
      intros ev ?; simpl in *; lia.
  - apply StronglySorted_app_2; [|assumption..].
    intros x1 x2 H1 H2.
    rewrite Forall_forall in F1, F2.
    specialize (F1 _ H1). specialize (F2 _ H2). simpl in *. lia.
Qed.

Lemma span_wider a b c d l :
  span a b l -> (c <= a)%nat -> (b <= d)%nat -> span c d l.
Proof.
  intros [F S] L1 L2. split; [|exact S].
  eapply Forall_impl; [exact F|]. intros ev ?. simpl in *. lia.
Qed.

Lemma span_pipes l : Forall (fun ev => is_pipe ev = true) l -> span 0 0 l.
Proof.
  intros H. apply span_same. eapply Forall_impl; [exact H|].
  intros [] E; try discriminate E. reflexivity.
Qed.

Lemma span_close_events fd : span 2 2 (close_events fd).
Proof.
  unfold close_events. destruct (fd =? -1); [apply span_nil|].
  apply span_same. repeat constructor.
Qed.

Lemma span_child_closes pipes : span 2 2 (child_closes pipes).
Proof.
  destruct pipes as [[i o] e]. unfold child_closes.
  repeat (apply (span_app 2 2 2 2); [apply span_close_events| |lia..]).
  apply span_close_events.
Qed.

Lemma span_parent_closes pipes : span 2 2 (parent_closes pipes).
Proof.
  destruct pipes as [[i o] e]. unfold parent_closes.
  repeat (apply (span_app 2 2 2 2); [apply span_close_events| |lia..]).
  apply span_close_events.
Qed.

Lemma span_dup_done l : span 3 3 (map dup_done l).
Proof. apply span_same, Forall_map, Forall_forall. now intros [fd slot] _. Qed.

Lemma span_report pf x w : span 5 5 (report pf x w).
Proof.
  apply span_same. destruct (print_backtrace_run pf w) as (syms & _ & E).
  unfold report. rewrite E. unfold run_events, cerr_lines. cbn [snd].
  apply Forall_app. split.
  - apply Forall_map, Forall_forall. now intros t _.
  - apply Forall_forall. intros ev H.
    apply elem_of_lookup_zip_with in H as (? & ? & ? & -> & _). reflexivity.
Qed.

Lemma span_dup_failed red : span 3 3 [dup_failed red].
Proof. apply span_same. now repeat constructor. Qed.

Lemma span_entry : span 4 4 [EvEntry].
Proof. apply span_same. now repeat constructor. Qed.

Lemma span_exit c : span 6 6 [EvExit c].
Proof. apply span_same. now repeat constructor. Qed.

(** The run of the new process goes through its phases in order. *)
Lemma fork_child_span pf main flags pipes w :
  span 2 6 (run_events (fork_after pf main flags 0 pipes w)).
Proof.
  destruct (fork_child_run pf main flags pipes w)
    as [(k & red & w_f & _ & _ & E)|[w_e E]]; rewrite E; clear E.
  - unfold run_events. cbn [snd].
    apply (span_app 2 2 3 6); [apply span_child_closes| |lia..].
    apply (span_app 3 3 3 6); [apply span_dup_done| |lia..].
    apply (span_app 3 3 5 6); [apply span_dup_failed| |lia..].
    apply (span_app 5 5 6 6); [apply span_report| |lia..].
    apply span_exit.
  - destruct (main w_e) as [[s|x] w']; unfold child_finish, prepend,
      run_events; cbn [snd].
    + apply (span_app 2 4 6 6); [| apply span_exit |lia..].
      apply (span_app 2 2 3 4); [apply span_child_closes| |lia..].
      apply (span_app 3 3 4 4); [apply span_dup_done| |lia..].
      apply span_entry.
    + apply (span_app 2 4 5 6); [| |lia..].
      * apply (span_app 2 2 3 4); [apply span_child_closes| |lia..].
        apply (span_app 3 3 4 4); [apply span_dup_done| |lia..].
        apply span_entry.
      * apply (span_app 5 5 6 6); [apply span_report| |lia..].
        apply span_exit.
Qed.

Lemma spawn_course pf main flags ev (before : M Pipes)
    (shared : Z -> Pipes -> Pipes) w :
  (forall pipes, shared 0 pipes = pipes) ->
  (exists pipes, run_outcome (before w) = Normal pipes) \/
  run_outcome (before w) = Thrown (system_error EMFILE) ->
  Course pf main flags ev before shared w
    (spawn ev before
       (fun pid pipes => fork_after pf main flags pid (shared pid pipes)) w).
Proof.
  intros S0 H. unfold spawn.
  destruct (before w) as [[[pipes|x|c] w1] l1] eqn:E.
  - destruct (duplicate_process w1) as [w2|pid wo wc] eqn:D.
    + rewrite fork_after_minus_one. unfold prepend. rewrite app_nil_r.
      eapply no_process; eassumption.
    + pose proof (duplicate_process_pid _ _ _ _ D) as [P _].
      rewrite fork_parent_run by lia. unfold prepend.
      rewrite <- app_assoc, (S0 pipes).
      exact (launched pf main flags ev before shared w pipes w1 l1 pid wo wc
               E D).
  - destruct H as [[p H]|H]; [discriminate H|]. injection H as ->.
    now apply no_pipes.
  - destruct H as [[p H]|H]; discriminate H.
Qed.

Lemma fork_pipes_outcome flags w :
  (exists pipes, run_outcome (fork_pipes flags w) = Normal pipes) \/
  run_outcome (fork_pipes flags w) = Thrown (system_error EMFILE).
Proof.
  destruct (fork_pipes_cases flags w)
    as [(i & o & e & w' & -> & _)|(w' & l & -> & _)]; [left|right]; eauto.
Qed.

Lemma fork_course pf main flags w :
  Course pf main flags EvFork (fork_pipes flags) (fun _ pipes => pipes) w
    (fork pf main flags w).
Proof.
  apply (spawn_course pf main flags EvFork (fork_pipes flags)
           (fun _ pipes => pipes)); [reflexivity|apply fork_pipes_outcome].
Qed.

Lemma vfork_course pf main flags w :
  Course pf main flags EvVfork vfork_pipes vfork_shared w
    (vfork pf main flags w).
Proof.
  apply (spawn_course pf main flags EvVfork vfork_pipes vfork_shared);
    [reflexivity|].
  rewrite vfork_pipes_eq. apply fork_pipes_outcome.
Qed.

Lemma vfork_pipes_events w :
  Forall (fun ev => is_pipe ev = true) (run_events (vfork_pipes w)).
Proof. rewrite vfork_pipes_eq. apply fork_pipes_events. Qed.

Lemma course_original_span pf main flags ev before shared w l :
  Course pf main flags ev before shared w l ->
  (forall pid, phase (ev pid) = 1%nat) ->
  Forall (fun e => is_pipe e = true) (run_events (before w)) ->
  span 0 2 (run_events (original l)).
Proof.
  intros C P F.
  destruct C as [w1 l1 E|pipes w1 l1 w2 E D|pipes w1 l1 pid wo wc E D];
    rewrite E in F; unfold run_events in *; cbn [snd original] in *.
  - apply (span_wider 0 0); [now apply span_pipes|lia..].
  - apply (span_app 0 0 1 2); [now apply span_pipes| |lia..].
    apply (span_wider 1 1); [|lia..].
    apply span_same. constructor; [apply P|constructor].
  - apply (span_app 0 0 1 2); [now apply span_pipes| |lia..].
    apply (span_app 1 1 2 2); [|apply span_parent_closes|lia..].
    apply span_same. constructor; [apply P|constructor].
Qed.

Lemma course_duplicate_span pf main flags ev before shared w l r :
  Course pf main flags ev before shared w l -> duplicate l = Some r ->
  span 2 6 (run_events r).
Proof.
  intros C E. destruct C; try discriminate E. injection E as <-.
  apply fork_child_span.
Qed.

Lemma launch_course pf main flags w l :
  l = fork pf main flags w \/ l = vfork pf main flags w ->
  exists ev before shared,
    Course pf main flags ev before shared w l /\
    (forall pid, phase (ev pid) = 1%nat) /\
    Forall (fun e => is_pipe e = true) (run_events (before w)).
Proof.
  intros [->| ->].
  - exists EvFork, (fork_pipes flags), (fun _ pipes => pipes).
    split; [apply fork_course|]. split; [reflexivity|apply fork_pipes_events].
  - exists EvVfork, vfork_pipes, vfork_shared.
    split; [apply vfork_course|]. split; [reflexivity|apply vfork_pipes_events].
Qed.

Lemma span_count p lo hi l :
  span lo hi l -> (forall ev, p ev = true -> (phase ev < lo \/ hi < phase ev)%nat) ->
  count p l = O.
Proof.
  intros [F _] H. apply count_none. eapply Forall_impl; [exact F|].
  intros ev R. simpl in R. destruct (p ev) eqn:E; [|reflexivity].
  apply H in E. lia.
Qed.

(** X6: every run of a launch goes through its stages in one order.  In the
    calling process the pipes are made before the process is duplicated
    and descriptors are closed only afterwards; in the new process the
    unused ends are closed before any redirection, every redirection
    precedes the entry, what is written on the error stream follows the
    entry, and the exit is last. *)
Theorem launch_runs_in_phase_order pf main flags w l :
  l = fork pf main flags w \/ l = vfork pf main flags w ->
  in_order (run_events (original l)) /\
  (forall r, duplicate l = Some r -> in_order (run_events r)).
Proof.
  intros H. destruct (launch_course pf main flags w l H)
    as (ev & before & shared & C & P & F).
  split.
  - now apply (course_original_span pf main flags ev before shared w l C P F).
  - intros r E. now apply (course_duplicate_span _ _ _ _ _ _ _ _ _ C E).
Qed.

Lemma launch_runs_in_phase_order_witness :
  in_order (run_events (original
    (fork demo_platform (raises foreign_exception) 7 (boot [1024] 4 64)))) /\
  exists r,
    duplicate (vfork demo_platform (raises foreign_exception) 7
                 (boot [1024] 4 64)) = Some r /\
    in_order (run_events r).
Proof.
  split.
  - apply (launch_runs_in_phase_order demo_platform (raises foreign_exception)
             7 (boot [1024] 4 64)). left. reflexivity.
  - eexists. split; [vm_compute; reflexivity|].
    apply (launch_runs_in_phase_order demo_platform (raises foreign_exception)
             7 (boot [1024] 4 64)
             (vfork demo_platform (raises foreign_exception) 7
                (boot [1024] 4 64))); [right; reflexivity|].
    vm_compute. reflexivity.
Defined.

(** ** What the new process tells its parent *)

Lemma count_cerr_report pf x w :
  count is_cerr (report pf x w)
  = (length (heading pf x) + Nat.min max_frames (length (callstack w)))%nat.
Proof.
  rewrite count_all.
  - destruct (print_backtrace_run pf w) as (syms & F & E).
    unfold report. rewrite E, length_app, length_map.
    unfold run_events. cbn [snd]. rewrite cerr_lines_length.
    + now rewrite length_take.
    + symmetry. exact (Forall2_length _ _ _ F).
  - destruct (span_report pf x w) as [F _].
    eapply Forall_impl; [exact F|]. intros [] R; simpl in R; try lia.
    reflexivity.
Qed.

Lemma heading_length pf x : (1 <= length (heading pf x) <= 2)%nat.
Proof. destruct x; simpl; lia. Qed.

Lemma count_before_entry p pipes l :
  (forall ev, p ev = true -> (4 <= phase ev)%nat) ->
  count p (child_closes pipes ++ map dup_done l) = O.
Proof.
  intros H. apply (span_count p 2 3).
  - apply (span_app 2 2 3 3); [apply span_child_closes|apply span_dup_done|lia..].
  - intros ev E. apply H in E. lia.
Qed.

Lemma count_through_entry p pipes l :
  (forall ev, p ev = true -> (4 <= phase ev)%nat) ->
  count p (child_closes pipes ++ map dup_done l ++ [EvEntry])
  = if p EvEntry then 1%nat else O.
Proof.
  intros H. rewrite app_assoc, count_app, count_before_entry by exact H.
  rewrite count_cons. now destruct (p EvEntry).
Qed.

(** The two endings of the new process, by what its parent can see. *)
Lemma fork_child_verdict pf main flags pipes w :
  let r := fork_after pf main flags 0 pipes w in
  (exists w_e s,
     main w_e = (Returned s, run_world r) /\
     run_outcome r = Exited (exit.to_int s) /\
     count is_cerr (run_events r) = O /\ count is_entry (run_events r) = 1%nat)
  \/ (exists x,
        run_outcome r = Exited (exit.to_int exit.failure) /\
        count is_cerr (run_events r)
        = (length (heading pf x)
           + Nat.min max_frames (length (callstack (run_world r))))%nat /\
        (count is_entry (run_events r) = O -> x = system_error EBADF)).
Proof.
  intros r. subst r.
  destruct (fork_child_run pf main flags pipes w)
    as [(k & red & w_f & _ & _ & E)|[w_e E]]; rewrite E; clear E.
  - right. exists (system_error EBADF).
    unfold run_outcome, run_world, run_events. cbn [fst snd].
    split; [reflexivity|]. split; [|reflexivity].
    rewrite app_assoc, count_app, count_before_entry
      by (intros [] R; try discriminate R; simpl; lia).
    rewrite !count_app, count_cerr_report, !count_cons.
    change (length (heading pf (system_error EBADF))) with 2%nat.
    cbn [is_cerr dup_failed count filter length list_filter]. lia.
  - destruct (main w_e) as [[s|x] w'] eqn:M;
      unfold child_finish, prepend, run_outcome, run_world, run_events;
      cbn [fst snd].
    + left. exists w_e, s. split; [exact M|]. split; [reflexivity|].
      rewrite !(count_app _ (_ ++ _ ++ _)), !count_through_entry
        by (intros [] R; try discriminate R; simpl; lia).
      split; reflexivity.
    + right. exists x. split; [reflexivity|].
      rewrite !(count_app _ (_ ++ _ ++ _)), !count_through_entry
        by (intros [] R; try discriminate R; simpl; lia).
      rewrite !count_app, count_cerr_report, count_report, !count_cons
        by reflexivity.
      cbn [is_cerr is_entry count filter length list_filter].
      split; [lia|]. intros R. discriminate R.
Qed.

(** X8: the status with which the launcher ends the new process and what
    the launcher writes on the error stream agree.  When the exit of line
    155 or 212 has the status [success], the entry was invoked, it
    returned [success], and no handler of the launcher has written a
    line; when a handler of the launcher has written anything, that exit
    has the status [failure]; when the entry was never invoked, the
    launcher writes its two heading lines and the backtrace; and the
    launcher never writes more than two lines and [max_frames] frames.
    The lines are those of the handlers, lines 142-151 and 199-208; what
    the entry itself writes is not among the events. *)
Theorem diagnostics_mean_failure pf main flags w l r :
  l = fork pf main flags w \/ l = vfork pf main flags w ->
  duplicate l = Some r ->
  (run_outcome r = Exited (exit.to_int exit.success) ->
   count is_cerr (run_events r) = O /\ count is_entry (run_events r) = 1%nat /\
   exists w_e, main w_e = (Returned exit.success, run_world r))
  /\ (count is_cerr (run_events r) <> O ->
      run_outcome r = Exited (exit.to_int exit.failure))
  /\ (count is_entry (run_events r) = O ->
      count is_cerr (run_events r)
      = (2 + Nat.min max_frames (length (callstack (run_world r))))%nat)
  /\ (count is_cerr (run_events r) <= 2 + max_frames)%nat.
Proof.
  intros H E. destruct (launch_course pf main flags w l H)
    as (ev & before & shared & C & _ & _).
  assert (exists pipes wc, r = fork_after pf main flags 0 pipes wc)
    as (pipes & wc & ->)
    by (destruct C; try discriminate E; injection E as <-; eauto).
  destruct (fork_child_verdict pf main flags pipes wc)
    as [(w_e & s & M & O & Z1 & Z2)|(x & O & Z1 & Z2)].
  - split; [|split; [|split]].
    + intros O'. rewrite O in O'. destruct s; [|discriminate O']. eauto.
    + intros N. now rewrite Z1 in N.
    + intros N. rewrite Z2 in N. discriminate N.
    + rewrite Z1. lia.
  - pose proof (heading_length pf x) as L. split; [|split; [|split]].
    + intros O'. rewrite O in O'. discriminate O'.
    + intros _. exact O.
    + intros N. rewrite Z1, (Z2 N). reflexivity.
    + rewrite Z1. lia.
Qed.

Lemma diagnostics_mean_failure_witness :
  exists r,
    duplicate (fork demo_platform (returns exit.success) 4 daemon) = Some r /\
    count is_cerr (run_events r) = 2%nat /\
    run_outcome r = Exited (exit.to_int exit.failure).
Proof.
  eexists. split; [vm_compute; reflexivity|].
  edestruct (diagnostics_mean_failure demo_platform (returns exit.success) 4
               daemon (fork demo_platform (returns exit.success) 4 daemon))
    as (_ & F & Z & _); [left; reflexivity|vm_compute; reflexivity|].
  split; [apply Z; vm_compute; reflexivity|apply F; vm_compute; discriminate].
Defined.

(** ** Line 75 when its count wraps around *)

Lemma size_t_negative z :
  - 2 ^ 64 <= z < 0 -> std_string.size_t z = z + 2 ^ 64.
Proof.
  intros H. unfold std_string.size_t. symmetry.
  apply (Z.mod_unique z (2 ^ 64) (-1)); lia.
Qed.

(** With nothing between the parentheses, or with the closing one before
    the opening one, the count of line 75 is negative, and as a [size_t]
    it exceeds every length: [substr] returns all that follows the
    opening parenthesis. *)
Lemma wrapped_cut text i j :
  std_string.size text < 2 ^ 64 ->
  (i < String.length text)%nat -> (j < i + 2)%nat ->
  std_string.substr text (std_string.size_t (Z.of_nat i + 1))
    (std_string.size_t (std_string.size_t (Z.of_nat j - 1)
                        - std_string.size_t (Z.of_nat i + 1)))
  = inr (substring (S i) (String.length text - S i) text).
Proof.
  unfold std_string.size. intros B Li Lij.
  rewrite (size_t_small (Z.of_nat i + 1)) by lia.
  assert (C : std_string.size_t
                (std_string.size_t (Z.of_nat j - 1) - (Z.of_nat i + 1))
              = 2 ^ 64 + Z.of_nat j - Z.of_nat i - 2).
  { destruct j as [|j].
    - change (Z.of_nat 0 - 1) with (-1).
      rewrite (size_t_negative (-1)) by lia.
      rewrite size_t_small by lia. lia.
    - rewrite (size_t_small (Z.of_nat (S j) - 1)) by lia.
      rewrite size_t_negative by lia. lia. }
  rewrite C. unfold std_string.substr, std_string.size.
  destruct (Z.ltb_spec (Z.of_nat (String.length text)) (Z.of_nat i + 1)); [lia|].
  f_equal. f_equal; lia.
Qed.

(** X9: line 75 on a frame text whose parentheses enclose nothing, or whose
    last closing parenthesis comes before its first opening one.  The
    count [(last-1) - (first+1)] is then negative; as a [size_t] it wraps
    around, no exception is raised, and the demangler is asked about
    everything that follows the opening parenthesis, up to the first plus
    sign.  With X3 and X4 this settles every text shorter than 2^64. *)
Theorem printer_wraps_around pf text i j :
  std_string.size text < 2 ^ 64 ->
  std_string.first_index "(" text = Some i ->
  std_string.last_index ")" text = Some j ->
  (j < i + 2)%nat ->
  frame_symbol pf text
  = inr (let '(readable, successful) :=
           demangle pf (strip_offset
                          (substring (S i) (String.length text - S i) text)) in
         if successful : bool then readable else text).
Proof.
  intros B Ei Ej Lij.
  pose proof (first_index_lt _ _ _ Ei) as Li.
  pose proof (last_index_lt _ _ _ Ej) as Lj.
  unfold frame_symbol, std_string.find_first_of, std_string.find_last_of.
  rewrite Ei, Ej. unfold std_string.size in B.
  assert (N1 : (Z.of_nat i =? std_string.npos) = false)
    by (apply Z.eqb_neq; unfold std_string.npos; lia).
  assert (N2 : (Z.of_nat j =? std_string.npos) = false)
    by (apply Z.eqb_neq; unfold std_string.npos; lia).
  rewrite N1, N2. cbn [negb andb].
  rewrite wrapped_cut by (unfold std_string.size; lia). cbn [and_then].
  set (rest := substring (S i) (String.length text - S i) text).
  unfold strip_offset, std_string.find_first_of.
  destruct (std_string.first_index "+" rest) as [p|] eqn:P.
  - pose proof (first_index_lt _ _ _ P) as Lp.
    assert (String.length rest <= String.length text)%nat
      by (subst rest; rewrite substring_length; lia).
    assert (N3 : (Z.of_nat p =? std_string.npos) = false)
      by (apply Z.eqb_neq; unfold std_string.npos; lia).
    rewrite N3. cbn [negb]. unfold std_string.erase, std_string.size.
    destruct (Z.ltb_spec (Z.of_nat (String.length rest)) (Z.of_nat p)); [lia|].
    cbn [and_then]. rewrite Nat2Z.id.
    now destruct (demangle pf (substring 0 p rest)) as [d []].
  - change (std_string.npos =? std_string.npos) with true. cbn [negb and_then].
    now destruct (demangle pf rest) as [d []].
Qed.

Lemma printer_wraps_around_witness :
  frame_symbol demo_platform ") _Z3foov+0x1a [0x410](_Z3foov" = inr "foo()"%string
  /\ frame_symbol demo_platform "prog()_Z3foov" = inr "prog()_Z3foov"%string.
Proof.
  split.
  - rewrite (printer_wraps_around demo_platform
               ") _Z3foov+0x1a [0x410](_Z3foov" 22 0);
      [reflexivity|reflexivity|reflexivity|reflexivity|vm_compute; lia].
  - rewrite (printer_wraps_around demo_platform "prog()_Z3foov" 4 5);
      [reflexivity|reflexivity|reflexivity|reflexivity|vm_compute; lia].
Defined.

(** ** The printer on the frame texts of glibc *)





Lemma first_index_head c rest k :
  std_string.first_index c (substring 0 (S k) (String c rest)) = Some O.
Proof. simpl. now rewrite Ascii.eqb_refl. Qed.








(** ** The descriptors of the new process when the entry starts *)

(** The ends that the new process keeps are, after its closes, what they
    were when the process was duplicated. *)
Lemma kept_ends i o e w1 wc :
  laid_out (fdtab w1) (i, o, e) -> fdtab wc = fdtab w1 ->
  let t := fdtab (child_after (i, o, e) wc) in
  (real i -> exists id,
     fdtab w1 !! Pipe.read_fd i = Some (PipeReadEnd id) /\
     fdtab w1 !! Pipe.write_fd i = Some (PipeWriteEnd id) /\
     t !! Pipe.read_fd i = Some (PipeReadEnd id))
  /\ (real o -> exists id,
        fdtab w1 !! Pipe.read_fd o = Some (PipeReadEnd id) /\
        fdtab w1 !! Pipe.write_fd o = Some (PipeWriteEnd id) /\
        t !! Pipe.write_fd o = Some (PipeWriteEnd id))
  /\ (real e -> exists id,
        fdtab w1 !! Pipe.read_fd e = Some (PipeReadEnd id) /\
        fdtab w1 !! Pipe.write_fd e = Some (PipeWriteEnd id) /\
        t !! Pipe.write_fd e = Some (PipeWriteEnd id)).
Proof.
  intros (Li & Lo & Le & Aio & Aoi & Aie & Aei & Aoe & Aeo) T t.
  subst t. unfold child_after, apart in *. cbn [fst snd].
  split; [|split]; intros [R W].
  - destruct (Li (conj R W)) as [(id & Lr & Lw) N]. exists id.
    repeat split; try assumption.
    rewrite !lookup_closed_ne by intuition congruence. now rewrite T.
  - destruct (Lo (conj R W)) as [(id & Lr & Lw) N]. exists id.
    repeat split; try assumption.
    rewrite !lookup_closed_ne by intuition congruence. now rewrite T.
  - destruct (Le (conj R W)) as [(id & Lr & Lw) N]. exists id.
    repeat split; try assumption.
    rewrite !lookup_closed_ne by intuition congruence. now rewrite T.
Qed.

(** The new process of a launch from a process whose standard descriptors
    are open: every redirection that [flags] asks for is made, and the
    entry starts with the table that the closes and the redirections
    leave.  [pflags] says which pipes were made. *)
Lemma entry_table pflags flags w i o e w1 l1 pid wo wc :
  is_Some (fdtab w !! STDIN_FILENO) ->
  is_Some (fdtab w !! STDOUT_FILENO) ->
  is_Some (fdtab w !! STDERR_FILENO) ->
  fork_pipes pflags w = (Normal (i, o, e), w1, l1) ->
  duplicate_process w1 = DupDone pid wo wc ->
  (requested flags StandardStream.stdin = true -> real i) ->
  (requested flags StandardStream.stdout = true -> real o) ->
  (requested flags StandardStream.stderr = true -> real e) ->
  exists w_e,
    (forall pf main,
       fork_after pf main flags 0 (i, o, e) wc
       = prepend (child_closes (i, o, e)
                  ++ map dup_done (redirections flags (i, o, e)) ++ [EvEntry])
                 (child_finish pf (main w_e))) /\
    (forall s,
       fdtab w_e !! s
       = if requested flags StandardStream.stdin && (s =? STDIN_FILENO)
         then fdtab w1 !! Pipe.read_fd i
         else if requested flags StandardStream.stdout && (s =? STDOUT_FILENO)
         then fdtab w1 !! Pipe.write_fd o
         else if requested flags StandardStream.stderr && (s =? STDERR_FILENO)
         then fdtab w1 !! Pipe.write_fd e
         else fdtab (child_after (i, o, e) wc) !! s).
Proof.
  intros S0 S1 S2 E D Ri Ro Re.
  pose proof (duplicate_process_tables _ _ _ _ D) as [_ Tc].
  pose proof (duplicate_process_limit _ _ _ _ D) as [_ Lc].
  pose proof (fork_pipes_layout _ _ _ _ _ _ _ E) as L.
  pose proof (fork_pipes_bounds _ _ _ _ _ _ _ E) as (Lim & Pres & Mi & Mo & Me).
  assert (F : fits (requested pflags StandardStream.stdin) i /\
              fits (requested pflags StandardStream.stdout) o /\
              fits (requested pflags StandardStream.stderr) e).
  { destruct (fork_pipes_cases pflags w)
      as [(i' & o' & e' & w' & E' & F)|(w' & l & E' & _)];
      rewrite E in E'; [|discriminate].
    injection E' as <- <- <- <- _. exact F. }
  destruct F as (Fi & Fo & Fe).
  destruct (kept_ends i o e w1 wc L Tc) as (Ki & Ko & Ke).
  unfold STDIN_FILENO, STDOUT_FILENO, STDERR_FILENO in *.
  destruct (made_in_far w _ o 0 Fo Mo S0) as [_ Bo0]; [lia|].
  destruct (made_in_far w _ e 0 Fe Me S0) as [_ Be0]; [lia|].
  destruct (made_in_far w _ e 1 Fe Me S1) as [_ Be1]; [lia|].
  destruct (made_in_far w _ i 0 Fi Mi S0) as [Ai0 _]; [lia|].
  destruct (made_in_far w _ o 1 Fo Mo S1) as [Ao1 _]; [lia|].
  destruct (made_in_far w _ o 0 Fo Mo S0) as [Ao0 _]; [lia|].
  destruct (made_in_far w _ e 2 Fe Me S2) as [Ae2 _]; [lia|].
  destruct (made_in_far w _ e 1 Fe Me S1) as [Ae1 _]; [lia|].
  destruct (made_in_far w _ e 0 Fe Me S0) as [Ae0 _]; [lia|].
  set (w3 := child_after (i, o, e) wc) in *.
  assert (L3 : fd_limit w3 = fd_limit w)
    by (subst w3; unfold child_after; rewrite !fd_limit_closed; congruence).
  set (b1 := requested flags StandardStream.stdin) in *.
  set (b2 := requested flags StandardStream.stdout) in *.
  set (b3 := requested flags StandardStream.stderr) in *.
  assert (exists f1, b1 = true ->
            fdtab w1 !! Pipe.read_fd i = Some f1 /\
            fdtab w3 !! Pipe.read_fd i = Some f1 /\ 0 <= 0 < fd_limit w3)
    as [f1 H1].
  { destruct b1; [|exists Terminal; discriminate].
    destruct (Ki (Ri eq_refl)) as (id & Lr & _ & Cr).
    destruct (Mi (Ri eq_refl)) as (_ & _ & R & _).
    exists (PipeReadEnd id). intros _. split; [exact Lr|]. split; [exact Cr|].
    lia. }
  assert (Ta : forall s, fdtab (redirected b1 (Pipe.read_fd i) 0 w3) !! s
                         = if b1 && (s =? 0) then Some f1 else fdtab w3 !! s)
    by (intros s; apply redirected_lookup; intros B; now apply H1).
  assert (La : fd_limit (redirected b1 (Pipe.read_fd i) 0 w3) = fd_limit w3)
    by (apply (redirected_lookup b1 _ 0 w3 f1 0); intros B; now apply H1).
  set (wa := redirected b1 (Pipe.read_fd i) 0 w3) in *.
  assert (exists f2, b2 = true ->
            fdtab w1 !! Pipe.write_fd o = Some f2 /\
            fdtab wa !! Pipe.write_fd o = Some f2 /\ 0 <= 1 < fd_limit wa)
    as [f2 H2].
  { destruct b2; [|exists Terminal; discriminate].
    destruct (Ko (Ro eq_refl)) as (id & _ & Lw & Cw).
    destruct (Mo (Ro eq_refl)) as (_ & _ & _ & R).
    exists (PipeWriteEnd id). intros _. split; [exact Lw|]. split; [|lia].
    rewrite Ta. destruct (Z.eqb_spec (Pipe.write_fd o) 0); [congruence|].
    rewrite andb_false_r. exact Cw. }
  assert (Tb : forall s, fdtab (redirected b2 (Pipe.write_fd o) 1 wa) !! s
                         = if b2 && (s =? 1) then Some f2 else fdtab wa !! s)
    by (intros s; apply redirected_lookup; intros B; now apply H2).
  assert (Lb : fd_limit (redirected b2 (Pipe.write_fd o) 1 wa) = fd_limit wa)
    by (apply (redirected_lookup b2 _ 1 wa f2 0); intros B; now apply H2).
  set (wb := redirected b2 (Pipe.write_fd o) 1 wa) in *.
  assert (exists f3, b3 = true ->
            fdtab w1 !! Pipe.write_fd e = Some f3 /\
            fdtab wb !! Pipe.write_fd e = Some f3 /\ 0 <= 2 < fd_limit wb)
    as [f3 H3].
  { destruct b3; [|exists Terminal; discriminate].
    destruct (Ke (Re eq_refl)) as (id & _ & Lw & Cw).
    destruct (Me (Re eq_refl)) as (_ & _ & _ & R).
    exists (PipeWriteEnd id). intros _. split; [exact Lw|]. split; [|lia].
    rewrite Tb, Ta.
    destruct (Z.eqb_spec (Pipe.write_fd e) 1); [congruence|].
    destruct (Z.eqb_spec (Pipe.write_fd e) 0); [congruence|].
    rewrite !andb_false_r. exact Cw. }
  assert (Tcc : forall s, fdtab (redirected b3 (Pipe.write_fd e) 2 wb) !! s
                          = if b3 && (s =? 2) then Some f3 else fdtab wb !! s)
    by (intros s; apply redirected_lookup; intros B; now apply H3).
  set (w_e := redirected b3 (Pipe.write_fd e) 2 wb) in *.
  exists w_e. split.
  - intros pf main. apply fork_child_done;
      fold (child_after (i, o, e) wc); fold w3; fold b1 b2 b3;
      unfold STDIN_FILENO, STDOUT_FILENO, STDERR_FILENO; fold wa; fold wb;
      intros B; [destruct (H1 B) as (_ & ? & ?)|destruct (H2 B) as (_ & ? & ?)
                |destruct (H3 B) as (_ & ? & ?)]; eauto.
  - intros s. rewrite Tcc, Tb, Ta.
    destruct b1 eqn:B1, b2 eqn:B2, b3 eqn:B3;
      destruct (Z.eqb_spec s 0), (Z.eqb_spec s 1), (Z.eqb_spec s 2);
      try lia; cbn [andb];
      try (destruct (H1 eq_refl) as (-> & _));
      try (destruct (H2 eq_refl) as (-> & _));
      try (destruct (H3 eq_refl) as (-> & _)); reflexivity.
Qed.

Lemma fork_pipes_fits pflags w i o e w1 l1 :
  fork_pipes pflags w = (Normal (i, o, e), w1, l1) ->
  fits (requested pflags StandardStream.stdin) i /\
  fits (requested pflags StandardStream.stdout) o /\
  fits (requested pflags StandardStream.stderr) e.
Proof.
  intros E. destruct (fork_pipes_cases pflags w)
    as [(i' & o' & e' & w' & E' & F)|(w' & l & E' & _)];
    rewrite E in E'; [|discriminate].
  injection E' as <- <- <- <- _. exact F.
Qed.

(** What was open before the launch is not touched by the closes of
    either process. *)
Lemma closes_spare_the_old pflags w i o e w1 l1 pid wo wc s f :
  fork_pipes pflags w = (Normal (i, o, e), w1, l1) ->
  duplicate_process w1 = DupDone pid wo wc ->
  fdtab w !! s = Some f -> 0 <= s ->
  fdtab (child_after (i, o, e) wc) !! s = Some f /\
  fdtab (caller_after (i, o, e) wo) !! s = Some f.
Proof.
  intros E D Ls N.
  pose proof (duplicate_process_tables _ _ _ _ D) as [To Tc].
  pose proof (fork_pipes_bounds _ _ _ _ _ _ _ E) as (_ & Pres & Mi & Mo & Me).
  destruct (fork_pipes_fits _ _ _ _ _ _ _ E) as (Fi & Fo & Fe).
  assert (S : is_Some (fdtab w !! s)) by eauto.
  destruct (made_in_far w _ i s Fi Mi S N).
  destruct (made_in_far w _ o s Fo Mo S N).
  destruct (made_in_far w _ e s Fe Me S N).
  unfold child_after, caller_after. cbn [fst snd].
  rewrite !lookup_closed_ne by congruence. rewrite To, Tc. auto.
Qed.

(** X10: the new process of [vfork] when the entry starts, in a launch from a
    process whose three standard descriptors are open.  No redirection
    fails and the entry is invoked, in a state [w_e] that does not depend
    on the entry.  Whatever [flags] says, the new
    process then holds an end of each of three pipes under the
    descriptor that line 173 gave it: the read end of the first, the write
    ends of the other two, the opposite ends being those the caller had
    when it called [::vfork()].  A requested slot names the same end as
    well; an unrequested slot, and every other descriptor that was open
    before the launch, names what it named then. *)
Theorem vfork_new_process_holds_three_pipes flags w i o e w1 l1 pid wo wc :
  is_Some (fdtab w !! STDIN_FILENO) ->
  is_Some (fdtab w !! STDOUT_FILENO) ->
  is_Some (fdtab w !! STDERR_FILENO) ->
  vfork_pipes w = (Normal (i, o, e), w1, l1) ->
  duplicate_process w1 = DupDone pid wo wc ->
  exists w_e id_i id_o id_e,
    (forall pf main,
       duplicate (vfork pf main flags w)
       = Some (prepend (child_closes (i, o, e)
                        ++ map dup_done (redirections flags (i, o, e))
                        ++ [EvEntry])
                       (child_finish pf (main w_e)))) /\
    (fdtab w1 !! Pipe.write_fd i = Some (PipeWriteEnd id_i) /\
     fdtab w1 !! Pipe.read_fd o = Some (PipeReadEnd id_o) /\
     fdtab w1 !! Pipe.read_fd e = Some (PipeReadEnd id_e)) /\
    (fdtab w_e !! Pipe.read_fd i = Some (PipeReadEnd id_i) /\
     fdtab w_e !! Pipe.write_fd o = Some (PipeWriteEnd id_o) /\
     fdtab w_e !! Pipe.write_fd e = Some (PipeWriteEnd id_e)) /\
    (2 < Pipe.read_fd i /\ 2 < Pipe.write_fd o /\ 2 < Pipe.write_fd e) /\
    fdtab w_e !! STDIN_FILENO
    = (if requested flags StandardStream.stdin
       then Some (PipeReadEnd id_i) else fdtab w !! STDIN_FILENO) /\
    fdtab w_e !! STDOUT_FILENO
    = (if requested flags StandardStream.stdout
       then Some (PipeWriteEnd id_o) else fdtab w !! STDOUT_FILENO) /\
    fdtab w_e !! STDERR_FILENO
    = (if requested flags StandardStream.stderr
       then Some (PipeWriteEnd id_e) else fdtab w !! STDERR_FILENO) /\
    (forall s f, 2 < s -> fdtab w !! s = Some f -> fdtab w_e !! s = Some f).
Proof.
  intros S0 S1 S2 E D. rewrite vfork_pipes_eq in E.
  destruct (fork_pipes_fits _ _ _ _ _ _ _ E) as (Fi & Fo & Fe).
  change (real i) in Fi. change (real o) in Fo. change (real e) in Fe.
  destruct (entry_table 7 flags w i o e w1 l1 pid wo wc S0 S1 S2 E D)
    as (w_e & R & T); [auto..|].
  pose proof (duplicate_process_tables _ _ _ _ D) as [_ Tc].
  pose proof (fork_pipes_layout _ _ _ _ _ _ _ E) as L.
  pose proof (fork_pipes_bounds _ _ _ _ _ _ _ E) as (_ & _ & Mi & Mo & Me).
  destruct (kept_ends i o e w1 wc L Tc) as (Ki & Ko & Ke).
  destruct (Ki Fi) as (id_i & _ & Wi & Ci).
  destruct (Ko Fo) as (id_o & Ro & Wo & Co).
  destruct (Ke Fe) as (id_e & Re & We & Ce).
  destruct (Mi Fi) as (_ & _ & Bi & _).
  destruct (Mo Fo) as (_ & _ & _ & Bo).
  destruct (Me Fe) as (_ & _ & _ & Be).
  unfold STDIN_FILENO, STDOUT_FILENO, STDERR_FILENO in *.
  destruct (made_in_far w true i 0 Fi Mi S0) as [Ai0 _]; [lia|].
  destruct (made_in_far w true i 1 Fi Mi S1) as [Ai1 _]; [lia|].
  destruct (made_in_far w true i 2 Fi Mi S2) as [Ai2 _]; [lia|].
  destruct (made_in_far w true o 0 Fo Mo S0) as [_ Bo0]; [lia|].
  destruct (made_in_far w true o 1 Fo Mo S1) as [_ Bo1]; [lia|].
  destruct (made_in_far w true o 2 Fo Mo S2) as [_ Bo2]; [lia|].
  destruct (made_in_far w true e 0 Fe Me S0) as [_ Be0]; [lia|].
  destruct (made_in_far w true e 1 Fe Me S1) as [_ Be1]; [lia|].
  destruct (made_in_far w true e 2 Fe Me S2) as [_ Be2]; [lia|].
  assert (Far : forall s, s <> 0 -> s <> 1 -> s <> 2 ->
                  fdtab w_e !! s = fdtab (child_after (i, o, e) wc) !! s).
  { intros s N0 N1 N2. rewrite T.
    unfold STDIN_FILENO, STDOUT_FILENO, STDERR_FILENO.
    destruct (Z.eqb_spec s 0), (Z.eqb_spec s 1), (Z.eqb_spec s 2);
      try contradiction.
    now rewrite !andb_false_r. }
  assert (Old : forall s, is_Some (fdtab w !! s) -> 0 <= s ->
                  fdtab (child_after (i, o, e) wc) !! s = fdtab w !! s).
  { intros s [f Ls] N. rewrite Ls.
    now apply (closes_spare_the_old 7 w i o e w1 l1 pid wo wc s f E D Ls N). }
  exists w_e, id_i, id_o, id_e.
  split.
  { intros pf main. unfold vfork. rewrite vfork_pipes_eq, vfork_after_eq.
    erewrite spawn_done by eassumption. cbn [duplicate]. f_equal. apply R. }
  split; [auto|]. split.
  { rewrite !Far by assumption. auto. }
  split; [lia|].
  rewrite !T. unfold STDIN_FILENO, STDOUT_FILENO, STDERR_FILENO.
  change (0 =? 0) with true. change (1 =? 0) with false.
  change (1 =? 1) with true. change (2 =? 0) with false.
  change (2 =? 1) with false. change (2 =? 2) with true.
  change (0 =? 1) with false. change (0 =? 2) with false.
  change (1 =? 2) with false.
  rewrite !andb_true_r, !andb_false_r.
  split; [|split; [|split]].
  - destruct (requested flags StandardStream.stdin).
    + destruct (Ki Fi) as (id & Lr & Lw & _). congruence.
    + destruct (requested flags StandardStream.stdout),
               (requested flags StandardStream.stderr); now apply Old.
  - destruct (requested flags StandardStream.stdout); [exact Wo|].
    destruct (requested flags StandardStream.stderr); now apply Old.
  - destruct (requested flags StandardStream.stderr); [exact We|].
    now apply Old.
  - intros s f G Ls. rewrite Far by lia.
    apply (closes_spare_the_old 7 w i o e w1 l1 pid wo wc s f E D Ls). lia.
Qed.

Lemma vfork_new_process_holds_three_pipes_witness :
  exists w_e id,
    fdtab w_e !! 3 = Some (PipeReadEnd id) /\
    fdtab w_e !! STDIN_FILENO = Some Terminal.
Proof.
  edestruct (vfork_new_process_holds_three_pipes 0 (boot [] 4 64))
    as (w_e & id_i & id_o & id_e & _ & _ & (Hi & _) & _ & H0 & _);
    [eexists; reflexivity|eexists; reflexivity|eexists; reflexivity
    |vm_compute; reflexivity|vm_compute; reflexivity|].
  exists w_e, id_i. split; [exact Hi|exact H0].
Defined.

(** ** Where the report goes *)

Lemma report_written_to pf x w :
  Forall (written_to (fdtab w !! STDERR_FILENO)) (report pf x w).
Proof.
  destruct (print_backtrace_run pf w) as (syms & _ & E).
  unfold report. rewrite E. unfold run_events, cerr_lines. cbn [snd].
  apply Forall_app. split.
  - apply Forall_map, Forall_forall. now intros t _.
  - apply Forall_forall. intros ev H.
    apply elem_of_lookup_zip_with in H as (? & ? & ? & -> & _). reflexivity.
Qed.

Lemma silent_written_to sink l :
  Forall (fun ev => is_cerr ev = false) l -> Forall (written_to sink) l.
Proof.
  intros H. eapply Forall_impl; [exact H|]. now intros [] E.
Qed.

Lemma before_entry_silent pipes l :
  Forall (fun ev => is_cerr ev = false)
         (child_closes pipes ++ map dup_done l ++ [EvEntry]).
Proof.
  assert (S : span 2 4 (child_closes pipes ++ map dup_done l ++ [EvEntry])).
  { apply (span_app 2 2 3 4); [apply span_child_closes| |lia..].
    apply (span_app 3 3 4 4); [apply span_dup_done|apply span_entry|lia..]. }
  destruct S as [F _]. eapply Forall_impl; [exact F|].
  intros [] R; simpl in R; try reflexivity. lia.
Qed.

(** The read end of the error pipe that the caller keeps is, after its
    closes, what it was when the process was duplicated. *)
Lemma caller_keeps_error_pipe i o e w1 wo :
  laid_out (fdtab w1) (i, o, e) -> fdtab wo = fdtab w1 -> real e ->
  exists id,
    fdtab w1 !! Pipe.write_fd e = Some (PipeWriteEnd id) /\
    fdtab (caller_after (i, o, e) wo) !! Pipe.read_fd e = Some (PipeReadEnd id).
Proof.
  intros (Li & Lo & Le & Aio & Aoi & Aie & Aei & Aoe & Aeo) T [R W].
  unfold caller_after, apart in *. cbn [fst snd].
  destruct (Le (conj R W)) as [(id & Lr & Lw) N]. exists id.
  split; [exact Lw|].
  rewrite !lookup_closed_ne by intuition congruence. now rewrite T.
Qed.

(** X11: where the report of the new process goes.  When [fork] is called in
    a process whose three standard descriptors are open, and the entry
    leaves descriptor 2 as it finds it, every line the new process writes
    on the error stream goes to one file: with the error stream
    requested, the write end of the pipe whose read end the caller's
    handle holds, open in the caller; without, the file that descriptor
    2 named before the launch. *)
Theorem report_reaches_the_caller pf main flags w i o e w1 l1 pid wo wc :
  is_Some (fdtab w !! STDIN_FILENO) ->
  is_Some (fdtab w !! STDOUT_FILENO) ->
  is_Some (fdtab w !! STDERR_FILENO) ->
  fork_pipes flags w = (Normal (i, o, e), w1, l1) ->
  duplicate_process w1 = DupDone pid wo wc ->
  (forall w0, fdtab (main w0).2 !! STDERR_FILENO = fdtab w0 !! STDERR_FILENO) ->
  exists cp w_o r sink,
    original (fork pf main flags w)
    = (Normal cp, w_o, l1 ++ [EvFork pid] ++ parent_closes (i, o, e)) /\
    duplicate (fork pf main flags w) = Some r /\
    Forall (written_to sink) (run_events r) /\
    (if requested flags StandardStream.stderr
     then exists id,
            sink = Some (PipeWriteEnd id) /\
            fdtab w_o !! Pipe.read_fd (cerr_pipe cp) = Some (PipeReadEnd id)
     else sink = fdtab w !! STDERR_FILENO).
Proof.
  intros S0 S1 S2 E D Keep.
  destruct (fork_pipes_fits _ _ _ _ _ _ _ E) as (Fi & Fo & Fe).
  destruct (entry_table flags flags w i o e w1 l1 pid wo wc S0 S1 S2 E D)
    as (w_e & R & T).
  { intros B. now rewrite B in Fi. }
  { intros B. now rewrite B in Fo. }
  { intros B. now rewrite B in Fe. }
  pose proof (duplicate_process_pid _ _ _ _ D) as [P _].
  pose proof (duplicate_process_tables _ _ _ _ D) as [To _].
  pose proof (fork_pipes_layout _ _ _ _ _ _ _ E) as L.
  exists (handle pid (i, o, e)), (caller_after (i, o, e) wo),
         (fork_after pf main flags 0 (i, o, e) wc), (fdtab w_e !! STDERR_FILENO).
  unfold fork. erewrite spawn_done by eassumption. cbn [original duplicate].
  split; [|split; [reflexivity|split]].
  - rewrite fork_parent_run by lia. unfold prepend. cbn [fst snd].
    now rewrite <- app_assoc.
  - rewrite R. specialize (Keep w_e).
    destruct (main w_e) as [[s|x] w'];
      unfold child_finish, prepend, run_events; cbn [snd] in *;
      apply Forall_app; (split; [apply silent_written_to, before_entry_silent|]).
    + now repeat constructor.
    + apply Forall_app. split; [|now repeat constructor].
      rewrite <- Keep. apply report_written_to.
  - rewrite T. unfold STDIN_FILENO, STDOUT_FILENO, STDERR_FILENO.
    change (2 =? 0) with false. change (2 =? 1) with false.
    change (2 =? 2) with true. rewrite !andb_false_r, !andb_true_r.
    destruct (requested flags StandardStream.stderr) eqn:B.
    + destruct (caller_keeps_error_pipe i o e w1 wo L To Fe) as (id & Lw & Lr).
      exists id. split; [exact Lw|exact Lr].
    + destruct S2 as [f Ls]. unfold STDERR_FILENO in Ls. rewrite Ls.
      apply (closes_spare_the_old flags w i o e w1 l1 pid wo wc 2 f E D Ls).
      lia.
Qed.

Lemma report_reaches_the_caller_witness :
  exists cp w_o r id,
    original (fork demo_platform (raises (std_exception "boom")) 4
                (boot [1024; 1040] 4 64)) = (Normal cp, w_o, run_events
      (original (fork demo_platform (raises (std_exception "boom")) 4
                   (boot [1024; 1040] 4 64)))) /\
    duplicate (fork demo_platform (raises (std_exception "boom")) 4
                 (boot [1024; 1040] 4 64)) = Some r /\
    Forall (written_to (Some (PipeWriteEnd id))) (run_events r) /\
    count is_cerr (run_events r) = 4%nat /\
    fdtab w_o !! Pipe.read_fd (cerr_pipe cp) = Some (PipeReadEnd id).
Proof.
  edestruct (report_reaches_the_caller demo_platform
               (raises (std_exception "boom")) 4 (boot [1024; 1040] 4 64))
    as (cp & w_o & r & sink & O & Dn & F & id & -> & Lr);
    [eexists; reflexivity|eexists; reflexivity|eexists; reflexivity
    |vm_compute; reflexivity|vm_compute; reflexivity|reflexivity|].
  exists cp, w_o, r, id. rewrite O. split; [reflexivity|].
  split; [exact Dn|]. split; [exact F|]. split; [|exact Lr].
  vm_compute in Dn. injection Dn as <-. vm_compute. reflexivity.
Defined.

(** ** What a launch leaves of the caller's descriptors *)

Lemma keeps_ret {A} (a : A) : keeps (ret a).
Proof. now intros w fd f L. Qed.

Lemma keeps_bind {A B} (m : M A) (k : A -> M B) :
  keeps m -> (forall a, keeps (k a)) -> keeps (bind m k).
Proof.
  intros Hm Hk w fd f L. specialize (Hm w fd f L).
  unfold bind, run_world in *.
  destruct (m w) as [[[a|x|c] w1] l1]; cbn [fst snd] in *; try exact Hm.
  specialize (Hk a w1 fd f Hm). now destruct (k a w1) as [[? ?] ?].
Qed.

Lemma keeps_create_if (b : bool) :
  keeps (if b then Pipe.create else ret Pipe.invalid).
Proof.
  intros w fd f L.
  destruct (create_if_cases b w) as [(p & w' & E & _)|[_ E]].
  - pose proof (create_if_layout _ _ _ _ _ E) as (_ & _ & P). rewrite E.
    now apply P.
  - rewrite E. exact L.
Qed.

Lemma keeps_fork_pipes flags : keeps (fork_pipes flags).
Proof.
  unfold fork_pipes.
  repeat (apply keeps_bind; [apply keeps_create_if|intros ?]).
  apply keeps_ret.
Qed.

Lemma duplicate_process_fails w w2 :
  duplicate_process w = DupFailed w2 -> fdtab w2 = fdtab w /\ errno w2 = EAGAIN.
Proof.
  unfold duplicate_process. destruct (nproc w); [|discriminate].
  intros [= <-]. split; reflexivity.
Qed.

(** The caller of [vfork] closes what the caller of [fork] closes: the
    ends that the new process marked closed are not the caller's to
    close. *)
Lemma caller_after_shared pid pipes w :
  caller_after (vfork_shared pid pipes) w = caller_after pipes w.
Proof.
  unfold vfork_shared. destruct ((pid =? -1) || is_child pid); [reflexivity|].
  now destruct pipes as [[i o] e].
Qed.

Lemma parent_closes_shared pid pipes :
  parent_closes (vfork_shared pid pipes) = parent_closes pipes.
Proof.
  unfold vfork_shared. destruct ((pid =? -1) || is_child pid); [reflexivity|].
  now destruct pipes as [[i o] e].
Qed.

Lemma original_keeps pf main flags ev pflags shared w l s f :
  (forall pid pipes w', caller_after (shared pid pipes) w'
                        = caller_after pipes w') ->
  Course pf main flags ev (fork_pipes pflags) shared w l ->
  fdtab w !! s = Some f -> 0 <= s ->
  fdtab (run_world (original l)) !! s = Some f.
Proof.
  intros Hs C Ls N. pose proof (keeps_fork_pipes pflags w s f Ls) as K.
  destruct C as [w1 l1 E|pipes w1 l1 w2 E D|[[i o] e] w1 l1 pid wo wc E D];
    unfold run_world in *; cbn [original fst snd].
  - now rewrite E in K.
  - rewrite E in K. apply duplicate_process_fails in D as [-> _]. exact K.
  - rewrite Hs.
    now apply (closes_spare_the_old pflags w i o e w1 l1 pid wo wc s f E D Ls).
Qed.

(** X12: a launch takes nothing from its caller.  However a call of [fork] or
    [vfork] ends, with a handle or with an exception, every descriptor
    that was open in the calling process before the call is open
    afterwards and names the same file: the calls that the launch makes
    in the caller close only descriptors of pipes that the launch made. *)
Theorem caller_keeps_its_descriptors pf main flags w l s f :
  l = fork pf main flags w \/ l = vfork pf main flags w ->
  fdtab w !! s = Some f -> 0 <= s ->
  fdtab (run_world (original l)) !! s = Some f.
Proof.
  intros [->| ->] Ls N.
  - exact (original_keeps pf main flags EvFork flags (fun _ pipes => pipes)
             w _ s f (fun _ _ _ => eq_refl) (fork_course pf main flags w) Ls N).
  - exact (original_keeps pf main flags EvVfork 7 vfork_shared w _ s f
             caller_after_shared (vfork_course pf main flags w) Ls N).
Qed.

Lemma caller_keeps_its_descriptors_witness :
  fdtab (run_world (original (vfork demo_platform (returns exit.success) 0
                                (boot [] 0 64)))) !! 1 = Some Terminal.
Proof.
  apply (caller_keeps_its_descriptors demo_platform (returns exit.success) 0
           (boot [] 0 64)
           (vfork demo_platform (returns exit.success) 0 (boot [] 0 64)));
    [right; reflexivity|reflexivity|lia].
Defined.

(** ** The redirections, one by one *)

Lemma only_app p l1 l2 : only p (l1 ++ l2) = only p l1 ++ only p l2.
Proof. apply filter_app. Qed.

Lemma only_none p l : Forall (fun ev => p ev = false) l -> only p l = [].
Proof.
  induction 1 as [|ev l E _ IH]; [reflexivity|].
  unfold only in *. rewrite filter_cons_False by congruence. exact IH.
Qed.

Lemma only_all p l : Forall (fun ev => p ev = true) l -> only p l = l.
Proof.
  induction 1 as [|ev l E _ IH]; [reflexivity|].
  unfold only in *. rewrite filter_cons_True by exact E. now rewrite IH.
Qed.

Lemma only_one p ev : only p [ev] = if p ev then [ev] else [].
Proof.
  unfold only. destruct (p ev) eqn:E.
  - now rewrite filter_cons_True by exact E.
  - now rewrite filter_cons_False by congruence.
Qed.

Lemma span_silent p lo hi l :
  span lo hi l -> (forall ev, p ev = true -> (phase ev < lo \/ hi < phase ev)%nat) ->
  Forall (fun ev => p ev = false) l.
Proof.
  intros [F _] H. eapply Forall_impl; [exact F|].
  intros ev R. simpl in R. destruct (p ev) eqn:E; [|reflexivity].
  apply H in E. lia.
Qed.

Lemma only_dup2_child_closes pipes : only is_dup2 (child_closes pipes) = [].
Proof.
  apply only_none, (span_silent _ 2 2); [apply span_child_closes|].
  intros [] E; try discriminate E. simpl. lia.
Qed.

Lemma only_dup2_report pf x w : only is_dup2 (report pf x w) = [].
Proof.
  apply only_none, (span_silent _ 5 5); [apply span_report|].
  intros [] E; try discriminate E. simpl. lia.
Qed.

Lemma only_dup2_done l : only is_dup2 (map dup_done l) = map dup_done l.
Proof. apply only_all, Forall_map, Forall_forall. now intros [fd slot] _. Qed.

Lemma redirections_length flags pipes :
  length (redirections flags pipes) = streams_requested flags.
Proof.
  destruct pipes as [[i o] e]. unfold redirections, streams_requested.
  destruct (requested flags StandardStream.stdin),
           (requested flags StandardStream.stdout),
           (requested flags StandardStream.stderr); reflexivity.
Qed.

Lemma child_redirections pf main flags pipes w :
  let r := fork_after pf main flags 0 pipes w in
  let asked := redirections flags pipes in
  (count is_entry (run_events r) = 1%nat /\
   only is_dup2 (run_events r) = map dup_done asked)
  \/ (exists k red,
        asked !! k = Some red /\ count is_entry (run_events r) = O /\
        only is_dup2 (run_events r)
        = map dup_done (take k asked) ++ [dup_failed red]).
Proof.
  intros r asked. subst r asked.
  destruct (fork_child_cases pf main flags pipes w)
    as [(_ & Z & k & red & w_f & K & _ & E)|(_ & Z & w_e & E)].
  - right. exists k, red. split; [exact K|]. split; [exact Z|].
    cbv zeta in E. rewrite E. unfold run_events. cbn [snd].
    rewrite !only_app, only_dup2_child_closes, only_dup2_done,
      only_dup2_report, !only_one.
    reflexivity.
  - left. split; [exact Z|]. cbv zeta in E. rewrite E.
    destruct (main w_e) as [[s|x] w'];
      unfold child_finish, prepend, run_events; cbn [snd];
      rewrite !only_app, only_dup2_child_closes, only_dup2_done,
        ?only_dup2_report, !only_one; cbn [is_dup2 app];
      now rewrite !app_nil_r.
Qed.

(** X13: the redirections of the new process are those the flags ask for.
    In the new process of [fork] and of [vfork] the [::dup2] calls are,
    in this order and each at most once: the read end of the first pipe
    onto descriptor 0 if the input stream is requested, the write end of
    the second onto 1 if the output stream is, the write end of the third
    onto 2 if the error stream is.  Either all of them succeed and the
    entry is invoked, or one fails, none is attempted after it and the
    entry is not invoked. *)
Theorem redirections_follow_the_flags pf main flags w l before r :
  (l = fork pf main flags w /\ before = fork_pipes flags) \/
  (l = vfork pf main flags w /\ before = vfork_pipes) ->
  duplicate l = Some r ->
  exists i o e,
    run_outcome (before w) = Normal (i, o, e) /\
    redirections flags (i, o, e)
    = (if requested flags StandardStream.stdin
       then [(Pipe.read_fd i, STDIN_FILENO)] else [])
      ++ (if requested flags StandardStream.stdout
          then [(Pipe.write_fd o, STDOUT_FILENO)] else [])
      ++ (if requested flags StandardStream.stderr
          then [(Pipe.write_fd e, STDERR_FILENO)] else []) /\
    ((count is_entry (run_events r) = 1%nat /\
      only is_dup2 (run_events r)
      = map dup_done (redirections flags (i, o, e)))
     \/ (exists k red,
           redirections flags (i, o, e) !! k = Some red /\
           count is_entry (run_events r) = O /\
           only is_dup2 (run_events r)
           = map dup_done (take k (redirections flags (i, o, e)))
             ++ [dup_failed red])).
Proof.
  intros H E.
  assert (exists ev shared, Course pf main flags ev before shared w l)
    as (ev & shared & C).
  { destruct H as [[-> ->]|[-> ->]].
    - exists EvFork, (fun _ pipes => pipes). apply fork_course.
    - exists EvVfork, vfork_shared. apply vfork_course. }
  destruct C as [w1 l1 B|pipes w1 l1 w2 B D|[[i o] e] w1 l1 pid wo wc B D];
    try discriminate E.
  injection E as <-. exists i, o, e. rewrite B.
  split; [reflexivity|]. split; [reflexivity|].
  apply child_redirections.
Qed.

Lemma redirections_follow_the_flags_witness :
  exists r,
    duplicate (vfork demo_platform (returns exit.success) 5 (boot [] 4 64))
    = Some r /\
    only is_dup2 (run_events r) = [EvDup2 3 0 0; EvDup2 8 2 2].
Proof.
  eexists. split; [vm_compute; reflexivity|].
  edestruct (redirections_follow_the_flags demo_platform
               (returns exit.success) 5 (boot [] 4 64)
               (vfork demo_platform (returns exit.success) 5 (boot [] 4 64))
               vfork_pipes)
    as (i & o & e & B & _ & [[_ F]|(k & red & _ & Z & _)]);
    [right; split; reflexivity|vm_compute; reflexivity| |].
  - vm_compute in B. injection B as <- <- <-. exact F.
  - vm_compute in Z. discriminate Z.
Defined.

(** ** The new process of [fork] beside its slots *)

(** X14: what the new process of [fork] holds besides its standard slots
    when the entry starts, in a launch from a process whose three
    standard descriptors are open.  Every descriptor above 2 that was
    open before the launch is inherited.  For each requested stream the
    descriptor of the pipe end that was copied onto the slot stays open
    beside it, naming the same file, since nothing closes it after
    [::dup2]; the opposite end of that pipe is closed. *)
Theorem fork_new_process_keeps_the_originals flags w i o e w1 l1 pid wo wc :
  is_Some (fdtab w !! STDIN_FILENO) ->
  is_Some (fdtab w !! STDOUT_FILENO) ->
  is_Some (fdtab w !! STDERR_FILENO) ->
  fork_pipes flags w = (Normal (i, o, e), w1, l1) ->
  duplicate_process w1 = DupDone pid wo wc ->
  exists w_e,
    (forall pf main,
       duplicate (fork pf main flags w)
       = Some (prepend (child_closes (i, o, e)
                        ++ map dup_done (redirections flags (i, o, e))
                        ++ [EvEntry])
                       (child_finish pf (main w_e)))) /\
    (forall s f, 2 < s -> fdtab w !! s = Some f -> fdtab w_e !! s = Some f) /\
    (requested flags StandardStream.stdin = true ->
     2 < Pipe.read_fd i /\
     is_Some (fdtab w_e !! Pipe.read_fd i) /\
     fdtab w_e !! Pipe.read_fd i = fdtab w_e !! STDIN_FILENO /\
     fdtab w_e !! Pipe.write_fd i = None) /\
    (requested flags StandardStream.stdout = true ->
     2 < Pipe.write_fd o /\
     is_Some (fdtab w_e !! Pipe.write_fd o) /\
     fdtab w_e !! Pipe.write_fd o = fdtab w_e !! STDOUT_FILENO /\
     fdtab w_e !! Pipe.read_fd o = None) /\
    (requested flags StandardStream.stderr = true ->
     2 < Pipe.write_fd e /\
     is_Some (fdtab w_e !! Pipe.write_fd e) /\
     fdtab w_e !! Pipe.write_fd e = fdtab w_e !! STDERR_FILENO /\
     fdtab w_e !! Pipe.read_fd e = None).
Proof.
  intros S0 S1 S2 E D.
  destruct (fork_pipes_fits _ _ _ _ _ _ _ E) as (Fi & Fo & Fe).
  destruct (entry_table flags flags w i o e w1 l1 pid wo wc S0 S1 S2 E D)
    as (w_e & R & T).
  { intros B. now rewrite B in Fi. }
  { intros B. now rewrite B in Fo. }
  { intros B. now rewrite B in Fe. }
  pose proof (duplicate_process_tables _ _ _ _ D) as [To Tc].
  pose proof (fork_pipes_layout _ _ _ _ _ _ _ E) as L.
  pose proof (fork_pipes_bounds _ _ _ _ _ _ _ E) as (_ & _ & Mi & Mo & Me).
  destruct (kept_ends i o e w1 wc L Tc) as (Ki & Ko & Ke).
  rewrite <- To in L.
  destruct (opposite_ends_in_tables i o e wo wc L) as (Hi & Ho & He);
    [congruence|].
  unfold STDIN_FILENO, STDOUT_FILENO, STDERR_FILENO in *.
  assert (Far : forall s, 2 < s ->
                  fdtab w_e !! s = fdtab (child_after (i, o, e) wc) !! s).
  { intros s G. rewrite T.
    unfold STDIN_FILENO, STDOUT_FILENO, STDERR_FILENO.
    destruct (Z.eqb_spec s 0), (Z.eqb_spec s 1), (Z.eqb_spec s 2); try lia.
    now rewrite !andb_false_r. }
  assert (Low : forall b p, fits b p -> made_in w p -> real p ->
                  2 < Pipe.read_fd p /\ 2 < Pipe.write_fd p).
  { intros b p F M Rp. destruct (M Rp) as (_ & _ & Br & Bw).
    destruct (made_in_far w b p 0 F M S0); [lia|].
    destruct (made_in_far w b p 1 F M S1); [lia|].
    destruct (made_in_far w b p 2 F M S2); [lia|]. lia. }
  unfold child_after in *. cbn [fst snd] in *.
  exists w_e. split.
  { intros pf main. unfold fork. erewrite spawn_done by eassumption.
    cbn [duplicate]. f_equal. apply R. }
  split.
  { intros s f G Ls. rewrite Far by exact G.
    apply (closes_spare_the_old flags w i o e w1 l1 pid wo wc s f E D Ls). lia. }
  split; [|split]; intros B; rewrite B in *.
  - destruct (Low _ _ Fi Mi Fi) as [Gr Gw].
    destruct (Ki Fi) as (id & Lr & _ & Cr). destruct (Hi Fi) as (_ & _ & _ & _ & Cw).
    rewrite (Far (Pipe.read_fd i)), (Far (Pipe.write_fd i)) by assumption.
    rewrite (T 0), ?B. cbn.
    rewrite Cr, Cw, Lr. eauto.
  - destruct (Low _ _ Fo Mo Fo) as [Gr Gw].
    destruct (Ko Fo) as (id & _ & Lw & Cw). destruct (Ho Fo) as (_ & _ & _ & _ & Cr).
    rewrite (Far (Pipe.read_fd o)), (Far (Pipe.write_fd o)) by assumption.
    rewrite (T 1), ?B. cbn.
    rewrite Cr, Cw, Lw.
    destruct (requested flags StandardStream.stdin); cbn; eauto.
  - destruct (Low _ _ Fe Me Fe) as [Gr Gw].
    destruct (Ke Fe) as (id & _ & Lw & Cw). destruct (He Fe) as (_ & _ & _ & _ & Cr).
    rewrite (Far (Pipe.read_fd e)), (Far (Pipe.write_fd e)) by assumption.
    rewrite (T 2), ?B. cbn.
    rewrite Cr, Cw, Lw.
    destruct (requested flags StandardStream.stdin),
             (requested flags StandardStream.stdout); cbn; eauto.
Qed.

Lemma fork_new_process_keeps_the_originals_witness :
  exists w_e,
    fdtab w_e !! 4 = fdtab w_e !! STDOUT_FILENO /\
    fdtab w_e !! 3 = None.
Proof.
  edestruct (fork_new_process_keeps_the_originals 2 (boot [] 4 64))
    as (w_e & _ & _ & _ & Ho & _);
    [eexists; reflexivity|eexists; reflexivity|eexists; reflexivity
    |vm_compute; reflexivity|vm_compute; reflexivity|].
  exists w_e. destruct (Ho eq_refl) as (_ & _ & Q & N). split; [exact Q|exact N].
Defined.

(** ** The two launchers side by side *)

Lemma relabel_others l :
  Forall (fun ev => is_duplication ev = false) l -> map relabel l = l.
Proof.
  induction 1 as [|ev l E _ IH]; [reflexivity|]. simpl. rewrite IH.
  now destruct ev.
Qed.

Lemma fork_pipes_all flags :
  requested flags StandardStream.stdin = true ->
  requested flags StandardStream.stdout = true ->
  requested flags StandardStream.stderr = true ->
  fork_pipes flags = vfork_pipes.
Proof. intros B1 B2 B3. unfold fork_pipes. now rewrite B1, B2, B3. Qed.

(** X15: with all three streams requested the two launchers agree.  The new
    process of [vfork] then does what the new process of [fork] does,
    event by event and with the same outcome, and the caller of [vfork]
    makes the calls that the caller of [fork] makes, with [::vfork()] in
    the place of [::fork()]. *)
Theorem launchers_agree_on_all_streams pf main flags w :
  requested flags StandardStream.stdin = true ->
  requested flags StandardStream.stdout = true ->
  requested flags StandardStream.stderr = true ->
  duplicate (vfork pf main flags w) = duplicate (fork pf main flags w) /\
  run_events (original (vfork pf main flags w))
  = map relabel (run_events (original (fork pf main flags w))).
Proof.
  intros B1 B2 B3.
  pose proof (fork_pipes_all flags B1 B2 B3) as Q.
  pose proof (fork_pipes_events flags w) as F.
  unfold vfork, fork. rewrite vfork_after_eq, <- Q. clear Q.
  assert (Fp : Forall (fun ev => is_duplication ev = false)
                      (run_events (fork_pipes flags w)))
    by (eapply Forall_impl; [exact F|]; now intros []).
  unfold spawn.
  destruct (fork_pipes flags w) as [[[[[i o] e]|x|c] w1] l1];
    unfold run_events in *; cbn [snd] in *.
  - destruct (duplicate_process w1) as [w2|pid wo wc] eqn:D;
      cbn [original duplicate].
    + split; [reflexivity|]. rewrite !fork_after_minus_one.
      unfold prepend. cbn [snd]. rewrite !map_app, relabel_others by exact Fp.
      reflexivity.
    + pose proof (duplicate_process_pid _ _ _ _ D) as [G _].
      split; [reflexivity|]. rewrite !fork_parent_run by lia.
      unfold prepend. cbn [snd]. rewrite parent_closes_shared.
      rewrite !map_app, relabel_others by exact Fp. cbn [map relabel].
      rewrite relabel_others; [reflexivity|].
      apply (span_silent _ 2 2); [apply span_parent_closes|].
      intros [] R; try discriminate R; simpl; lia.
  - cbn [original duplicate snd]. split; [reflexivity|].
    symmetry. now apply relabel_others.
  - cbn [original duplicate snd]. split; [reflexivity|].
    symmetry. now apply relabel_others.
Qed.

Lemma launchers_agree_on_all_streams_witness :
  run_events (original (vfork demo_platform (returns exit.success) 7
                          (boot [] 4 64)))
  = map relabel (run_events (original (fork demo_platform
                                         (returns exit.success) 7
                                         (boot [] 4 64)))).
Proof.
  apply (launchers_agree_on_all_streams demo_platform (returns exit.success) 7
           (boot [] 4 64)); reflexivity.
Defined.

(** ** The caller and the pid *)

Lemma course_caller pf main flags ev before shared w l :
  Course pf main flags ev before shared w l ->
  (forall pid, is_duplication (ev pid) = true) ->
  Forall (fun e => is_pipe e = true) (run_events (before w)) ->
  (exists cp r,
     run_outcome (original l) = Normal cp /\ 0 < pid cp /\
     duplicate l = Some r /\
     only is_duplication (run_events (original l)) = [ev (pid cp)])
  \/ (exists code,
        run_outcome (original l) = Thrown (system_error code) /\
        duplicate l = None /\
        (only is_duplication (run_events (original l)) = [] \/
         only is_duplication (run_events (original l)) = [ev (-1)])).
Proof.
  intros C Ev F.
  assert (Fp : forall l', Forall (fun e => is_pipe e = true) l' ->
                 only is_duplication l' = [])
    by (intros l' H'; apply only_none; eapply Forall_impl; [exact H'|];
        now intros []).
  destruct C as [w1 l1 E|pipes w1 l1 w2 E D|pipes w1 l1 pid wo wc E D];
    rewrite E in F; unfold run_outcome, run_events in *;
    cbn [fst snd original duplicate] in *.
  - right. exists EMFILE. split; [reflexivity|]. split; [reflexivity|].
    left. now apply Fp.
  - right. exists (errno w2). split; [reflexivity|]. split; [reflexivity|].
    right. rewrite only_app, Fp, only_one, Ev by exact F. reflexivity.
  - left. apply duplicate_process_pid in D as [D _].
    exists (handle pid (shared pid pipes)). eexists.
    split; [reflexivity|]. split; [exact D|]. split; [reflexivity|].
    rewrite !only_app, Fp, only_one, Ev by exact F.
    rewrite only_none; [reflexivity|].
    apply (span_silent _ 2 2); [apply span_parent_closes|].
    intros [] R; try discriminate R; simpl; lia.
Qed.

(** X7: the calling process never takes the path of the new one.  Whichever
    of the two launchers is called, the caller does not invoke the entry,
    does not exit, writes nothing on the error stream and redirects
    nothing.  It calls the duplicating primitive at most once.  It gets a
    handle exactly when that call gave it a positive pid, the handle
    carries that very pid, and a new process exists; otherwise it gets a
    [std::system_error], either without having called the primitive or
    after the primitive answered -1, and no new process exists. *)
Theorem caller_never_runs_the_entry pf main flags w l ev :
  (l = fork pf main flags w /\ ev = EvFork) \/
  (l = vfork pf main flags w /\ ev = EvVfork) ->
  count is_entry (run_events (original l)) = O /\
  count is_exit (run_events (original l)) = O /\
  count is_cerr (run_events (original l)) = O /\
  count is_dup2 (run_events (original l)) = O /\
  ((exists cp r,
      run_outcome (original l) = Normal cp /\ 0 < pid cp /\
      duplicate l = Some r /\
      only is_duplication (run_events (original l)) = [ev (pid cp)])
   \/ (exists code,
         run_outcome (original l) = Thrown (system_error code) /\
         duplicate l = None /\
         (only is_duplication (run_events (original l)) = [] \/
          only is_duplication (run_events (original l)) = [ev (-1)]))).
Proof.
  intros H.
  assert (exists before shared,
            Course pf main flags ev before shared w l /\
            Forall (fun e => is_pipe e = true) (run_events (before w)))
    as (before & shared & C & F).
  { destruct H as [[-> ->]|[-> ->]].
    - exists (fork_pipes flags), (fun _ pipes => pipes).
      split; [apply fork_course|apply fork_pipes_events].
    - exists vfork_pipes, vfork_shared.
      split; [apply vfork_course|apply vfork_pipes_events]. }
  assert (P : forall p, phase (ev p) = 1%nat)
    by (destruct H as [[_ ->]|[_ ->]]; reflexivity).
  assert (Ev : forall p, is_duplication (ev p) = true)
    by (destruct H as [[_ ->]|[_ ->]]; reflexivity).
  pose proof (course_original_span pf main flags ev before shared w l C P F)
    as S.
  repeat (split; [apply (span_count _ _ _ _ S); intros [] E;
                  try discriminate E; simpl; lia|]).
  exact (course_caller pf main flags ev before shared w l C Ev F).
Qed.

Lemma caller_never_runs_the_entry_witness :
  exists cp,
    run_outcome (original (vfork demo_platform (returns exit.success) 0
                             (boot [] 4 64))) = Normal cp /\
    only is_duplication
      (run_events (original (vfork demo_platform (returns exit.success) 0
                               (boot [] 4 64))))
    = [EvVfork (pid cp)].
Proof.
  destruct (caller_never_runs_the_entry demo_platform (returns exit.success)
              0 (boot [] 4 64)
              (vfork demo_platform (returns exit.success) 0 (boot [] 4 64))
              EvVfork)
    as (_ & _ & _ & _ & [(cp & r & O & _ & _ & Ev)|(code & O & _)]);
    [right; split; reflexivity| |vm_compute in O; discriminate O].
  exists cp. split; [exact O|exact Ev].
Defined.
